(** * ui-chart: touch-to-domain pipeline

    A shallow embedding of the parts of the charting library that the
    highlighter, the data container and the touch listener are made of:

    - [ChartHighlighter.ts]: nearest-candidate search,
    - [ChartData.ts]: the container of data sets and its aggregate bounds,
    - [BarLineChartTouchListener.ts]: the gesture state machine.

    JavaScript numbers are IEEE 754 binary64 values; they are modelled by
    the standard library's [spec_float], with the comparison and
    arithmetic of [SpecFloat] at precision 53 and maximal exponent 1024. *)

From Stdlib Require Import String.
From Stdlib Require Import ZArith List Bool Lia.
From Stdlib Require Import Floats.SpecFloat.
Import ListNotations.

Set Implicit Arguments.

(* ================================================================= *)
(** * Part I: the embedding *)
(* ================================================================= *)

(** ** JavaScript numbers *)

Module Num.

Definition number := spec_float.

Definition prec : Z := 53.
Definition emax : Z := 1024.

(** [Number.MAX_VALUE], that is (2^53 - 1) * 2^971. *)
Definition MAX_VALUE : number := S754_finite false 9007199254740991 971.

Definition NaN : number := S754_nan.

Definition zero : number := S754_zero false.

(** The literal [1]. *)
Definition one : number := S754_finite false 4503599627370496 (-52).

(** The literal [1.4], rounded to the nearest double. *)
Definition one_point_four : number :=
  S754_finite false 6305039478318694 (-52).

(** [a < b], [a > b], [a == b] on numbers. *)
Definition lt (a b : number) : bool := SFltb a b.
Definition gt (a b : number) : bool := SFltb b a.
Definition eq (a b : number) : bool := SFeqb a b.

(** [a - b], [a + b], [a * b], unary minus and [Math.abs]. *)
Definition sub (a b : number) : number := SFsub prec emax a b.
Definition add (a b : number) : number := SFadd prec emax a b.
Definition mul (a b : number) : number := SFmul prec emax a b.
Definition neg (a : number) : number := SFopp a.
Definition abs (a : number) : number := SFabs a.

(** Conversion of an integer literal, for examples. *)
Definition of_Z (z : Z) : number := binary_normalize prec emax z 0 false.

(** A number that is neither NaN nor an infinity and lies between
    [-MAX_VALUE] and [MAX_VALUE]. *)
Definition finite (a : number) : bool :=
  SFleb (neg MAX_VALUE) a && SFleb a MAX_VALUE.

End Num.

Definition number : Type := Num.number.

(** ** Shared vocabulary *)

(** [AxisDependency] of [components/YAxis]: the y-axis a data set is
    plotted against. *)
Inductive AxisDependency : Type := LEFT | RIGHT.

Definition AxisDependency_eqb (a b : AxisDependency) : bool :=
  match a, b with
  | LEFT, LEFT | RIGHT, RIGHT => true
  | _, _ => false
  end.

(** [Rounding] of [data/DataSet]. *)
Inductive Rounding : Type := UP | DOWN | CLOSEST.

(** A point object [{ x, y }]. *)
Record Point : Type := mkPoint { px : number; py : number }.

(** A highlight candidate, the object literal built by
    [buildHighlights]; [hx] and [hy] are its fields [x] and [y]. *)
Record Highlight : Type := mkHighlight {
  hx : number;
  hy : number;
  xPx : number;
  yPx : number;
  dataSetIndex : nat;
  axis : AxisDependency
}.

(** ** Exceptions and mutable state

    A method runs on a state [S]; it either returns a value or throws, and
    in both cases leaves a state behind: what was assigned before a
    [TypeError] stays assigned. *)

Inductive JSError : Type := TypeError.

Inductive Result (A : Type) : Type :=
| Ok (a : A)
| Throw (e : JSError).

Arguments Ok {A} a.
Arguments Throw {A} e.

Definition M (S A : Type) : Type := S -> Result A * S.

Definition ret {S A : Type} (a : A) : M S A := fun s => (Ok a, s).

Definition throw {S A : Type} (e : JSError) : M S A := fun s => (Throw e, s).

Definition bind {S A B : Type} (m : M S A) (k : A -> M S B) : M S B :=
  fun s =>
    match m s with
    | (Ok a, s') => k a s'
    | (Throw e, s') => (Throw e, s')
    end.

Definition get {S : Type} : M S S := fun s => (Ok s, s).

Definition put {S : Type} (s : S) : M S unit := fun _ => (Ok tt, s).

Definition modify {S : Type} (f : S -> S) : M S unit := fun s => (Ok tt, f s).

Declare Scope js_scope.
Delimit Scope js_scope with js.
Notation "x <- m ;; k" := (bind m (fun x => k))
  (at level 61, m at next level, right associativity) : js_scope.
Notation "m ;;; k" := (bind m (fun _ => k))
  (at level 61, right associativity) : js_scope.

(** A [for (x of xs)] loop whose body may throw. *)
Fixpoint forEach {S A : Type} (xs : list A) (body : A -> M S unit) : M S unit :=
  match xs with
  | [] => ret tt
  | x :: rest => bind (body x) (fun _ => forEach rest body)
  end.

(** [arr[i]] on a JavaScript array: [undefined] outside [0 .. length-1]. *)
Definition index {A : Type} (arr : list A) (i : Z) : option A :=
  if (i <? 0)%Z then None else nth_error arr (Z.to_nat i).

(** ** Extrema with a sentinel

    The bounds of the container are kept by comparisons of the form
    [if (v < b) b = v], starting from a sentinel.  [le] and [lt] are the
    order read in the direction of the extremum sought, [top] is the
    sentinel. *)

Module Extremum.
Section Definitions.

Variables (le lt : number -> number -> bool) (top : number).

(** [b] is the extreme one among the sentinel and the numbers in [P]. *)
Definition bound (P : number -> Prop) (b : number) : Prop :=
  Num.finite b = true
  /\ (b = top \/ P b)
  /\ forall v, P v -> le b v = true.

(** [if (v < b) b = v] *)
Definition pick (b v : number) : number := if lt v b then v else b.

(** The same for a list of numbers, the sentinel standing for the empty
    list only. *)
Definition extreme (vs : list number) (b : number) : Prop :=
  match vs with
  | [] => b = top
  | _ => In b vs /\ forall v, In v vs -> le b v = true
  end.

End Definitions.
End Extremum.

(** ** The data-set interface

    [IDataSet] and [Entry] are collaborators of the container: the
    container only calls the methods below.  A data set is an object on the
    heap; a method that mutates it returns the new object next to its
    result.  [e.getX()] and [e.getY()] are the reads of [ChartData.ts],
    [prop e key] is the read [e[key]] of [ChartHighlighter.ts]. *)

Module DataSet.

Class IEntry (Entry : Type) : Type := {
  getX : Entry -> number;
  getY : Entry -> number;
  prop : Entry -> String.string -> number
}.

Class IDataSet (Entry DS : Type) : Type := {
  getYMin : DS -> number;
  getYMax : DS -> number;
  getXMin : DS -> number;
  getXMax : DS -> number;
  getAxisDependency : DS -> AxisDependency;
  getEntryCount : DS -> nat;
  isHighlightEnabled : DS -> bool;
  xProperty : DS -> String.string;
  yProperty : DS -> String.string;
  getEntriesForXValue : DS -> number -> list Entry;
  getEntryForXValue : DS -> number -> number -> option Rounding -> option Entry;
  addEntry : DS -> Entry -> bool * DS;
  removeEntry : DS -> Entry -> bool * DS;
  (* the entries the data set holds at present *)
  getValues : DS -> list Entry
}.

End DataSet.

(** ** ChartData.ts *)

Module ChartData.
Section Container.

Context {Entry DS : Type}.
Context {entryOps : DataSet.IEntry Entry}.
Context {dataSetOps : DataSet.IDataSet Entry DS}.

(** Data sets are objects: [mDataSets] holds references, and the same
    object may be referenced more than once. *)
Definition ref : Type := nat.
Definition Heap : Type := ref -> DS.

Definition update (h : Heap) (r : ref) (d : DS) : Heap :=
  fun r' => if Nat.eqb r' r then d else h r'.

(** The fields of a [ChartData] object; [mDataSets] may be [null]. *)
Record t : Type := mk {
  mYMax : number;
  mYMin : number;
  mXMax : number;
  mXMin : number;
  mLeftAxisMax : number;
  mLeftAxisMin : number;
  mRightAxisMax : number;
  mRightAxisMin : number;
  mDataSets : option (list ref)
}.

Definition with_mYMax (v : number) (c : t) : t :=
  mk v (mYMin c) (mXMax c) (mXMin c) (mLeftAxisMax c) (mLeftAxisMin c)
     (mRightAxisMax c) (mRightAxisMin c) (mDataSets c).
Definition with_mYMin (v : number) (c : t) : t :=
  mk (mYMax c) v (mXMax c) (mXMin c) (mLeftAxisMax c) (mLeftAxisMin c)
     (mRightAxisMax c) (mRightAxisMin c) (mDataSets c).
Definition with_mXMax (v : number) (c : t) : t :=
  mk (mYMax c) (mYMin c) v (mXMin c) (mLeftAxisMax c) (mLeftAxisMin c)
     (mRightAxisMax c) (mRightAxisMin c) (mDataSets c).
Definition with_mXMin (v : number) (c : t) : t :=
  mk (mYMax c) (mYMin c) (mXMax c) v (mLeftAxisMax c) (mLeftAxisMin c)
     (mRightAxisMax c) (mRightAxisMin c) (mDataSets c).
Definition with_mLeftAxisMax (v : number) (c : t) : t :=
  mk (mYMax c) (mYMin c) (mXMax c) (mXMin c) v (mLeftAxisMin c)
     (mRightAxisMax c) (mRightAxisMin c) (mDataSets c).
Definition with_mLeftAxisMin (v : number) (c : t) : t :=
  mk (mYMax c) (mYMin c) (mXMax c) (mXMin c) (mLeftAxisMax c) v
     (mRightAxisMax c) (mRightAxisMin c) (mDataSets c).
Definition with_mRightAxisMax (v : number) (c : t) : t :=
  mk (mYMax c) (mYMin c) (mXMax c) (mXMin c) (mLeftAxisMax c) (mLeftAxisMin c)
     v (mRightAxisMin c) (mDataSets c).
Definition with_mRightAxisMin (v : number) (c : t) : t :=
  mk (mYMax c) (mYMin c) (mXMax c) (mXMin c) (mLeftAxisMax c) (mLeftAxisMin c)
     (mRightAxisMax c) v (mDataSets c).
Definition with_mDataSets (v : option (list ref)) (c : t) : t :=
  mk (mYMax c) (mYMin c) (mXMax c) (mXMin c) (mLeftAxisMax c) (mLeftAxisMin c)
     (mRightAxisMax c) (mRightAxisMin c) v.

(** The program state a method of the container runs on. *)
Record State : Type := mkState { heap : Heap; this : t }.

Definition on_this (f : t -> t) (s : State) : State :=
  mkState (heap s) (f (this s)).

(** [calcMinMaxForDataSet(d)] *)
Definition calcMinMaxForDataSet (d : DS) (c : t) : t :=
  let c := if Num.lt (mYMax c) (DataSet.getYMax d)
           then with_mYMax (DataSet.getYMax d) c else c in
  let c := if Num.gt (mYMin c) (DataSet.getYMin d)
           then with_mYMin (DataSet.getYMin d) c else c in
  let c := if Num.lt (mXMax c) (DataSet.getXMax d)
           then with_mXMax (DataSet.getXMax d) c else c in
  let c := if Num.gt (mXMin c) (DataSet.getXMin d)
           then with_mXMin (DataSet.getXMin d) c else c in
  match DataSet.getAxisDependency d with
  | LEFT =>
      let c := if Num.lt (mLeftAxisMax c) (DataSet.getYMax d)
               then with_mLeftAxisMax (DataSet.getYMax d) c else c in
      if Num.gt (mLeftAxisMin c) (DataSet.getYMin d)
      then with_mLeftAxisMin (DataSet.getYMin d) c else c
  | RIGHT =>
      let c := if Num.lt (mRightAxisMax c) (DataSet.getYMax d)
               then with_mRightAxisMax (DataSet.getYMax d) c else c in
      if Num.gt (mRightAxisMin c) (DataSet.getYMin d)
      then with_mRightAxisMin (DataSet.getYMin d) c else c
  end.

(** [calcMinMaxForEntry(e, axis)] *)
Definition calcMinMaxForEntry (e : Entry) (ax : AxisDependency) (c : t) : t :=
  let c := if Num.lt (mYMax c) (DataSet.getY e)
           then with_mYMax (DataSet.getY e) c else c in
  let c := if Num.gt (mYMin c) (DataSet.getY e)
           then with_mYMin (DataSet.getY e) c else c in
  let c := if Num.lt (mXMax c) (DataSet.getX e)
           then with_mXMax (DataSet.getX e) c else c in
  let c := if Num.gt (mXMin c) (DataSet.getX e)
           then with_mXMin (DataSet.getX e) c else c in
  match ax with
  | LEFT =>
      let c := if Num.lt (mLeftAxisMax c) (DataSet.getY e)
               then with_mLeftAxisMax (DataSet.getY e) c else c in
      if Num.gt (mLeftAxisMin c) (DataSet.getY e)
      then with_mLeftAxisMin (DataSet.getY e) c else c
  | RIGHT =>
      let c := if Num.lt (mRightAxisMax c) (DataSet.getY e)
               then with_mRightAxisMax (DataSet.getY e) c else c in
      if Num.gt (mRightAxisMin c) (DataSet.getY e)
      then with_mRightAxisMin (DataSet.getY e) c else c
  end.

(** [getFirstLeft(sets)] and [getFirstRight(sets)] *)
Definition getFirstLeft (h : Heap) (sets : list ref) : option DS :=
  find (fun d => AxisDependency_eqb (DataSet.getAxisDependency d) LEFT)
       (map h sets).

Definition getFirstRight (h : Heap) (sets : list ref) : option DS :=
  find (fun d => AxisDependency_eqb (DataSet.getAxisDependency d) RIGHT)
       (map h sets).

(** The two loops of [calcMinMax] over the data sets of one axis. *)
Definition leftAxisStep (c : t) (dataSet : DS) : t :=
  if AxisDependency_eqb (DataSet.getAxisDependency dataSet) LEFT then
    let c := if Num.lt (DataSet.getYMin dataSet) (mLeftAxisMin c)
             then with_mLeftAxisMin (DataSet.getYMin dataSet) c else c in
    if Num.gt (DataSet.getYMax dataSet) (mLeftAxisMax c)
    then with_mLeftAxisMax (DataSet.getYMax dataSet) c else c
  else c.

Definition rightAxisStep (c : t) (dataSet : DS) : t :=
  if AxisDependency_eqb (DataSet.getAxisDependency dataSet) RIGHT then
    let c := if Num.lt (DataSet.getYMin dataSet) (mRightAxisMin c)
             then with_mRightAxisMin (DataSet.getYMin dataSet) c else c in
    if Num.gt (DataSet.getYMax dataSet) (mRightAxisMax c)
    then with_mRightAxisMax (DataSet.getYMax dataSet) c else c
  else c.

(** [calcMinMax()] *)
Definition calcMinMax (h : Heap) (c : t) : t :=
  match mDataSets c with
  | None => c
  | Some sets =>
      let c := with_mYMax (Num.neg Num.MAX_VALUE) c in
      let c := with_mYMin Num.MAX_VALUE c in
      let c := with_mXMax (Num.neg Num.MAX_VALUE) c in
      let c := with_mXMin Num.MAX_VALUE c in
      let c := fold_left (fun c d => calcMinMaxForDataSet d c) (map h sets) c in
      let c := with_mLeftAxisMax (Num.neg Num.MAX_VALUE) c in
      let c := with_mLeftAxisMin Num.MAX_VALUE c in
      let c := with_mRightAxisMax (Num.neg Num.MAX_VALUE) c in
      let c := with_mRightAxisMin Num.MAX_VALUE c in
      let c :=
        match getFirstLeft h sets with
        | Some firstLeft =>
            let c := with_mLeftAxisMax (DataSet.getYMax firstLeft) c in
            let c := with_mLeftAxisMin (DataSet.getYMin firstLeft) c in
            fold_left leftAxisStep (map h sets) c
        | None => c
        end in
      match getFirstRight h sets with
      | Some firstRight =>
          let c := with_mRightAxisMax (DataSet.getYMax firstRight) c in
          let c := with_mRightAxisMin (DataSet.getYMin firstRight) c in
          fold_left rightAxisStep (map h sets) c
      | None => c
      end
  end.

(** [notifyDataChanged()] *)
Definition notifyDataChanged (h : Heap) (c : t) : t := calcMinMax h c.

(** The field initialisers and the constructor. *)
Definition initial (dataSets : option (list ref)) : t :=
  mk (Num.neg Num.MAX_VALUE) Num.MAX_VALUE
     (Num.neg Num.MAX_VALUE) Num.MAX_VALUE
     (Num.neg Num.MAX_VALUE) Num.MAX_VALUE
     (Num.neg Num.MAX_VALUE) Num.MAX_VALUE
     dataSets.

Definition constructor (h : Heap) (dataSets : option (list ref)) : State :=
  mkState h (notifyDataChanged h (initial dataSets)).

(** [getDataSetCount()] *)
Definition getDataSetCount (c : t) : Z :=
  match mDataSets c with
  | None => 0
  | Some sets => Z.of_nat (List.length sets)
  end.

(** [getYMin(axis?)] and [getYMax(axis?)]; [None] is a call without
    argument. *)
Definition getYMin (ax : option AxisDependency) (c : t) : number :=
  match ax with
  | None => mYMin c
  | Some LEFT =>
      if Num.eq (mLeftAxisMin c) Num.MAX_VALUE
      then mRightAxisMin c else mLeftAxisMin c
  | Some RIGHT =>
      if Num.eq (mRightAxisMin c) Num.MAX_VALUE
      then mLeftAxisMin c else mRightAxisMin c
  end.

Definition getYMax (ax : option AxisDependency) (c : t) : number :=
  match ax with
  | None => mYMax c
  | Some LEFT =>
      if Num.eq (mLeftAxisMax c) (Num.neg Num.MAX_VALUE)
      then mRightAxisMax c else mLeftAxisMax c
  | Some RIGHT =>
      if Num.eq (mRightAxisMax c) (Num.neg Num.MAX_VALUE)
      then mLeftAxisMax c else mRightAxisMax c
  end.

Definition getXMin (c : t) : number := mXMin c.
Definition getXMax (c : t) : number := mXMax c.

(** [getDataSetByIndex(index)] *)
Definition getDataSetByIndex (i : Z) (c : t) : option ref :=
  match mDataSets c with
  | None => None
  | Some sets =>
      if (i <? 0)%Z || (i >=? Z.of_nat (List.length sets))%Z then None
      else index sets i
  end.

(** [this.mDataSets.indexOf(d)]: identity of references, -1 when absent. *)
Fixpoint indexOf (sets : list ref) (d : ref) : Z :=
  match sets with
  | [] => -1
  | r :: rest =>
      if Nat.eqb r d then 0
      else let i := indexOf rest d in
           if (i <? 0)%Z then -1 else (i + 1)%Z
  end.

(** [this.mDataSets.splice(index, 1)] for an index inside the array. *)
Fixpoint removeAt (sets : list ref) (i : nat) : list ref :=
  match sets, i with
  | [], _ => []
  | _ :: rest, O => rest
  | r :: rest, S i' => r :: removeAt rest i'
  end.

(** [addDataSet(d)]: the bounds are widened before [push] is reached. *)
Definition addDataSet (d : option ref) : M State unit :=
  match d with
  | None => ret tt
  | Some r => fun s =>
      let s := on_this (calcMinMaxForDataSet (heap s r)) s in
      match mDataSets (this s) with
      | None => (Throw TypeError, s)
      | Some sets => (Ok tt, on_this (with_mDataSets (Some (sets ++ [r]))) s)
      end
  end.

(** [removeDataSet(d)] *)
Definition removeDataSet (d : option ref) : M State bool :=
  match d with
  | None => ret false
  | Some r => fun s =>
      match mDataSets (this s) with
      | None => (Throw TypeError, s)
      | Some sets =>
          let i := indexOf sets r in
          if (i >=? 0)%Z then
            let s := on_this (with_mDataSets (Some (removeAt sets (Z.to_nat i)))) s in
            (Ok true, on_this (calcMinMax (heap s)) s)
          else (Ok false, s)
      end
  end.

(** [removeDataSetAtIndex(index)] *)
Definition removeDataSetAtIndex (i : Z) : M State bool := fun s =>
  match mDataSets (this s) with
  | None => (Throw TypeError, s)
  | Some sets =>
      if (i >=? Z.of_nat (List.length sets))%Z || (i <? 0)%Z then (Ok false, s)
      else
        let s := on_this (with_mDataSets (Some (removeAt sets (Z.to_nat i)))) s in
        (Ok true, on_this (calcMinMax (heap s)) s)
  end.

(** [addEntry(e, dataSetIndex)]; the [console.error] of the else branch
    changes nothing. *)
Definition addEntry (e : Entry) (dataSetIndex : Z) : M State unit := fun s =>
  match mDataSets (this s) with
  | None => (Throw TypeError, s)
  | Some sets =>
      if (Z.of_nat (List.length sets) >? dataSetIndex)%Z && (dataSetIndex >=? 0)%Z then
        match index sets dataSetIndex with
        | None => (Throw TypeError, s)
        | Some r =>
            let (added, set') := DataSet.addEntry (heap s r) e in
            let s := mkState (update (heap s) r set') (this s) in
            if negb added then (Ok tt, s)
            else (Ok tt, on_this (calcMinMaxForEntry e
                                    (DataSet.getAxisDependency (heap s r))) s)
        end
      else (Ok tt, s)
  end.

(** [removeEntry(e, dataSetIndex)]: [e == null] is tested first, and an
    [undefined] element of the array fails the test [set != null]. *)
Definition removeEntry (e : option Entry) (dataSetIndex : Z) : M State bool :=
  fun s =>
  match e with
  | None => (Ok false, s)
  | Some e =>
      match mDataSets (this s) with
      | None => (Throw TypeError, s)
      | Some sets =>
          if (dataSetIndex >=? Z.of_nat (List.length sets))%Z then (Ok false, s)
          else
            match index sets dataSetIndex with
            | Some r =>
                let (removed, set') := DataSet.removeEntry (heap s r) e in
                let s := mkState (update (heap s) r set') (this s) in
                if removed then (Ok removed, on_this (calcMinMax (heap s)) s)
                else (Ok removed, s)
            | None => (Ok false, s)
            end
      end
  end.

(** [removeEntryForXValue(xValue, dataSetIndex)]: the method call on the
    array element comes before any test of it. *)
Definition removeEntryForXValue (xValue : number) (dataSetIndex : Z)
  : M State bool := fun s =>
  match mDataSets (this s) with
  | None => (Throw TypeError, s)
  | Some sets =>
      if (dataSetIndex >=? Z.of_nat (List.length sets))%Z then (Ok false, s)
      else
        match index sets dataSetIndex with
        | None => (Throw TypeError, s)
        | Some r =>
            match DataSet.getEntryForXValue (heap s r) xValue Num.NaN None with
            | None => (Ok false, s)
            | Some e => removeEntry (Some e) dataSetIndex s
            end
        end
  end.

(** [clearValues()] *)
Definition clearValues : M State unit := fun s =>
  let s := match mDataSets (this s) with
           | Some _ => on_this (with_mDataSets (Some [])) s
           | None => s
           end in
  (Ok tt, on_this (notifyDataChanged (heap s)) s).

(** [getEntryCount()]: iterating [null] throws. *)
Definition getEntryCount : M State nat := fun s =>
  match mDataSets (this s) with
  | None => (Throw TypeError, s)
  | Some sets =>
      (Ok (fold_left (fun count r => count + DataSet.getEntryCount (heap s r))
                     sets 0), s)
  end.

(** The mutations a client applies to a container. *)
Inductive Op : Type :=
| AddEntry (e : Entry) (dataSetIndex : Z)
| RemoveEntry (e : option Entry) (dataSetIndex : Z)
| AddDataSet (d : option ref)
| RemoveDataSet (d : option ref)
| ClearValues.

Definition exec (op : Op) : M State unit :=
  match op with
  | AddEntry e i => addEntry e i
  | RemoveEntry e i => bind (removeEntry e i) (fun _ => ret tt)
  | AddDataSet d => addDataSet d
  | RemoveDataSet d => bind (removeDataSet d) (fun _ => ret tt)
  | ClearValues => clearValues
  end.

Definition run (ops : list Op) : M State unit := forEach ops exec.

(** *** Look-ups *)

(** [getDataSets()] *)
Definition getDataSets (c : t) : option (list ref) := mDataSets c.

(** [getIndexOfDataSet(dataSet)] *)
Definition getIndexOfDataSet (dataSet : ref) : M State Z := fun s =>
  match mDataSets (this s) with
  | None => (Throw TypeError, s)
  | Some sets => (Ok (indexOf sets dataSet), s)
  end.

(** [contains(dataSet)] *)
Definition contains (dataSet : ref) : M State bool := fun s =>
  match mDataSets (this s) with
  | None => (Throw TypeError, s)
  | Some sets => (Ok (indexOf sets dataSet >=? 0)%Z, s)
  end.

(** The loop of [isHighlightEnabled()], which returns at the first data
    set that is not enabled. *)
Fixpoint allHighlightEnabled (h : Heap) (sets : list ref) : bool :=
  match sets with
  | [] => true
  | set :: rest =>
      if negb (DataSet.isHighlightEnabled (h set)) then false
      else allHighlightEnabled h rest
  end.

(** [isHighlightEnabled()] *)
Definition isHighlightEnabled : M State bool := fun s =>
  match mDataSets (this s) with
  | None => (Throw TypeError, s)
  | Some sets => (Ok (allHighlightEnabled (heap s) sets), s)
  end.

(** [getMaxEntryCountSet()] *)
Definition getMaxEntryCountSet (h : Heap) (c : t) : option ref :=
  match mDataSets c with
  | None => None
  | Some sets =>
      match sets with
      | [] => None
      | first :: _ =>
          Some (fold_left
                  (fun max set =>
                     if (DataSet.getEntryCount (h max)
                         <? DataSet.getEntryCount (h set))%nat
                     then set else max)
                  sets first)
      end
  end.

(** *** What exact bounds are

    The vocabulary in which the exactness of the aggregate bounds is
    stated. *)

(** [b] is the least of [vs], or the sentinel [Number.MAX_VALUE] when
    there is none. *)
Definition is_min (vs : list number) (b : number) : Prop :=
  match vs with
  | [] => b = Num.MAX_VALUE
  | _ => In b vs /\ forall v, In v vs -> SFleb b v = true
  end.

(** [b] is the greatest of [vs], or the sentinel [-Number.MAX_VALUE] when
    there is none. *)
Definition is_max (vs : list number) (b : number) : Prop :=
  match vs with
  | [] => b = Num.neg Num.MAX_VALUE
  | _ => In b vs /\ forall v, In v vs -> SFleb v b = true
  end.

(** The entries present in the data sets [sets], and those of them whose
    data set depends on the axis [ax]. *)
Definition entriesOf (h : Heap) (sets : list ref) : list Entry :=
  flat_map (fun r => DataSet.getValues (h r)) sets.

Definition entriesOn (ax : AxisDependency) (h : Heap) (sets : list ref)
  : list Entry :=
  entriesOf h
    (filter (fun r => AxisDependency_eqb (DataSet.getAxisDependency (h r)) ax)
            sets).

(** The aggregate bounds of the container are the minima and maxima over
    the entries present. *)
Definition exactBounds (s : State) : Prop :=
  exists sets,
    mDataSets (this s) = Some sets
    /\ is_min (map DataSet.getX (entriesOf (heap s) sets)) (mXMin (this s))
    /\ is_max (map DataSet.getX (entriesOf (heap s) sets)) (mXMax (this s))
    /\ is_min (map DataSet.getY (entriesOf (heap s) sets)) (mYMin (this s))
    /\ is_max (map DataSet.getY (entriesOf (heap s) sets)) (mYMax (this s))
    /\ is_min (map DataSet.getY (entriesOn LEFT (heap s) sets))
              (mLeftAxisMin (this s))
    /\ is_max (map DataSet.getY (entriesOn LEFT (heap s) sets))
              (mLeftAxisMax (this s))
    /\ is_min (map DataSet.getY (entriesOn RIGHT (heap s) sets))
              (mRightAxisMin (this s))
    /\ is_max (map DataSet.getY (entriesOn RIGHT (heap s) sets))
              (mRightAxisMax (this s)).

(** Entries whose coordinates are finite numbers. *)
Definition finiteEntry (e : Entry) : Prop :=
  Num.finite (DataSet.getX e) = true /\ Num.finite (DataSet.getY e) = true.

Definition finiteHeap (h : Heap) : Prop :=
  forall r, Forall finiteEntry (DataSet.getValues (h r)).

Definition finiteOp (op : Op) : Prop :=
  match op with
  | AddEntry e _ => finiteEntry e
  | _ => True
  end.

(** What the container relies on in its data sets: a data set reports the
    minima and maxima of the entries it holds (the sentinels when it holds
    none); [addEntry] and [removeEntry] keep the axis dependency;
    [addEntry] adds the entry when it answers [true] and nothing when it
    answers [false]; [removeEntry] adds nothing, and removes nothing when
    it answers [false]. *)
Class DataSetContract : Prop := {
  bounds_of_values : forall d,
    Forall finiteEntry (DataSet.getValues d) ->
    is_min (map DataSet.getX (DataSet.getValues d)) (DataSet.getXMin d)
    /\ is_max (map DataSet.getX (DataSet.getValues d)) (DataSet.getXMax d)
    /\ is_min (map DataSet.getY (DataSet.getValues d)) (DataSet.getYMin d)
    /\ is_max (map DataSet.getY (DataSet.getValues d)) (DataSet.getYMax d);
  addEntry_values : forall d e,
    DataSet.getAxisDependency (snd (DataSet.addEntry d e))
    = DataSet.getAxisDependency d
    /\ forall x, In x (DataSet.getValues (snd (DataSet.addEntry d e)))
                 <-> In x (DataSet.getValues d)
                     \/ (fst (DataSet.addEntry d e) = true /\ x = e);
  removeEntry_values : forall d e,
    DataSet.getAxisDependency (snd (DataSet.removeEntry d e))
    = DataSet.getAxisDependency d
    /\ (forall x, In x (DataSet.getValues (snd (DataSet.removeEntry d e))) ->
                  In x (DataSet.getValues d))
    /\ (fst (DataSet.removeEntry d e) = false ->
        forall x, In x (DataSet.getValues d) ->
                  In x (DataSet.getValues (snd (DataSet.removeEntry d e))))
}.

(** The same exactness read on the data sets themselves, as the loops of
    the container maintain it: a bound is the extreme one among the
    sentinel and the coordinates found in the selected data sets. *)

(** All data sets ([None]) or the data sets of one axis. *)
Definition onAxis (o : option AxisDependency) (d : DS) : bool :=
  match o with
  | None => true
  | Some ax => AxisDependency_eqb (DataSet.getAxisDependency d) ax
  end.

(** [v] is the coordinate [proj] of an entry held by the data set [d]. *)
Definition valueIn (proj : Entry -> number) (d : DS) (v : number) : Prop :=
  exists e, In e (DataSet.getValues d) /\ proj e = v.

(** [v] is the coordinate [proj] of an entry present in a selected data
    set of the container. *)
Definition valueOn (proj : Entry -> number) (o : option AxisDependency)
           (h : Heap) (sets : list ref) (v : number) : Prop :=
  exists r, In r sets /\ onAxis o (h r) = true /\ valueIn proj (h r) v.

Definition minBound : (number -> Prop) -> number -> Prop :=
  Extremum.bound SFleb Num.MAX_VALUE.

Definition maxBound : (number -> Prop) -> number -> Prop :=
  Extremum.bound (fun a b => SFleb b a) (Num.neg Num.MAX_VALUE).

Definition pickMin : number -> number -> number :=
  Extremum.pick (fun a b => Num.lt a b).

Definition pickMax : number -> number -> number :=
  Extremum.pick (fun a b => Num.lt b a).

Definition boundsInv (s : State) : Prop :=
  exists sets,
    mDataSets (this s) = Some sets
    /\ minBound (valueOn DataSet.getX None (heap s) sets) (mXMin (this s))
    /\ maxBound (valueOn DataSet.getX None (heap s) sets) (mXMax (this s))
    /\ minBound (valueOn DataSet.getY None (heap s) sets) (mYMin (this s))
    /\ maxBound (valueOn DataSet.getY None (heap s) sets) (mYMax (this s))
    /\ minBound (valueOn DataSet.getY (Some LEFT) (heap s) sets)
                (mLeftAxisMin (this s))
    /\ maxBound (valueOn DataSet.getY (Some LEFT) (heap s) sets)
                (mLeftAxisMax (this s))
    /\ minBound (valueOn DataSet.getY (Some RIGHT) (heap s) sets)
                (mRightAxisMin (this s))
    /\ maxBound (valueOn DataSet.getY (Some RIGHT) (heap s) sets)
                (mRightAxisMax (this s)).

(** *** An axis without data set *)

(** The two bounds kept for the axis [ax]. *)
Definition axisMin (ax : AxisDependency) (c : t) : number :=
  match ax with
  | LEFT => mLeftAxisMin c
  | RIGHT => mRightAxisMin c
  end.

Definition axisMax (ax : AxisDependency) (c : t) : number :=
  match ax with
  | LEFT => mLeftAxisMax c
  | RIGHT => mRightAxisMax c
  end.

(** The container holds no data set that depends on the axis [ax]. *)
Definition noDataSetOn (ax : AxisDependency) (s : State) : Prop :=
  match mDataSets (this s) with
  | None => True
  | Some sets =>
      forall r, In r sets -> DataSet.getAxisDependency (heap s r) <> ax
  end.

(** What the mutations keep on a container with an array: the bounds of
    an axis without data set hold their sentinels. *)
Definition sentinelInv (s : State) : Prop :=
  (exists sets, mDataSets (this s) = Some sets)
  /\ forall ax, noDataSetOn ax s ->
       axisMin ax (this s) = Num.MAX_VALUE
       /\ axisMax ax (this s) = Num.neg Num.MAX_VALUE.

End Container.
End ChartData.

(** ** ChartHighlighter.ts *)

Module ChartHighlighter.
Section Highlighter.

Context {Entry DS : Type}.
Context {entryOps : DataSet.IEntry Entry}.
Context {dataSetOps : DataSet.IDataSet Entry DS}.

(** [Math.hypot] on two arguments. *)
Variable hypot : number -> number -> number.

(** What the highlighter asks of its chart: the two transformers (one per
    axis), the maximum highlight distance and the data, which may be
    [null]. *)
Record DataProvider : Type := mkProvider {
  getValuesByTouchPoint : AxisDependency -> number -> number -> Point;
  getPixelForValues : AxisDependency -> number -> number -> Point;
  getMaxHighlightDistance : number;
  heap : @ChartData.Heap DS;
  getData : option ChartData.t
}.

(** The mutable field of the highlighter, [mHighlightBuffer]. *)
Definition Buffer : Type := list Highlight.

(** [getDistance(x1, y1, x2, y2)] *)
Definition getDistance (x1 y1 x2 y2 : number) : number :=
  hypot (Num.sub x1 x2) (Num.sub y1 y2).

(** [getHighlightPos(h)] *)
Definition getHighlightPos (h : Highlight) : number := yPx h.

(** [closestValues.get(i)].  [closestValues] is the array that
    [getHighlightsAtXValue] fills and returns, and an array has no member
    [get]: the call of [undefined] throws. *)
Definition array_get {S A : Type} (arr : list A) (i : nat) : M S A :=
  throw TypeError.

(** [high.getAxis()].  A candidate is the object literal of
    [buildHighlights], which has the field [axis] and no member
    [getAxis]. *)
Definition candidate_getAxis {S : Type} (high : Highlight)
  : M S AxisDependency :=
  throw TypeError.

(** The loop of [getMinimumDistance] over the indices still to visit,
    holding [distance]. *)
Fixpoint minimumDistanceLoop {S : Type} (closestValues : list Highlight)
         (pos : number) (ax : AxisDependency) (indices : list nat)
         (distance : number) : M S number :=
  match indices with
  | [] => ret distance
  | i :: rest =>
      (high <- array_get closestValues i ;;
       highAxis <- candidate_getAxis high ;;
       let distance :=
         if AxisDependency_eqb highAxis ax then
           let tempDistance := Num.abs (Num.sub (getHighlightPos high) pos) in
           if Num.lt tempDistance distance then tempDistance else distance
         else distance in
       minimumDistanceLoop closestValues pos ax rest distance)%js
  end.

(** [getMinimumDistance(closestValues, pos, axis)] *)
Definition getMinimumDistance {S : Type} (closestValues : list Highlight)
           (pos : number) (ax : AxisDependency) : M S number :=
  minimumDistanceLoop closestValues pos ax
    (seq 0 (List.length closestValues)) Num.MAX_VALUE.

(** One turn of the loop of [getClosestHighlightByPixel] on the pair
    [(closest, distance)]; [ax = None] is the call with [axis == null]. *)
Definition closestStep (x y : number) (ax : option AxisDependency)
           (acc : option Highlight * number) (high : Highlight)
  : option Highlight * number :=
  let '(closest, distance) := acc in
  if match ax with
     | None => true
     | Some a => AxisDependency_eqb (axis high) a
     end
  then
    let cDistance := getDistance x y (xPx high) (yPx high) in
    if Num.lt cDistance distance then (Some high, cDistance)
    else (closest, distance)
  else (closest, distance).

(** [getClosestHighlightByPixel(closestValues, x, y, axis,
    minSelectionDistance)] *)
Definition getClosestHighlightByPixel (closestValues : list Highlight)
           (x y : number) (ax : option AxisDependency)
           (minSelectionDistance : number) : option Highlight :=
  fst (fold_left (closestStep x y ax) closestValues
                 (None, minSelectionDistance)).

(** What the loop of [getClosestHighlightByPixel] knows about the
    candidates [seen] so far when it holds [(closest, distance)], for a
    touch at [(x, y)], the axis [ax] and the selection distance [d]. *)
Definition closest_inv (x y : number) (ax : AxisDependency) (d : number)
           (seen : list Highlight) (acc : option Highlight * number) : Prop :=
  let dist h := getDistance x y (xPx h) (yPx h) in
  match fst acc with
  | None =>
      snd acc = d
      /\ forall h, In h seen -> axis h = ax -> Num.lt (dist h) d = false
  | Some c =>
      In c seen /\ axis c = ax /\ snd acc = dist c
      /\ Num.lt (dist c) d = true
      /\ forall h, In h seen -> axis h = ax -> Num.lt (dist h) (dist c) = false
  end.

(** The test [axis == null || high.axis == axis] of that loop. *)
Definition considered (ax : option AxisDependency) (h : Highlight) : bool :=
  match ax with
  | None => true
  | Some a => AxisDependency_eqb (axis h) a
  end.

(** The same knowledge with the places in the list: the candidate held
    is strictly closer than each candidate considered before it and no
    candidate considered after it is strictly closer. *)
Definition scan_inv (x y : number) (ax : option AxisDependency) (d : number)
           (seen : list Highlight) (acc : option Highlight * number) : Prop :=
  let dist h := getDistance x y (xPx h) (yPx h) in
  match fst acc with
  | None =>
      snd acc = d
      /\ forall h, In h seen -> considered ax h = true ->
                   Num.lt (dist h) d = false
  | Some c =>
      snd acc = dist c /\ Num.lt (dist c) d = true
      /\ exists before after,
          seen = before ++ c :: after
          /\ considered ax c = true
          /\ (forall h, In h before -> considered ax h = true ->
                dist h <> Num.NaN -> Num.lt (dist c) (dist h) = true)
          /\ (forall h, In h after -> considered ax h = true ->
                Num.lt (dist h) (dist c) = false)
  end.

(** [buildHighlights(set, dataSetIndex, xVal, rounding)] *)
Definition buildHighlights (chart : DataProvider) (set : DS)
           (dataSetIndex : nat) (xVal : number) (rounding : Rounding)
  : list Highlight :=
  let xProperty := DataSet.xProperty set in
  let yProperty := DataSet.yProperty set in
  let entries := DataSet.getEntriesForXValue set xVal in
  let entries :=
    match entries with
    | [] =>
        match DataSet.getEntryForXValue set xVal Num.NaN (Some rounding) with
        | Some closest =>
            DataSet.getEntriesForXValue set (DataSet.prop closest xProperty)
        | None => entries
        end
    | _ => entries
    end in
  map (fun e =>
         let pixels := getPixelForValues chart (DataSet.getAxisDependency set)
                         (DataSet.prop e xProperty) (DataSet.prop e yProperty) in
         mkHighlight (DataSet.prop e xProperty) (DataSet.prop e yProperty)
                     (px pixels) (py pixels) dataSetIndex
                     (DataSet.getAxisDependency set))
      entries.

(** [getHighlightsAtXValue(xVal, x, y)]: the buffer is replaced by a new
    array, filled and returned. *)
Definition getHighlightsAtXValue (chart : DataProvider) (xVal x y : number)
  : M Buffer (list Highlight) :=
  (put [] ;;;
   match getData chart with
   | None => get
   | Some data =>
       forEach (seq 0 (Z.to_nat (ChartData.getDataSetCount data)))
         (fun i =>
            match ChartData.getDataSetByIndex (Z.of_nat i) data with
            | None => throw TypeError
            | Some r =>
                let dataSet := heap chart r in
                if negb (DataSet.isHighlightEnabled dataSet) then ret tt
                else modify (fun buffer =>
                       buffer ++ buildHighlights chart dataSet i xVal CLOSEST)
            end) ;;;
       get
   end)%js.

(** [getHighlightForX(xVal, x, y)] *)
Definition getHighlightForX (chart : DataProvider) (xVal x y : number)
  : M Buffer (option Highlight) :=
  (closestValues <- getHighlightsAtXValue chart xVal x y ;;
   if Nat.eqb (List.length closestValues) 0 then ret None
   else
     leftAxisMinDist <- getMinimumDistance closestValues y LEFT ;;
     rightAxisMinDist <- getMinimumDistance closestValues y RIGHT ;;
     let axis :=
       if Num.lt leftAxisMinDist rightAxisMinDist then LEFT else RIGHT in
     ret (getClosestHighlightByPixel closestValues x y (Some axis)
            (getMaxHighlightDistance chart)))%js.

(** [getValsForTouch(x, y)] *)
Definition getValsForTouch (chart : DataProvider) (x y : number) : Point :=
  getValuesByTouchPoint chart LEFT x y.

(** [getHighlight(x, y)] *)
Definition getHighlight (chart : DataProvider) (x y : number)
  : M Buffer (option Highlight) :=
  let pos := getValsForTouch chart x y in
  let xVal := px pos in
  getHighlightForX chart xVal x y.

End Highlighter.
End ChartHighlighter.

(** ** BarLineChartTouchListener.ts *)

(** The touch modes of [ChartTouchListener]. *)
Module TouchMode.
Inductive t : Type :=
  NONE | DRAG | X_ZOOM | Y_ZOOM | PINCH_ZOOM | POST_ZOOM | ROTATE.

Definition eqb (a b : t) : bool :=
  match a, b with
  | NONE, NONE | DRAG, DRAG | X_ZOOM, X_ZOOM | Y_ZOOM, Y_ZOOM
  | PINCH_ZOOM, PINCH_ZOOM | POST_ZOOM, POST_ZOOM | ROTATE, ROTATE => true
  | _, _ => false
  end.
End TouchMode.

(** The enumeration [ChartGesture]. *)
Module ChartGesture.
Inductive t : Type :=
  NONE | DRAG | X_ZOOM | Y_ZOOM | PINCH_ZOOM | ROTATE | SINGLE_TAP
| DOUBLE_TAP | LONG_PRESS | FLING.
End ChartGesture.

(** [GestureState] of the gesture-handler library. *)
Module GestureState.
Inductive t : Type :=
  UNDETERMINED | FAILED | BEGAN | CANCELLED | ACTIVE | END.

Definition eqb (a b : t) : bool :=
  match a, b with
  | UNDETERMINED, UNDETERMINED | FAILED, FAILED | BEGAN, BEGAN
  | CANCELLED, CANCELLED | ACTIVE, ACTIVE | END, END => true
  | _, _ => false
  end.
End GestureState.

(** The matrix class of the canvas library: an object whose value is
    changed in place by [postTranslate] and [postScale]; [a.set(b)] gives
    [a] the value of [b]. *)
Class MatrixOps (Matrix : Type) : Type := {
  postTranslate : Matrix -> number -> number -> Matrix;
  postScale : Matrix -> number -> number -> number -> number -> Matrix
}.

Module BarLineChartTouchListener.
Section Listener.

Context {Entry DS Matrix : Type}.
Context {entryOps : DataSet.IEntry Entry}.
Context {dataSetOps : DataSet.IDataSet Entry DS}.
Context {matrixOps : MatrixOps Matrix}.

(** [event.data.extraData] and [event.data]. *)
Record ExtraData : Type := mkExtraData {
  translationX : number;
  translationY : number;
  velocityX : number;
  velocityY : number;
  scale : number;
  focalX : number;
  focalY : number;
  numberOfPointers : Z;
  positions : list number;
  x : number;
  y : number
}.

Record EventData : Type := mkEventData {
  state : GestureState.t;
  prevState : GestureState.t;
  extraData : ExtraData
}.

(** A highlight object returned by the chart; [id] stands for the
    identity that [!==] compares.  Two objects with the same [value] may
    differ in identity: a chart that answers through [ChartHighlighter]
    hands out an object built anew at each query. *)
Record HighlightRef : Type := mkHighlightRef {
  id : nat;
  value : Highlight
}.

(** The view-port handler as the listener reads it. *)
Record ViewPortHandler : Type := mkViewPortHandler {
  offsetLeft : number;
  offsetTop : number;
  offsetBottom : number;
  getChartHeight : number;
  canZoomOutMoreX : bool;
  canZoomInMoreX : bool;
  canZoomOutMoreY : bool;
  canZoomInMoreY : bool;
  (* the matrix [refresh(newMatrix, chart, true)] returns *)
  refresh : Matrix -> Matrix
}.

(** The chart as one handler invocation reads it; the next invocation
    may read another one.  [getHighlightByTouchPoint], which a handler
    calls at most once, is taken to return. *)
Record Chart : Type := mkChart {
  isHighlightPerDragEnabled : bool;
  isHighlightPerTapEnabled : bool;
  isDragEnabled : bool;
  isDragXEnabled : bool;
  isDragYEnabled : bool;
  isScaleXEnabled : bool;
  isScaleYEnabled : bool;
  isPinchZoomEnabled : bool;
  isDoubleTapToZoomEnabled : bool;
  isFullyZoomedOut : bool;
  hasNoDragOffset : bool;
  zoomedPanWith2Pointers : bool;
  isAnyAxisInverted : bool;
  isInverted : AxisDependency -> bool;
  hasListeners : String.string -> bool;
  getHighlightByTouchPoint : number -> number -> option HighlightRef;
  getViewPortHandler : ViewPortHandler;
  heap : @ChartData.Heap DS;
  getData : option ChartData.t
}.

(** What a handler asks the chart to do, in call order. *)
Inductive Payload : Type :=
| GestureData (data : EventData)
| GestureHighlight (data : EventData) (highlight : option HighlightRef)
| ZoomData (scaleX scaleY tx ty : number)
| TranslateData (distanceX distanceY : number).

Inductive Call : Type :=
| notify (eventName : String.string) (payload : Payload)
| disableScroll
| enableScroll
| invalidate
| calculateOffsets
| zoom (scaleX scaleY tx ty : number)
| highlight (h : HighlightRef) (callListener : bool)
| refreshed (m : Matrix).

(** [mLastGesture] is assigned members of [ChartGesture] and, in
    [performDrag], the touch-mode constant [ChartTouchListener.DRAG]. *)
Inductive LastGesture : Type :=
| Gesture (g : ChartGesture.t)
| Mode (m : TouchMode.t).

(** The fields of the listener. *)
Record t : Type := mk {
  mMatrix : Matrix;
  mSavedMatrix : Matrix;
  mTouchPointCenter : Point;
  mSavedXDist : number;
  mSavedYDist : number;
  mClosestDataSetToTouch : option DS;
  mDecelerationVelocity : Point;
  mTouchMode : TouchMode.t;
  mLastGesture : LastGesture;
  mLastHighlighted : option HighlightRef
}.

Definition with_mMatrix (v : Matrix) (l : t) : t :=
  mk v (mSavedMatrix l) (mTouchPointCenter l) (mSavedXDist l) (mSavedYDist l)
     (mClosestDataSetToTouch l) (mDecelerationVelocity l) (mTouchMode l)
     (mLastGesture l) (mLastHighlighted l).
Definition with_mSavedMatrix (v : Matrix) (l : t) : t :=
  mk (mMatrix l) v (mTouchPointCenter l) (mSavedXDist l) (mSavedYDist l)
     (mClosestDataSetToTouch l) (mDecelerationVelocity l) (mTouchMode l)
     (mLastGesture l) (mLastHighlighted l).
Definition with_mTouchPointCenter (v : Point) (l : t) : t :=
  mk (mMatrix l) (mSavedMatrix l) v (mSavedXDist l) (mSavedYDist l)
     (mClosestDataSetToTouch l) (mDecelerationVelocity l) (mTouchMode l)
     (mLastGesture l) (mLastHighlighted l).
Definition with_mSavedXDist (v : number) (l : t) : t :=
  mk (mMatrix l) (mSavedMatrix l) (mTouchPointCenter l) v (mSavedYDist l)
     (mClosestDataSetToTouch l) (mDecelerationVelocity l) (mTouchMode l)
     (mLastGesture l) (mLastHighlighted l).
Definition with_mSavedYDist (v : number) (l : t) : t :=
  mk (mMatrix l) (mSavedMatrix l) (mTouchPointCenter l) (mSavedXDist l) v
     (mClosestDataSetToTouch l) (mDecelerationVelocity l) (mTouchMode l)
     (mLastGesture l) (mLastHighlighted l).
Definition with_mDecelerationVelocity (v : Point) (l : t) : t :=
  mk (mMatrix l) (mSavedMatrix l) (mTouchPointCenter l) (mSavedXDist l)
     (mSavedYDist l) (mClosestDataSetToTouch l) v (mTouchMode l)
     (mLastGesture l) (mLastHighlighted l).
Definition with_mTouchMode (v : TouchMode.t) (l : t) : t :=
  mk (mMatrix l) (mSavedMatrix l) (mTouchPointCenter l) (mSavedXDist l)
     (mSavedYDist l) (mClosestDataSetToTouch l) (mDecelerationVelocity l) v
     (mLastGesture l) (mLastHighlighted l).
Definition with_mLastGesture (v : LastGesture) (l : t) : t :=
  mk (mMatrix l) (mSavedMatrix l) (mTouchPointCenter l) (mSavedXDist l)
     (mSavedYDist l) (mClosestDataSetToTouch l) (mDecelerationVelocity l)
     (mTouchMode l) v (mLastHighlighted l).
Definition with_mLastHighlighted (v : option HighlightRef) (l : t) : t :=
  mk (mMatrix l) (mSavedMatrix l) (mTouchPointCenter l) (mSavedXDist l)
     (mSavedYDist l) (mClosestDataSetToTouch l) (mDecelerationVelocity l)
     (mTouchMode l) (mLastGesture l) v.

(** A handler runs on the listener and appends to the calls made on the
    chart. *)
Record State : Type := mkState { this : t; calls : list Call }.

Definition H : Type := M State unit.

Definition assign (f : t -> t) : H :=
  modify (fun s => mkState (f (this s)) (calls s)).

Definition call (c : Call) : H :=
  modify (fun s => mkState (this s) (calls s ++ [c])).

Definition when (b : bool) (h : H) : H := if b then h else ret tt.

Definition read {A : Type} (f : t -> A) : M State A :=
  fun s => (Ok (f (this s)), s).

Open Scope js_scope.

(** [stopDeceleration()] *)
Definition stopDeceleration : H :=
  assign (with_mDecelerationVelocity (mkPoint Num.zero Num.zero)).

(** [saveTouchStart(event)] *)
Definition saveTouchStart (event : EventData) : H :=
  assign (fun l => with_mSavedMatrix (mMatrix l) l).

(** [inverted()] *)
Definition inverted (chart : Chart) (l : t) : bool :=
  match mClosestDataSetToTouch l with
  | None => isAnyAxisInverted chart
  | Some set => isInverted chart (DataSet.getAxisDependency set)
  end.

(** [performDrag(event, distanceX, distanceY)] *)
Definition performDrag (chart : Chart) (event : EventData)
           (distanceX distanceY : number) : H :=
  assign (with_mLastGesture (Mode TouchMode.DRAG)) ;;;
  assign (fun l => with_mMatrix (mSavedMatrix l) l) ;;;
  inv <- read (inverted chart) ;;
  let distanceY := if inv then Num.neg distanceY else distanceY in
  assign (fun l => with_mMatrix (postTranslate (mMatrix l) distanceX distanceY) l) ;;;
  when (hasListeners chart "translate"%string)
       (call (notify "translate"%string (TranslateData distanceX distanceY))).

(** [performHighlightDrag(event)] *)
Definition performHighlightDrag (chart : Chart) (event : EventData) : H :=
  let h := getHighlightByTouchPoint chart (x (extraData event))
                                    (y (extraData event)) in
  last <- read mLastHighlighted ;;
  match h with
  | None => ret tt
  | Some h' =>
      if match last with
         | Some l' => negb (Nat.eqb (id h') (id l'))
         | None => true
         end
      then assign (with_mLastHighlighted h) ;;; call (highlight h' true)
      else ret tt
  end.

(** [arr[i]] used as an operand of [-]: [undefined] becomes [NaN]. *)
Definition operand (arr : list number) (i : nat) : number :=
  nth i arr Num.NaN.

(** [getXDist(e)] and [getYDist(e)] *)
Definition getXDist (e : EventData) : number :=
  Num.abs (Num.sub (operand (positions (extraData e)) 0)
                   (operand (positions (extraData e)) 2)).

Definition getYDist (e : EventData) : number :=
  Num.abs (Num.sub (operand (positions (extraData e)) 1)
                   (operand (positions (extraData e)) 3)).

(** [getTrans(x, y)] *)
Definition getTrans (chart : Chart) (l : t) (x y : number) : Point :=
  let vph := getViewPortHandler chart in
  let xTrans := Num.sub x (offsetLeft vph) in
  let yTrans :=
    if inverted chart l then Num.neg (Num.sub y (offsetTop vph))
    else Num.neg (Num.sub (Num.sub (getChartHeight vph) y) (offsetBottom vph)) in
  mkPoint xTrans yTrans.

(** [this.mMatrix = chart.getViewPortHandler().refresh(this.mMatrix,
    chart, true)] *)
Definition refreshMatrix (chart : Chart) : H :=
  m <- read mMatrix ;;
  call (refreshed m) ;;;
  assign (with_mMatrix (refresh (getViewPortHandler chart) m)).

(** [onPanGestureState(event)] *)
Definition onPanGestureState (chart : Chart) (event : EventData) : H :=
  if negb (isHighlightPerDragEnabled chart) && negb (isDragEnabled chart)
  then ret tt
  else
    match state event with
    | GestureState.ACTIVE =>
        stopDeceleration ;;;
        saveTouchStart event
    | GestureState.END | GestureState.CANCELLED =>
        mode <- read mTouchMode ;;
        when (TouchMode.eqb mode TouchMode.DRAG)
          (assign (with_mTouchMode TouchMode.NONE) ;;;
           stopDeceleration ;;;
           assign (with_mDecelerationVelocity
                     (mkPoint (velocityX (extraData event))
                              (velocityY (extraData event)))) ;;;
           call invalidate)
    | _ => ret tt
    end.

(** [onPanGestureTouch(event)] *)
Definition onPanGestureTouch (chart : Chart) (event : EventData) : H :=
  if negb (isHighlightPerDragEnabled chart) && negb (isDragEnabled chart)
  then ret tt
  else if negb (GestureState.eqb (state event) GestureState.ACTIVE)
  then ret tt
  else
    mode <- read mTouchMode ;;
    if TouchMode.eqb mode TouchMode.DRAG then
      when (hasListeners chart "pan"%string)
           (call (notify "pan"%string (GestureData event))) ;;;
      call disableScroll ;;;
      let x := translationX (extraData event) in
      let y := translationY (extraData event) in
      performDrag chart event x y ;;;
      refreshMatrix chart
    else if TouchMode.eqb mode TouchMode.NONE then
      let shouldPan :=
        (negb (isFullyZoomedOut chart) || negb (hasNoDragOffset chart))
        && (negb (zoomedPanWith2Pointers chart)
            || (numberOfPointers (extraData event) =? 2)%Z) in
      if shouldPan then
        when (isDragXEnabled chart && isDragYEnabled chart)
          (call disableScroll ;;;
           assign (with_mLastGesture (Gesture ChartGesture.DRAG)) ;;;
           assign (with_mTouchMode TouchMode.DRAG))
      else
        when (isHighlightPerDragEnabled chart)
          (call disableScroll ;;;
           assign (with_mLastGesture (Gesture ChartGesture.DRAG)) ;;;
           performHighlightDrag chart event)
    else ret tt.

(** [onPinchGestureState(event)] *)
Definition onPinchGestureState (chart : Chart) (event : EventData) : H :=
  if negb (isScaleXEnabled chart) && negb (isScaleYEnabled chart)
  then ret tt
  else
    match state event with
    | GestureState.ACTIVE =>
        saveTouchStart event ;;;
        assign (with_mSavedXDist (getXDist event)) ;;;
        call disableScroll ;;;
        assign (with_mSavedYDist (getYDist event)) ;;;
        (if isPinchZoomEnabled chart then
           assign (with_mTouchMode TouchMode.PINCH_ZOOM)
         else if negb (Bool.eqb (isScaleXEnabled chart) (isScaleYEnabled chart)) then
           assign (with_mTouchMode
                     (if isScaleXEnabled chart then TouchMode.X_ZOOM
                      else TouchMode.Y_ZOOM))
         else
           assign (fun l =>
                     with_mTouchMode
                       (if Num.gt (mSavedXDist l) (mSavedYDist l)
                        then TouchMode.X_ZOOM else TouchMode.Y_ZOOM) l)) ;;;
        assign (fun l => with_mTouchPointCenter
                           (mkPoint (focalX (extraData event))
                                    (py (mTouchPointCenter l))) l) ;;;
        assign (fun l => with_mTouchPointCenter
                           (mkPoint (px (mTouchPointCenter l))
                                    (focalY (extraData event))) l)
    | GestureState.END | GestureState.CANCELLED =>
        mode <- read mTouchMode ;;
        when (TouchMode.eqb mode TouchMode.X_ZOOM
              || TouchMode.eqb mode TouchMode.Y_ZOOM
              || TouchMode.eqb mode TouchMode.PINCH_ZOOM
              || TouchMode.eqb mode TouchMode.POST_ZOOM)
          (assign (with_mTouchMode TouchMode.NONE) ;;;
           call calculateOffsets ;;;
           call invalidate) ;;;
        call enableScroll
    | _ => ret tt
    end.

(** [this.mMatrix.set(this.mSavedMatrix);
     this.mMatrix.postScale(scaleX, scaleY, t.x, t.y)] *)
Definition scaleFromSaved (scaleX scaleY : number) (t : Point) : H :=
  assign (fun l => with_mMatrix (mSavedMatrix l) l) ;;;
  assign (fun l => with_mMatrix
                     (postScale (mMatrix l) scaleX scaleY (px t) (py t)) l).

(** [onPinchGestureTouch(event)] *)
Definition onPinchGestureTouch (chart : Chart) (event : EventData) : H :=
  if negb (isScaleXEnabled chart) && negb (isScaleYEnabled chart)
  then ret tt
  else if negb (GestureState.eqb (state event) GestureState.ACTIVE)
  then ret tt
  else
    when (hasListeners chart "pinch"%string)
         (call (notify "pinch"%string (GestureData event))) ;;;
    mode <- read mTouchMode ;;
    when (TouchMode.eqb mode TouchMode.X_ZOOM
          || TouchMode.eqb mode TouchMode.Y_ZOOM
          || TouchMode.eqb mode TouchMode.PINCH_ZOOM)
      ((if TouchMode.eqb mode TouchMode.PINCH_ZOOM then
          assign (with_mLastGesture (Gesture ChartGesture.PINCH_ZOOM)) ;;;
          center <- read mTouchPointCenter ;;
          t <- read (fun l => getTrans chart l (px center) (py center)) ;;
          let scale := scale (extraData event) in
          let isZoomingOut := Num.lt scale Num.one in
          let h := getViewPortHandler chart in
          let canZoomMoreX :=
            if isZoomingOut then canZoomOutMoreX h else canZoomInMoreX h in
          let canZoomMoreY :=
            if isZoomingOut then canZoomOutMoreY h else canZoomInMoreY h in
          let scaleX := if isScaleXEnabled chart then scale else Num.one in
          let scaleY := if isScaleYEnabled chart then scale else Num.one in
          when (canZoomMoreY || canZoomMoreX) (scaleFromSaved scaleX scaleY t) ;;;
          when (hasListeners chart "zoom"%string)
               (call (notify "zoom"%string
                        (ZoomData scaleX scaleY (px t) (py t))))
        else if TouchMode.eqb mode TouchMode.X_ZOOM && isScaleXEnabled chart then
          assign (with_mLastGesture (Gesture ChartGesture.X_ZOOM)) ;;;
          center <- read mTouchPointCenter ;;
          t <- read (fun l => getTrans chart l (px center) (py center)) ;;
          let scaleX := scale (extraData event) in
          let h := getViewPortHandler chart in
          let isZoomingOut := Num.lt scaleX Num.one in
          let canZoomMoreX :=
            if isZoomingOut then canZoomOutMoreX h else canZoomInMoreX h in
          when canZoomMoreX (scaleFromSaved scaleX Num.one t) ;;;
          when (hasListeners chart "zoom"%string)
               (call (notify "zoom"%string
                        (ZoomData scaleX Num.one (px t) (py t))))
        else if TouchMode.eqb mode TouchMode.Y_ZOOM && isScaleYEnabled chart then
          assign (with_mLastGesture (Gesture ChartGesture.Y_ZOOM)) ;;;
          center <- read mTouchPointCenter ;;
          t <- read (fun l => getTrans chart l (px center) (py center)) ;;
          let scaleY := scale (extraData event) in
          let h := getViewPortHandler chart in
          let isZoomingOut := Num.lt scaleY Num.one in
          let canZoomMoreY :=
            if isZoomingOut then canZoomOutMoreY h else canZoomInMoreY h in
          when canZoomMoreY (scaleFromSaved Num.one scaleY t) ;;;
          when (hasListeners chart "zoom"%string)
               (call (notify "zoom"%string
                        (ZoomData Num.one scaleY (px t) (py t))))
        else ret tt) ;;;
       refreshMatrix chart).

(** [chart.getData().getEntryCount()]: throws when the chart has no data
    or the container has no array. *)
Definition getDataEntryCount (chart : Chart) : M State nat := fun s =>
  match getData chart with
  | None => (Throw TypeError, s)
  | Some data =>
      (fst (ChartData.getEntryCount (ChartData.mkState (heap chart) data)), s)
  end.

(** [onDoubleTapGesture(event)] *)
Definition onDoubleTapGesture (chart : Chart) (event : EventData) : H :=
  when (GestureState.eqb (state event) GestureState.END
        && GestureState.eqb (prevState event) GestureState.ACTIVE)
    (when (hasListeners chart "doubleTap"%string)
       (let h := getHighlightByTouchPoint chart (x (extraData event))
                                          (y (extraData event)) in
        call (notify "doubleTap"%string (GestureHighlight event h))) ;;;
     if isDoubleTapToZoomEnabled chart then
       count <- getDataEntryCount chart ;;
       when (0 <? count)%nat
         (trans <- read (fun l => getTrans chart l (x (extraData event))
                                           (y (extraData event))) ;;
          call (zoom (if isScaleXEnabled chart then Num.one_point_four
                      else Num.one)
                     (if isScaleYEnabled chart then Num.one_point_four
                      else Num.one)
                     (px trans) (py trans)))
     else ret tt).

(** A gesture event delivered to the listener. *)
Inductive Event : Type :=
| PanState (event : EventData)
| PanTouch (event : EventData)
| PinchState (event : EventData)
| PinchTouch (event : EventData)
| DoubleTap (event : EventData).

Definition dispatch (chart : Chart) (ev : Event) : H :=
  match ev with
  | PanState e => onPanGestureState chart e
  | PanTouch e => onPanGestureTouch chart e
  | PinchState e => onPinchGestureState chart e
  | PinchTouch e => onPinchGestureTouch chart e
  | DoubleTap e => onDoubleTapGesture chart e
  end.

(** Events delivered in order, each with the chart as it is then. *)
Definition deliver (evs : list (Chart * Event)) : H :=
  forEach evs (fun ce => dispatch (fst ce) (snd ce)).


(** A drag-move event: a touch event of the pan handler in state
    [ACTIVE], on a chart that lets the pan handler run. *)
Definition dragMove (ce : Chart * EventData) : Prop :=
  (isHighlightPerDragEnabled (fst ce) || isDragEnabled (fst ce) = true)
  /\ state (snd ce) = GestureState.ACTIVE.

Definition panTouch (ce : Chart * EventData) : Chart * Event :=
  (fst ce, PanTouch (snd ce)).

(** A pinch-move event: a touch event of the pinch handler in state
    [ACTIVE], on a chart that lets the pinch handler run. *)
Definition pinchMove (ce : Chart * EventData) : Prop :=
  (isScaleXEnabled (fst ce) || isScaleYEnabled (fst ce) = true)
  /\ state (snd ce) = GestureState.ACTIVE.

Definition pinchTouch (ce : Chart * EventData) : Chart * Event :=
  (fst ce, PinchTouch (snd ce)).

(** The events at which a gesture starts: a state event of the pan or
    of the pinch handler in state [ACTIVE]. *)
Definition gestureStart (ev : Event) : bool :=
  match ev with
  | PanState e | PinchState e => GestureState.eqb (state e) GestureState.ACTIVE
  | _ => false
  end.

(** The touch modes in which the end of a pinch resets the mode. *)
Definition zooming (m : TouchMode.t) : bool :=
  match m with
  | TouchMode.X_ZOOM | TouchMode.Y_ZOOM | TouchMode.PINCH_ZOOM
  | TouchMode.POST_ZOOM => true
  | _ => false
  end.

(** The touch modes the handlers assign. *)
Definition assigned (m : TouchMode.t) : bool :=
  match m with
  | TouchMode.POST_ZOOM | TouchMode.ROTATE => false
  | _ => true
  end.

(** The test [(!isFullyZoomedOut || !hasNoDragOffset) &&
    (!zoomedPanWith2Pointers || numberOfPointers === 2)] of
    [onPanGestureTouch]. *)
Definition shouldPan (chart : Chart) (event : EventData) : bool :=
  (negb (isFullyZoomedOut chart) || negb (hasNoDragOffset chart))
  && (negb (zoomedPanWith2Pointers chart)
      || (numberOfPointers (extraData event) =? 2)%Z).

(** The factors and the pivot of a pinch-move event in the mode [mode],
    when the view port lets the chart zoom further in that mode; [None]
    when it does not. *)
Definition pinchScale (chart : Chart) (l : t) (event : EventData)
  : option (number * number * Point) :=
  let center := mTouchPointCenter l in
  let t := getTrans chart l (px center) (py center) in
  let scale := scale (extraData event) in
  let h := getViewPortHandler chart in
  let isZoomingOut := Num.lt scale Num.one in
  let canZoomMoreX :=
    if isZoomingOut then canZoomOutMoreX h else canZoomInMoreX h in
  let canZoomMoreY :=
    if isZoomingOut then canZoomOutMoreY h else canZoomInMoreY h in
  match mTouchMode l with
  | TouchMode.PINCH_ZOOM =>
      if canZoomMoreY || canZoomMoreX
      then Some (if isScaleXEnabled chart then scale else Num.one,
                 if isScaleYEnabled chart then scale else Num.one, t)
      else None
  | TouchMode.X_ZOOM =>
      if isScaleXEnabled chart && canZoomMoreX
      then Some (scale, Num.one, t) else None
  | TouchMode.Y_ZOOM =>
      if isScaleYEnabled chart && canZoomMoreY
      then Some (Num.one, scale, t) else None
  | _ => None
  end.

(** What is said of a handler: that it returns normally from every
    state, and that it keeps a property of the listener. *)
Definition returns {A : Type} (m : M State A) : Prop :=
  forall s, exists a, fst (m s) = Ok a.

Definition preserves {A : Type} (I : t -> Prop) (m : M State A) : Prop :=
  forall s, I (this s) -> I (this (snd (m s))).

(** *** The tap handler *)

Section Tap.

(** [performHighlight(h)] is inherited from [ChartTouchListener]. *)
Variable performHighlight : Chart -> option HighlightRef -> H.


End Tap.

End Listener.
End BarLineChartTouchListener.

(** ** Concrete collaborators

Instances of the interfaces above, on which the definitions can be
evaluated. *)

Module Examples.

(** Modelled from the spec: an [Entry] of [data/Entry], which is not
    part of the sources at hand: a data point with a domain x-value and a
    domain y-value, read as [e.x] and [e.y]. *)
Record SimpleEntry : Type := mkEntry { ex : number; ey : number }.

#[global] Instance SimpleEntry_ops : DataSet.IEntry SimpleEntry := {|
  DataSet.getX := ex;
  DataSet.getY := ey;
  DataSet.prop := fun e key =>
    if String.eqb key "x" then ex e
    else if String.eqb key "y" then ey e
    else Num.NaN
|}.

Definition number_eqb (a b : number) : bool :=
  match a, b with
  | S754_zero s, S754_zero s' => Bool.eqb s s'
  | S754_infinity s, S754_infinity s' => Bool.eqb s s'
  | S754_nan, S754_nan => true
  | S754_finite s m e, S754_finite s' m' e' =>
      Bool.eqb s s' && Pos.eqb m m' && Z.eqb e e'
  | _, _ => false
  end.

Definition entry_eqb (e e' : SimpleEntry) : bool :=
  number_eqb (ex e) (ex e') && number_eqb (ey e) (ey e').

Fixpoint remove_first (e : SimpleEntry) (vs : list SimpleEntry)
  : list SimpleEntry :=
  match vs with
  | [] => []
  | v :: rest => if entry_eqb e v then rest else v :: remove_first e rest
  end.

(** The least and the greatest of a list of numbers, starting from the
    sentinels [Number.MAX_VALUE] and [-Number.MAX_VALUE]. *)
Definition minOf (vs : list number) : number :=
  fold_left (fun b v => if Num.lt v b then v else b) vs Num.MAX_VALUE.

Definition maxOf (vs : list number) : number :=
  fold_left (fun b v => if Num.lt b v then v else b) vs
            (Num.neg Num.MAX_VALUE).

(** The first of the entries whose x-value is nearest to [xValue]. *)
Definition nearest (xValue : number) (vs : list SimpleEntry)
  : option SimpleEntry :=
  fold_left
    (fun best e =>
       match best with
       | None => Some e
       | Some b =>
           if Num.lt (Num.abs (Num.sub (ex e) xValue))
                     (Num.abs (Num.sub (ex b) xValue))
           then Some e else best
       end)
    vs None.

(** Modelled from the spec: a data set of [data/DataSet], which is not
    part of the sources at hand: a list of entries with an axis
    dependency and a highlighting flag, whose bounds are the minima and
    maxima of the entries it holds, and which answers a query by x-value
    with the entry nearest to it. *)
Record ListDataSet : Type := mkDataSet {
  values : list SimpleEntry;
  dependency : AxisDependency;
  highlightEnabled : bool
}.

#[global] Instance ListDataSet_ops : DataSet.IDataSet SimpleEntry ListDataSet := {|
  DataSet.getYMin := fun d => minOf (map ey (values d));
  DataSet.getYMax := fun d => maxOf (map ey (values d));
  DataSet.getXMin := fun d => minOf (map ex (values d));
  DataSet.getXMax := fun d => maxOf (map ex (values d));
  DataSet.getAxisDependency := dependency;
  DataSet.getEntryCount := fun d => List.length (values d);
  DataSet.isHighlightEnabled := highlightEnabled;
  DataSet.xProperty := fun _ => "x"%string;
  DataSet.yProperty := fun _ => "y"%string;
  DataSet.getEntriesForXValue := fun d xValue =>
    filter (fun e => Num.eq (ex e) xValue) (values d);
  DataSet.getEntryForXValue := fun d xValue _ _ => nearest xValue (values d);
  DataSet.addEntry := fun d e =>
    (true, mkDataSet (values d ++ [e]) (dependency d) (highlightEnabled d));
  DataSet.removeEntry := fun d e =>
    if existsb (entry_eqb e) (values d)
    then (true, mkDataSet (remove_first e (values d)) (dependency d)
                          (highlightEnabled d))
    else (false, d);
  DataSet.getValues := values
|}.

(** Modelled from the spec: the affine matrix of the canvas library, two
    rows of three numbers; [postTranslate] adds to the last column and
    [postScale] scales about a pivot. *)
Record Affine : Type := mkAffine {
  scaleX : number; skewX : number; transX : number;
  skewY : number; scaleY : number; transY : number
}.

Definition aboutPivot (factor pivot v : number) : number :=
  Num.add (Num.mul factor (Num.sub v pivot)) pivot.

#[global] Instance Affine_ops : MatrixOps Affine := {|
  postTranslate := fun m dx dy =>
    mkAffine (scaleX m) (skewX m) (Num.add (transX m) dx)
             (skewY m) (scaleY m) (Num.add (transY m) dy);
  postScale := fun m sx sy pivotX pivotY =>
    mkAffine (Num.mul sx (scaleX m)) (Num.mul sx (skewX m))
             (aboutPivot sx pivotX (transX m))
             (Num.mul sy (skewY m)) (Num.mul sy (scaleY m))
             (aboutPivot sy pivotY (transY m))
|}.

Definition identity : Affine :=
  mkAffine Num.one Num.zero Num.zero Num.zero Num.one Num.zero.

(** A stand-in for [Math.hypot], on which the definitions can be
    evaluated: the rounded square root of the rounded sum of the rounded
    squares.  It is exact where the squares and their sum are, as on the
    small integers used below; elsewhere it may differ from [Math.hypot]
    in the last bit, and it overflows where the squares do. *)
Definition hypot (a b : number) : number :=
  SFsqrt Num.prec Num.emax (Num.add (Num.mul a a) (Num.mul b b)).

Definition n (z : Z) : number := Num.of_Z z.

(** Two candidates at the same x, ten pixels above and ten pixels below
    a touch at y = 50, one on each axis. *)
Definition tie : list Highlight :=
  [ mkHighlight (n 1) (n 7) (n 100) (n 40) 0 LEFT;
    mkHighlight (n 1) (n 3) (n 100) (n 60) 1 RIGHT ].

(** Three candidates on the left axis and one on the right. *)
Definition candidates : list Highlight :=
  [ mkHighlight (n 1) (n 10) (n 100) (n 40) 0 LEFT;
    mkHighlight (n 2) (n 5) (n 103) (n 54) 0 LEFT;
    mkHighlight (n 1) (n 8) (n 100) (n 48) 1 RIGHT;
    mkHighlight (n 1) (n 9) (n 100) (n 90) 2 LEFT ].

(** A left-axis data set with three entries, a right-axis data set with
    one, and an empty right-axis data set, at the references 0, 1 and 2. *)
Definition leftSet : ListDataSet :=
  mkDataSet [mkEntry (n 0) (n 0); mkEntry (n 1) (n 10); mkEntry (n 2) (n 5)]
            LEFT true.

Definition rightSet : ListDataSet :=
  mkDataSet [mkEntry (n 1) (n 7)] RIGHT true.

Definition emptySet : ListDataSet := mkDataSet [] RIGHT true.

Definition store : @ChartData.Heap ListDataSet :=
  fun r => match r with
           | 0 => leftSet
           | 1 => rightSet
           | _ => emptySet
           end.

(** [new ChartData([leftSet, rightSet])] and [new ChartData([rightSet])]. *)
Definition twoSets : @ChartData.State ListDataSet :=
  ChartData.constructor store (Some [0; 1]).

Definition rightOnly : @ChartData.State ListDataSet :=
  ChartData.constructor store (Some [1]).

(** A chart for the highlighter over the data sets of [store], whose
    transformers map a value to the pixel of the same coordinates, with
    the maximum highlight distance 500. *)
Definition provider (data : option ChartData.t)
  : @ChartHighlighter.DataProvider ListDataSet :=
  ChartHighlighter.mkProvider
    (fun _ x y => mkPoint x y) (fun _ x y => mkPoint x y) (n 500) store data.

(** A chart for the highlighter over a left-axis data set and a
    right-axis data set whose entries at x = 1 lie two above and two
    below y = 8, with the same transformers and maximum distance. *)
Definition tieStore : @ChartData.Heap ListDataSet :=
  fun r => match r with
           | 0 => mkDataSet [mkEntry (n 1) (n 10)] LEFT true
           | _ => mkDataSet [mkEntry (n 1) (n 6)] RIGHT true
           end.

Definition tieChart : @ChartHighlighter.DataProvider ListDataSet :=
  ChartHighlighter.mkProvider
    (fun _ x y => mkPoint x y) (fun _ x y => mkPoint x y) (n 500) tieStore
    (Some (ChartData.this (ChartData.constructor tieStore (Some [0; 1])))).

(** Modelled from the spec: a view-port handler, which is not part of
    the sources at hand and whose [refresh] clamps the matrix it is
    given.  This one keeps the horizontal translation from becoming
    positive and has no room left to zoom out. *)
Definition viewPort : @BarLineChartTouchListener.ViewPortHandler Affine :=
  BarLineChartTouchListener.mkViewPortHandler
    (n 10) (n 20) (n 30) (n 400) false true false true
    (fun m => if Num.lt Num.zero (transX m)
              then mkAffine (scaleX m) (skewX m) Num.zero
                            (skewY m) (scaleY m) (transY m)
              else m).

(** A chart with dragging and scaling enabled on both axes, pinch zoom on
    or off, double-tap zoom on, no inverted axis and no listeners. *)
Definition chart (pinchZoom : bool) (data : option ChartData.t)
  : @BarLineChartTouchListener.Chart ListDataSet Affine :=
  BarLineChartTouchListener.mkChart
    false true true true true true true pinchZoom true
    false true false false (fun _ => false) (fun _ => false)
    (fun _ _ => None) viewPort store data.

Definition listener (mode : TouchMode.t)
  : @BarLineChartTouchListener.t ListDataSet Affine :=
  BarLineChartTouchListener.mk
    identity identity (mkPoint (n 200) (n 150)) Num.one Num.one None
    (mkPoint Num.zero Num.zero) mode
    (BarLineChartTouchListener.Gesture ChartGesture.NONE) None.

Definition started (mode : TouchMode.t)
  : @BarLineChartTouchListener.State ListDataSet Affine :=
  BarLineChartTouchListener.mkState (listener mode) [].

(** One half, the scale of a pinch that closes the fingers. *)
Definition half : number := S754_finite false 4503599627370496 (-53).

(** An event: state, previous state, translation, scale, finger positions
    and touch position. *)
Definition event (st prev : GestureState.t) (dx dy : Z) (scale : number)
           (positions : list number) (tx ty : Z)
  : BarLineChartTouchListener.EventData :=
  BarLineChartTouchListener.mkEventData st prev
    (BarLineChartTouchListener.mkExtraData
       (n dx) (n dy) Num.zero Num.zero scale (n 200) (n 150) 2 positions
       (n tx) (n ty)).

Definition dragBy (dx dy : Z) : BarLineChartTouchListener.EventData :=
  event GestureState.ACTIVE GestureState.ACTIVE dx dy Num.one [] 0 0.


(** The highlight of the first candidate of [candidates], as an
    object. *)
Definition found : BarLineChartTouchListener.HighlightRef :=
  BarLineChartTouchListener.mkHighlightRef
    7 (mkHighlight (n 1) (n 10) (n 100) (n 40) 0 LEFT).

(** The same chart as [chart] with pinch zoom off and without data,
    with an inverted axis. *)
Definition invertedChart : @BarLineChartTouchListener.Chart ListDataSet Affine :=
  BarLineChartTouchListener.mkChart
    false true true true true true true false true
    false true false true (fun _ => true) (fun _ => false)
    (fun _ _ => None) viewPort store None.

(** A listener in mode [PINCH_ZOOM] whose live matrix carries a
    horizontal translation of 5. *)
Definition shifted : @BarLineChartTouchListener.State ListDataSet Affine :=
  BarLineChartTouchListener.mkState
    (BarLineChartTouchListener.with_mMatrix
       (mkAffine Num.one Num.zero (n 5) Num.zero Num.one Num.zero)
       (listener TouchMode.PINCH_ZOOM)) [].


(** A pinch-move event with the given scale. *)
Definition pinchBy (scale : number) : BarLineChartTouchListener.EventData :=
  event GestureState.ACTIVE GestureState.ACTIVE 0 0 scale [] 0 0.

(** Mutations of [twoSets]: an entry is added to the left-axis data set,
    one is removed from it, the empty data set is added and receives an
    entry, and the right-axis data set is removed. *)
Definition mutations : list (@ChartData.Op SimpleEntry) :=
  [ ChartData.AddEntry (mkEntry (n 3) (n 20)) 0;
    ChartData.RemoveEntry (Some (mkEntry (n 0) (n 0))) 0;
    ChartData.AddDataSet (Some 2);
    ChartData.AddEntry (mkEntry (n 5) (n (-4))) 2;
    ChartData.RemoveDataSet (Some 1);
    ChartData.AddEntry (mkEntry (n 9) (n 9)) 7 ].

(** [Infinity], and a container over the empty data set alone, to which
    an entry with that y-value is added. *)
Definition infinity : number := S754_infinity false.

Definition emptyOnly : @ChartData.State ListDataSet :=
  ChartData.constructor store (Some [2]).

Definition addInfinite : list (@ChartData.Op SimpleEntry) :=
  [ ChartData.AddEntry (mkEntry (n 1) infinity) 0 ].

End Examples.

(* ================================================================= *)
(** * Part II: properties *)
(* ================================================================= *)

(** ** Order facts about numbers *)

Module NumFacts.
Import Num.

Ltac cmp_cases :=
  repeat match goal with
  | |- context [Z.compare ?a ?b] =>
      destruct (Z.compare_spec a b); subst
  | H : context [Z.compare ?a ?b] |- _ =>
      destruct (Z.compare_spec a b); subst
  | |- context [Pos.compare_cont Eq ?a ?b] =>
      change (Pos.compare_cont Eq a b) with (Pos.compare a b);
      destruct (Pos.compare_spec a b); subst
  | H : context [Pos.compare_cont Eq ?a ?b] |- _ =>
      change (Pos.compare_cont Eq a b) with (Pos.compare a b) in H;
      destruct (Pos.compare_spec a b); subst
  end.

Lemma lt_irrefl (a : number) : lt a a = false.
Proof.
  unfold lt, SFltb, SFcompare.
  destruct a as [s|s| |s m e]; try destruct s; simpl; try reflexivity;
    rewrite Z.compare_refl, Pos.compare_cont_refl; reflexivity.
Qed.

Lemma lt_trans (a b c : number) :
  lt a b = true -> lt b c = true -> lt a c = true.
Proof.
  unfold lt, SFltb, SFcompare.
  destruct a as [sa|sa| |sa ma ea], b as [sb|sb| |sb mb eb],
           c as [sc|sc| |sc mc ec];
    try destruct sa; try destruct sb; try destruct sc; simpl;
    try discriminate; try reflexivity;
    intros Hab Hbc; cmp_cases; simpl in *;
    try discriminate; try reflexivity; try lia.
Qed.

Lemma eq_not_lt (a b : number) : eq a b = true -> lt a b = false.
Proof.
  unfold eq, lt, SFeqb, SFltb.
  destruct (SFcompare a b) as [[ | | ]|]; intros; congruence.
Qed.

Lemma lt_not_nan_l (a b : number) : lt a b = true -> a <> NaN.
Proof. intros Hlt ->. discriminate Hlt. Qed.

(** On numbers other than NaN, [a <= b] is the negation of [b < a]. *)
Lemma le_iff_not_lt (a b : number) :
  a <> NaN -> b <> NaN -> SFleb a b = negb (lt b a).
Proof.
  unfold lt, SFleb, SFltb, SFcompare, NaN.
  destruct a as [sa|sa| |sa ma ea], b as [sb|sb| |sb mb eb];
    try destruct sa; try destruct sb; simpl; intros Ha Hb;
    try congruence; try reflexivity;
    rewrite (Z.compare_antisym ea eb);
    destruct (Z.compare_spec ea eb); simpl; try reflexivity;
    change (Pos.compare_cont Eq ma mb) with (Pos.compare ma mb);
    change (Pos.compare_cont Eq mb ma) with (Pos.compare mb ma);
    rewrite (Pos.compare_antisym ma mb);
    destruct (Pos.compare ma mb); reflexivity.
Qed.

Lemma le_trans (a b c : number) :
  SFleb a b = true -> SFleb b c = true -> SFleb a c = true.
Proof.
  unfold SFleb, SFcompare.
  destruct a as [sa|sa| |sa ma ea], b as [sb|sb| |sb mb eb],
           c as [sc|sc| |sc mc ec];
    try destruct sa; try destruct sb; try destruct sc; simpl;
    try discriminate; try reflexivity;
    intros Hab Hbc; cmp_cases; simpl in *;
    try discriminate; try reflexivity; try lia.
Qed.

Lemma lt_le (a b : number) : lt a b = true -> SFleb a b = true.
Proof.
  unfold lt, SFltb, SFleb.
  destruct (SFcompare a b) as [[ | | ]|]; intros; congruence.
Qed.

Lemma finite_not_nan (a : number) : finite a = true -> a <> NaN.
Proof. intros Hfin ->. discriminate Hfin. Qed.

Lemma finite_le_MAX (a : number) : finite a = true -> SFleb a MAX_VALUE = true.
Proof. unfold finite. intros H. apply andb_prop in H. apply H. Qed.

Lemma finite_ge_min (a : number) :
  finite a = true -> SFleb (neg MAX_VALUE) a = true.
Proof. unfold finite. intros H. apply andb_prop in H. apply H. Qed.

Lemma le_refl_finite (a : number) : finite a = true -> SFleb a a = true.
Proof.
  intros Hfin.
  rewrite le_iff_not_lt by (apply finite_not_nan; assumption).
  rewrite lt_irrefl. reflexivity.
Qed.

(** On numbers other than NaN, [b < a] fails exactly when [a <= b]. *)
Lemma not_lt_le (a b : number) :
  finite a = true -> finite b = true -> lt a b = false -> SFleb b a = true.
Proof.
  intros Ha Hb Hlt.
  rewrite le_iff_not_lt by (apply finite_not_nan; assumption).
  rewrite Hlt. reflexivity.
Qed.

(** Two non-zero finite numbers that [<=] relates both ways are the same
    number. *)
Lemma le_antisym_finite (a : number) (s : bool) (m : positive) (e : Z) :
  SFleb a (S754_finite s m e) = true ->
  SFleb (S754_finite s m e) a = true ->
  a = S754_finite s m e.
Proof.
  unfold SFleb, SFcompare.
  destruct a as [sa|sa| |sa ma ea]; try destruct sa; destruct s; simpl;
    try discriminate;
    intros H1 H2; cmp_cases; simpl in *; try discriminate; try lia;
    reflexivity.
Qed.

Lemma ge_MAX_is_MAX (a : number) :
  finite a = true -> SFleb MAX_VALUE a = true -> a = MAX_VALUE.
Proof.
  intros Hfin Hge. apply le_antisym_finite; [|exact Hge].
  apply finite_le_MAX, Hfin.
Qed.

Lemma le_min_is_min (a : number) :
  finite a = true -> SFleb a (neg MAX_VALUE) = true -> a = neg MAX_VALUE.
Proof.
  intros Hfin Hle. apply le_antisym_finite; [exact Hle|].
  apply finite_ge_min, Hfin.
Qed.

End NumFacts.

(** ** Sequencing *)

Module MonadFacts.

Lemma forEach_app {S A : Type} (xs ys : list A) (body : A -> M S unit) (s : S) :
  forEach (xs ++ ys) body s
  = bind (forEach xs body) (fun _ => forEach ys body) s.
Proof.
  revert s. induction xs as [|a xs IH]; intros s; simpl.
  - reflexivity.
  - unfold bind. destruct (body a s) as [[u|e] s1].
    + rewrite IH. reflexivity.
    + reflexivity.
Qed.

End MonadFacts.

(** ** Extrema with a sentinel *)

Module ExtremumFacts.
Section Order.

Import Extremum.

Variables (le lt : number -> number -> bool) (top : number).

Hypothesis lt_le : forall a b, lt a b = true -> le a b = true.
Hypothesis not_lt_le : forall a b,
  Num.finite a = true -> Num.finite b = true -> lt a b = false -> le b a = true.
Hypothesis le_trans : forall a b c,
  le a b = true -> le b c = true -> le a c = true.
Hypothesis top_finite : Num.finite top = true.
Hypothesis top_last : forall a,
  Num.finite a = true -> le top a = true -> a = top.

Local Abbreviation bound := (Extremum.bound le top).
Local Abbreviation pick := (Extremum.pick lt).
Local Abbreviation extreme := (Extremum.extreme le top).

Lemma bound_ext (P Q : number -> Prop) (b : number) :
  (forall v, P v <-> Q v) -> bound P b -> bound Q b.
Proof.
  intros Heq (Hfin & Hin & Hle). repeat split.
  - exact Hfin.
  - destruct Hin as [Ht | HP]; [left; exact Ht | right; apply Heq, HP].
  - intros v Hv. apply Hle, Heq, Hv.
Qed.

Lemma bound_empty (P : number -> Prop) :
  (forall v, ~ P v) -> bound P top.
Proof.
  intros Hnone. repeat split.
  - exact top_finite.
  - left. reflexivity.
  - intros v Hv. destruct (Hnone v Hv).
Qed.

Lemma bound_union (P P1 P2 : number -> Prop) (b1 b2 : number) :
  (forall v, P v <-> P1 v \/ P2 v) ->
  bound P1 b1 -> bound P2 b2 -> bound P (pick b1 b2).
Proof.
  intros Heq (Hfin1 & Hin1 & Hle1) (Hfin2 & Hin2 & Hle2).
  unfold Extremum.pick. destruct (lt b2 b1) eqn:Hlt.
  - repeat split.
    + exact Hfin2.
    + destruct Hin2 as [Ht | HP]; [left; exact Ht | right].
      apply Heq. right. exact HP.
    + intros v Hv. apply Heq in Hv. destruct Hv as [Hv | Hv].
      * apply le_trans with (b := b1); [apply lt_le, Hlt | apply Hle1, Hv].
      * apply Hle2, Hv.
  - repeat split.
    + exact Hfin1.
    + destruct Hin1 as [Ht | HP]; [left; exact Ht | right].
      apply Heq. left. exact HP.
    + intros v Hv. apply Heq in Hv. destruct Hv as [Hv | Hv].
      * apply Hle1, Hv.
      * apply le_trans with (b := b2); [|apply Hle2, Hv].
        apply not_lt_le; assumption.
Qed.

(** A loop that picks among the bounds [val d] of selected elements. *)
Lemma bound_fold {A : Type} (sel : A -> bool) (val : A -> number)
      (Pd : A -> number -> Prop) (k : number -> A -> number) :
  (forall b d, k b d = if sel d then pick b (val d) else b) ->
  forall (ds : list A) (P0 : number -> Prop) (b0 : number),
    bound P0 b0 ->
    (forall d, In d ds -> sel d = true -> bound (Pd d) (val d)) ->
    bound (fun v => P0 v \/ exists d, In d ds /\ sel d = true /\ Pd d v)
          (fold_left k ds b0).
Proof.
  intros Hk. induction ds as [|d ds IH]; intros P0 b0 H0 Hds; simpl.
  - apply bound_ext with (P := P0); [|exact H0].
    intros v. split; [auto | intros [H | (d & [] & _)]; exact H].
  - apply bound_ext
      with (P := fun v => (P0 v \/ (sel d = true /\ Pd d v))
                          \/ exists d', In d' ds /\ sel d' = true /\ Pd d' v).
    + intros v. split.
      * intros [[H | (Hs & H)] | (d' & Hin & Hs & H)].
        -- left. exact H.
        -- right. exists d. simpl. auto.
        -- right. exists d'. simpl. auto.
      * intros [H | (d' & [<- | Hin] & Hs & H)].
        -- left. left. exact H.
        -- left. right. auto.
        -- right. exists d'. auto.
    + apply IH.
      * rewrite Hk. destruct (sel d) eqn:Hs.
        -- apply bound_union with (P1 := P0) (P2 := Pd d).
           ++ intros v. split; [intros [H | [_ H]]; auto | intros [H | H]; auto].
           ++ exact H0.
           ++ apply Hds; [left; reflexivity | exact Hs].
        -- apply bound_ext with (P := P0); [|exact H0].
           intros v. split; [auto | intros [H | [Hf _]]; [exact H | discriminate]].
      * intros d' Hin. apply Hds. right. exact Hin.
Qed.

(** Between the two readings of a bound, for finite numbers. *)
Lemma bound_extreme (vs : list number) (b : number) :
  Forall (fun v => Num.finite v = true) vs ->
  bound (fun v => In v vs) b -> extreme vs b.
Proof.
  intros Hvs (Hfin & Hin & Hle). unfold Extremum.extreme.
  destruct vs as [|v0 vs]; [destruct Hin as [Ht | []]; exact Ht|].
  split; [|exact Hle].
  destruct Hin as [-> | Hin]; [|exact Hin].
  left. apply top_last.
  - inversion Hvs; assumption.
  - apply Hle. left. reflexivity.
Qed.

Lemma extreme_bound (vs : list number) (b : number) :
  Forall (fun v => Num.finite v = true) vs ->
  extreme vs b -> bound (fun v => In v vs) b.
Proof.
  intros Hvs Hex. unfold Extremum.extreme in Hex.
  destruct vs as [|v0 vs].
  - subst b. apply bound_empty. intros v [].
  - destruct Hex as [Hin Hle]. repeat split.
    + rewrite Forall_forall in Hvs. apply Hvs, Hin.
    + right. exact Hin.
    + exact Hle.
Qed.

Lemma bound_fold_top {A : Type} (sel : A -> bool) (val : A -> number)
      (Pd : A -> number -> Prop) (k : number -> A -> number) :
  (forall b d, k b d = if sel d then pick b (val d) else b) ->
  forall ds : list A,
    (forall d, In d ds -> sel d = true -> bound (Pd d) (val d)) ->
    bound (fun v => exists d, In d ds /\ sel d = true /\ Pd d v)
          (fold_left k ds top).
Proof.
  intros Hk ds Hds.
  apply bound_ext
    with (P := fun v => False \/ exists d, In d ds /\ sel d = true /\ Pd d v).
  - intros v. split; [intros [[] | H]; exact H | auto].
  - apply bound_fold with (Pd := Pd) (sel := sel) (val := val);
      [exact Hk | apply bound_empty; auto | exact Hds].
Qed.

(** A loop that starts from the bound of the first selected element, if
    there is one, and from the sentinel otherwise. *)
Lemma bound_fold_first {A : Type} (sel : A -> bool) (val : A -> number)
      (Pd : A -> number -> Prop) (k : number -> A -> number) :
  (forall b d, k b d = if sel d then pick b (val d) else b) ->
  forall ds : list A,
    (forall d, In d ds -> sel d = true -> bound (Pd d) (val d)) ->
    bound (fun v => exists d, In d ds /\ sel d = true /\ Pd d v)
          (match find sel ds with
           | Some first => fold_left k ds (val first)
           | None => top
           end).
Proof.
  intros Hk ds Hds. destruct (find sel ds) as [first|] eqn:Hfind.
  - apply find_some in Hfind. destruct Hfind as [Hin Hsel].
    apply bound_ext
      with (P := fun v => Pd first v
                          \/ exists d, In d ds /\ sel d = true /\ Pd d v).
    + intros v. split; [|auto].
      intros [H | H]; [exists first; auto | exact H].
    + apply bound_fold with (Pd := Pd) (sel := sel) (val := val);
        [exact Hk | apply Hds; assumption | exact Hds].
  - apply bound_empty. intros v (d & Hin & Hsel & _).
    rewrite (find_none _ _ Hfind d Hin) in Hsel. discriminate.
Qed.

End Order.
End ExtremumFacts.

(** ** The highlighter *)

Module HighlighterFacts.
Section Facts.

Import ChartHighlighter.

Variable hypot : number -> number -> number.

(** *** Closest candidate on an axis *)

Section Closest.

Variables (x y : number) (ax : AxisDependency) (d : number).

Local Abbreviation dist h := (getDistance hypot x y (xPx h) (yPx h)).
Local Abbreviation closest_inv := (ChartHighlighter.closest_inv hypot x y ax d).

Lemma AxisDependency_eqb_eq (a b : AxisDependency) :
  AxisDependency_eqb a b = true <-> a = b.
Proof. destruct a, b; simpl; split; congruence. Qed.

Lemma closestStep_inv (seen : list Highlight) (acc : option Highlight * number)
      (high : Highlight) :
  closest_inv seen acc ->
  closest_inv (seen ++ [high]) (closestStep hypot x y (Some ax) acc high).
Proof.
  destruct acc as [closest distance]. unfold ChartHighlighter.closest_inv, closestStep.
  destruct (AxisDependency_eqb (axis high) ax) eqn:Hax.
  - apply AxisDependency_eqb_eq in Hax.
    destruct (Num.lt (dist high) distance) eqn:Hlt; simpl.
    + destruct closest as [c|]; simpl; intros Hinv.
      * destruct Hinv as (Hin & Hc & Hd & Hcd & Hmin). subst distance.
        repeat split; auto.
        -- apply in_or_app. right. left. reflexivity.
        -- apply NumFacts.lt_trans with (b := dist c); assumption.
        -- intros h Hh Hhax. apply in_app_or in Hh.
           destruct Hh as [Hh | [<- | []]].
           ++ destruct (Num.lt (dist h) (dist high)) eqn:E; [|reflexivity].
              rewrite <- (Hmin h Hh Hhax).
              symmetry. apply NumFacts.lt_trans with (b := dist high); assumption.
           ++ apply NumFacts.lt_irrefl.
      * destruct Hinv as (Hd & Hnone). subst distance.
        repeat split; auto.
        -- apply in_or_app. right. left. reflexivity.
        -- intros h Hh Hhax. apply in_app_or in Hh.
           destruct Hh as [Hh | [<- | []]].
           ++ destruct (Num.lt (dist h) (dist high)) eqn:E; [|reflexivity].
              rewrite <- (Hnone h Hh Hhax).
              symmetry. apply NumFacts.lt_trans with (b := dist high); assumption.
           ++ apply NumFacts.lt_irrefl.
    + destruct closest as [c|]; simpl; intros Hinv.
      * destruct Hinv as (Hin & Hc & Hd & Hcd & Hmin). subst distance.
        repeat split; auto.
        -- apply in_or_app. left. assumption.
        -- intros h Hh Hhax. apply in_app_or in Hh.
           destruct Hh as [Hh | [<- | []]]; auto.
      * destruct Hinv as (Hd & Hnone). subst distance.
        split; auto.
        intros h Hh Hhax. apply in_app_or in Hh.
        destruct Hh as [Hh | [<- | []]]; auto.
  - assert (Hne : axis high <> ax).
    { intros E. apply AxisDependency_eqb_eq in E. congruence. }
    destruct closest as [c|]; simpl; intros Hinv.
    + destruct Hinv as (Hin & Hc & Hd & Hcd & Hmin).
      repeat split; auto.
      * apply in_or_app. left. assumption.
      * intros h Hh Hhax. apply in_app_or in Hh.
        destruct Hh as [Hh | [<- | []]]; auto. contradiction.
    + destruct Hinv as (Hd & Hnone). split; auto.
      intros h Hh Hhax. apply in_app_or in Hh.
      destruct Hh as [Hh | [<- | []]]; auto. contradiction.
Qed.

Lemma closest_fold_inv (rest seen : list Highlight)
      (acc : option Highlight * number) :
  closest_inv seen acc ->
  closest_inv (seen ++ rest)
              (fold_left (closestStep hypot x y (Some ax)) rest acc).
Proof.
  revert seen acc. induction rest as [|high rest IH]; intros seen acc Hinv.
  - rewrite app_nil_r. exact Hinv.
  - simpl. replace (seen ++ high :: rest) with ((seen ++ [high]) ++ rest)
      by (rewrite <- app_assoc; reflexivity).
    apply IH. apply closestStep_inv. exact Hinv.
Qed.

Lemma closest_result (closestValues : list Highlight) :
  closest_inv closestValues
    (fold_left (closestStep hypot x y (Some ax)) closestValues (None, d)).
Proof.
  apply (closest_fold_inv closestValues [] (None, d)).
  split; [reflexivity | intros h []].
Qed.

End Closest.

(** C2: the distance of a candidate [h] to the touch point [(x, y)]
    being [Math.hypot(x - h.xPx, y - h.yPx)], on the winning axis [ax]
    and with maximum selection distance [d],
    [getClosestHighlightByPixel] returns none exactly when no candidate
    of that axis is at a distance strictly below [d]; otherwise it
    returns a candidate of the list, on that axis, closer than [d], and
    no candidate of the axis is strictly closer to the touch point: its
    distance is at most that of every candidate whose distance is a
    number. *)
Theorem C2_closest_on_winning_axis (closestValues : list Highlight)
        (x y : number) (ax : AxisDependency) (d : number) :
  let dist h := hypot (Num.sub x (xPx h)) (Num.sub y (yPx h)) in
  let result := getClosestHighlightByPixel hypot closestValues x y (Some ax) d in
  (result = None <->
     forall h, In h closestValues -> axis h = ax -> Num.lt (dist h) d = false)
  /\ (forall c, result = Some c ->
        In c closestValues /\ axis c = ax /\ Num.lt (dist c) d = true
        /\ forall h, In h closestValues -> axis h = ax ->
             Num.lt (dist h) (dist c) = false
             /\ (dist h <> Num.NaN -> SFleb (dist c) (dist h) = true)).
Proof.
  cbv zeta. unfold getClosestHighlightByPixel.
  pose proof (closest_result x y ax d closestValues) as Hinv.
  unfold closest_inv in Hinv. cbv zeta in Hinv. unfold getDistance in Hinv.
  destruct (fst (fold_left (closestStep hypot x y (Some ax)) closestValues (None, d)))
    as [c|] eqn:Hres.
  - destruct Hinv as (Hin & Hc & _ & Hcd & Hmin). split.
    + split; [discriminate|].
      intros Hnone. rewrite (Hnone c Hin Hc) in Hcd. discriminate.
    + intros c' [= <-]. repeat split; auto.
      intros Hnan. rewrite NumFacts.le_iff_not_lt.
      * rewrite (Hmin h H H0). reflexivity.
      * eapply NumFacts.lt_not_nan_l. exact Hcd.
      * exact Hnan.
  - destruct Hinv as (_ & Hnone). split.
    + split; [intros _; exact Hnone | reflexivity].
    + intros c [=].
Qed.

(** *** The buffer *)

Section Determinism.

Context {Entry DS : Type}.
Context {entryOps : DataSet.IEntry Entry}.
Context {dataSetOps : DataSet.IDataSet Entry DS}.

(** [getHighlightsAtXValue] starts from a new array: what the buffer
    held before the call has no part in the outcome. *)
Lemma getHighlightsAtXValue_ignores_buffer
      (chart : DataProvider) (xVal x y : number) (buffer buffer' : Buffer) :
  getHighlightsAtXValue chart xVal x y buffer
  = getHighlightsAtXValue chart xVal x y buffer'.
Proof. reflexivity. Qed.

End Determinism.

(** *** The least vertical distance on an axis *)

(** On an empty list the loop of [getMinimumDistance] has no turn. *)
Lemma getMinimumDistance_empty {S : Type} (pos : number) (ax : AxisDependency)
      (s : S) :
  getMinimumDistance [] pos ax s = (Ok Num.MAX_VALUE, s).
Proof. reflexivity. Qed.

(** On any other list its first turn calls [closestValues.get(0)]. *)
Lemma getMinimumDistance_throws {S : Type} (closestValues : list Highlight)
      (pos : number) (ax : AxisDependency) (s : S) :
  closestValues <> [] ->
  getMinimumDistance closestValues pos ax s = (Throw TypeError, s).
Proof.
  destruct closestValues as [|high rest]; [congruence|].
  intros _. reflexivity.
Qed.

(** *** The scan for the closest candidate *)

Section Scan.

Variables (x y : number).

Local Abbreviation dist h := (getDistance hypot x y (xPx h) (yPx h)).
Local Abbreviation scan_inv := (ChartHighlighter.scan_inv hypot x y).

Lemma scan_filtered (ax : AxisDependency) (closestValues : list Highlight)
      (acc : option Highlight * number) :
  fold_left (closestStep hypot x y (Some ax)) closestValues acc
  = fold_left (closestStep hypot x y None)
              (filter (considered (Some ax)) closestValues) acc.
Proof.
  revert acc. induction closestValues as [|high rest IH]; intros acc.
  - reflexivity.
  - simpl. destruct (AxisDependency_eqb (axis high) ax) eqn:Hax.
    + simpl. rewrite <- IH. f_equal.
      unfold closestStep. destruct acc as [closest distance]. rewrite Hax.
      reflexivity.
    + rewrite <- IH. f_equal.
      unfold closestStep. destruct acc as [closest distance]. rewrite Hax.
      reflexivity.
Qed.

(** X16: [getClosestHighlightByPixel] with an axis is
    [getClosestHighlightByPixel] without axis ([axis == null]) on the
    candidates of that axis: the candidates of the other axis have no
    part in the result. *)
Theorem getClosestHighlightByPixel_filters_by_axis
        (closestValues : list Highlight) (ax : AxisDependency) (d : number) :
  getClosestHighlightByPixel hypot closestValues x y (Some ax) d
  = getClosestHighlightByPixel hypot
      (filter (fun h => AxisDependency_eqb (axis h) ax) closestValues)
      x y None d.
Proof.
  unfold getClosestHighlightByPixel. rewrite scan_filtered. reflexivity.
Qed.

Lemma lt_not_nan_r (a b : number) : Num.lt a b = true -> b <> Num.NaN.
Proof. intros Hlt ->. destruct a as [s|s| |s m e]; try destruct s; discriminate Hlt. Qed.

Lemma lt_le_trans (a b c : number) :
  Num.lt a b = true -> SFleb b c = true -> Num.lt a c = true.
Proof.
  unfold Num.lt, SFltb, SFleb, SFcompare.
  destruct a as [sa|sa| |sa ma ea], b as [sb|sb| |sb mb eb],
           c as [sc|sc| |sc mc ec];
    try destruct sa; try destruct sb; try destruct sc; simpl;
    try discriminate; try reflexivity;
    intros Hab Hbc; NumFacts.cmp_cases; simpl in *;
    try discriminate; try reflexivity; try lia.
Qed.

Lemma scan_step_inv (ax : option AxisDependency) (d : number)
      (seen : list Highlight) (acc : option Highlight * number)
      (high : Highlight) :
  scan_inv ax d seen acc ->
  scan_inv ax d (seen ++ [high]) (closestStep hypot x y ax acc high).
Proof.
  destruct acc as [closest distance].
  unfold ChartHighlighter.scan_inv, closestStep.
  change (match ax with
          | Some a => AxisDependency_eqb (axis high) a
          | None => true
          end) with (considered ax high).
  destruct (considered ax high) eqn:Hax.
  - destruct (Num.lt (dist high) distance) eqn:Hlt; cbn [fst snd].
    + destruct closest as [c|]; cbn [fst snd].
      * intros (Hd & Hcd & before & after & Hseen & Hc & Hbefore & Hafter).
        subst distance.
        split; [reflexivity | split].
        -- apply NumFacts.lt_trans with (b := dist c); assumption.
        -- exists seen, []. split; [reflexivity | split; [exact Hax | split]].
           ++ intros h Hin Hh Hnan. rewrite Hseen in Hin.
              apply in_app_or in Hin. destruct Hin as [Hin | [<- | Hin]].
              ** apply NumFacts.lt_trans with (b := dist c); [exact Hlt|].
                 apply Hbefore; assumption.
              ** exact Hlt.
              ** apply lt_le_trans with (b := dist c); [exact Hlt|].
                 rewrite NumFacts.le_iff_not_lt.
                 --- rewrite (Hafter h Hin Hh). reflexivity.
                 --- eapply NumFacts.lt_not_nan_l. exact Hcd.
                 --- exact Hnan.
           ++ intros h [].
      * intros (Hd & Hnone). subst distance.
        split; [reflexivity | split; [exact Hlt|]].
        exists seen, []. split; [reflexivity | split; [exact Hax | split]].
        -- intros h Hin Hh Hnan.
           apply lt_le_trans with (b := d); [exact Hlt|].
           rewrite NumFacts.le_iff_not_lt.
           ++ rewrite (Hnone h Hin Hh). reflexivity.
           ++ eapply lt_not_nan_r. exact Hlt.
           ++ exact Hnan.
        -- intros h [].
    + destruct closest as [c|]; cbn [fst snd].
      * intros (Hd & Hcd & before & after & Hseen & Hc & Hbefore & Hafter).
        subst distance.
        split; [reflexivity | split; [exact Hcd|]].
        exists before, (after ++ [high]).
        split; [rewrite Hseen, <- app_assoc; reflexivity|].
        split; [exact Hc | split; [exact Hbefore|]].
        intros h Hin Hh. apply in_app_or in Hin.
        destruct Hin as [Hin | [<- | []]]; auto.
      * intros (Hd & Hnone). subst distance. split; [reflexivity|].
        intros h Hin Hh. apply in_app_or in Hin.
        destruct Hin as [Hin | [<- | []]]; auto.
  - destruct closest as [c|]; cbn [fst snd].
    + intros (Hd & Hcd & before & after & Hseen & Hc & Hbefore & Hafter).
      split; [exact Hd | split; [exact Hcd|]].
      exists before, (after ++ [high]).
      split; [rewrite Hseen, <- app_assoc; reflexivity|].
      split; [exact Hc | split; [exact Hbefore|]].
      intros h Hin Hh. apply in_app_or in Hin.
      destruct Hin as [Hin | [<- | []]]; auto. congruence.
    + intros (Hd & Hnone). split; [exact Hd|].
      intros h Hin Hh. apply in_app_or in Hin.
      destruct Hin as [Hin | [<- | []]]; auto. congruence.
Qed.

Lemma scan_fold_inv (ax : option AxisDependency) (d : number)
      (rest seen : list Highlight) (acc : option Highlight * number) :
  scan_inv ax d seen acc ->
  scan_inv ax d (seen ++ rest) (fold_left (closestStep hypot x y ax) rest acc).
Proof.
  revert seen acc. induction rest as [|high rest IH]; intros seen acc Hinv.
  - rewrite app_nil_r. exact Hinv.
  - simpl. replace (seen ++ high :: rest) with ((seen ++ [high]) ++ rest)
      by (rewrite <- app_assoc; reflexivity).
    apply IH. apply scan_step_inv. exact Hinv.
Qed.

(** X17: ties are broken by the order of the scan.  When
    [getClosestHighlightByPixel] returns a candidate, with an axis or
    without, that candidate is at a place in the list such that it is
    strictly closer to the touch point than every candidate considered
    before it (whose distance is a number), while no candidate considered
    after it is strictly closer than it: of several candidates at the
    least distance the first one is returned. *)
Theorem getClosestHighlightByPixel_returns_first_closest
        (closestValues : list Highlight) (ax : option AxisDependency)
        (d : number) (c : Highlight) :
  getClosestHighlightByPixel hypot closestValues x y ax d = Some c ->
  Num.lt (dist c) d = true
  /\ exists before after,
      closestValues = before ++ c :: after
      /\ considered ax c = true
      /\ (forall h, In h before -> considered ax h = true ->
            dist h <> Num.NaN -> Num.lt (dist c) (dist h) = true)
      /\ (forall h, In h after -> considered ax h = true ->
            Num.lt (dist h) (dist c) = false).
Proof.
  unfold getClosestHighlightByPixel. intros Hres.
  pose proof (@scan_fold_inv ax d closestValues [] (None, d)) as Hinv.
  unfold ChartHighlighter.scan_inv in Hinv at 2. simpl app in Hinv. rewrite Hres in Hinv.
  destruct Hinv as (_ & Hcd & Hsplit).
  - split; [reflexivity | intros h []].
  - split; assumption.
Qed.

End Scan.

(** *** The candidates *)

Section Candidates.

Context {Entry DS : Type}.
Context {entryOps : DataSet.IEntry Entry}.
Context {dataSetOps : DataSet.IDataSet Entry DS}.

Local Abbreviation DataProvider := (@DataProvider DS).

Lemma getDataSetByIndex_below_count (data : ChartData.t) (i : nat) :
  (Z.of_nat i < ChartData.getDataSetCount data)%Z ->
  exists r, ChartData.getDataSetByIndex (Z.of_nat i) data = Some r.
Proof.
  unfold ChartData.getDataSetCount, ChartData.getDataSetByIndex, index.
  destruct (ChartData.mDataSets data) as [sets|]; [|lia]. intros Hi.
  destruct (Z.ltb_spec (Z.of_nat i) 0); [lia|].
  destruct (Z.geb_spec (Z.of_nat i) (Z.of_nat (List.length sets))); [lia|].
  simpl. rewrite Nat2Z.id.
  destruct (nth_error sets i) as [r|] eqn:Hnth; [eauto|].
  apply nth_error_None in Hnth. lia.
Qed.

(** The candidates of the data set at index [i], none when highlighting
    is disabled for it. *)
Local Abbreviation candidatesOf chart data xVal :=
  (fun i : nat =>
     match ChartData.getDataSetByIndex (Z.of_nat i) data with
     | Some r =>
         if DataSet.isHighlightEnabled (heap chart r)
         then buildHighlights chart (heap chart r) i xVal CLOSEST
         else []
     | None => []
     end).

Lemma candidates_loop (chart : DataProvider) (data : ChartData.t)
      (xVal : number) (count first : nat) (buffer : Buffer) :
  (Z.of_nat (first + count) <= ChartData.getDataSetCount data)%Z ->
  forEach (seq first count)
    (fun i =>
       match ChartData.getDataSetByIndex (Z.of_nat i) data with
       | None => throw TypeError
       | Some r =>
           let dataSet := heap chart r in
           if negb (DataSet.isHighlightEnabled dataSet) then ret tt
           else modify (fun buffer =>
                  buffer ++ buildHighlights chart dataSet i xVal CLOSEST)
       end) buffer
  = (Ok tt, buffer ++ flat_map (candidatesOf chart data xVal) (seq first count)).
Proof.
  revert first buffer.
  induction count as [|count IH]; intros first buffer Hrange; simpl.
  - rewrite app_nil_r. reflexivity.
  - destruct (@getDataSetByIndex_below_count data first) as [r Hr]; [lia|].
    unfold bind. rewrite Hr. cbv zeta.
    destruct (DataSet.isHighlightEnabled (heap chart r)); simpl.
    + rewrite IH by lia. rewrite <- app_assoc. reflexivity.
    + rewrite IH by lia. reflexivity.
Qed.

(** X18: [getHighlightsAtXValue] never throws, whatever the chart
    holds, the methods of the data sets and of the transformers being
    taken to return.  It returns its buffer, which then holds the
    candidates of the data sets for which highlighting is enabled, those
    of a data set before those of the next one, and nothing of what the
    buffer held before; for a chart without data the result is empty. *)
Theorem getHighlightsAtXValue_collects_enabled_data_sets
        (chart : DataProvider) (xVal x y : number) (buffer : Buffer) :
  exists candidates,
    getHighlightsAtXValue chart xVal x y buffer = (Ok candidates, candidates)
    /\ candidates
       = match getData chart with
         | None => []
         | Some data =>
             flat_map (candidatesOf chart data xVal)
                      (seq 0 (Z.to_nat (ChartData.getDataSetCount data)))
         end.
Proof.
  unfold getHighlightsAtXValue, bind, put, get.
  destruct (getData chart) as [data|].
  - rewrite candidates_loop.
    + eexists. split; reflexivity.
    + unfold ChartData.getDataSetCount.
      destruct (ChartData.mDataSets data); simpl; lia.
  - eexists. split; reflexivity.
Qed.

Lemma candidates_closed_form (chart : DataProvider) (data : ChartData.t)
      (xVal x y : number) (buffer : Buffer) :
  getData chart = Some data ->
  getHighlightsAtXValue chart xVal x y buffer
  = (Ok (flat_map (candidatesOf chart data xVal)
                  (seq 0 (Z.to_nat (ChartData.getDataSetCount data)))),
     flat_map (candidatesOf chart data xVal)
              (seq 0 (Z.to_nat (ChartData.getDataSetCount data)))).
Proof.
  intros Hdata. unfold getHighlightsAtXValue, bind, put, get. rewrite Hdata.
  rewrite candidates_loop; [reflexivity|].
  unfold ChartData.getDataSetCount.
  destruct (ChartData.mDataSets data); simpl; lia.
Qed.

Lemma getHighlightsAtXValue_returns_buffer
      (chart : DataProvider) (xVal x y : number) (buffer : Buffer) :
  exists candidates,
    getHighlightsAtXValue chart xVal x y buffer = (Ok candidates, candidates).
Proof.
  destruct (getData chart) as [data|] eqn:Hdata.
  - eexists. apply candidates_closed_form. exact Hdata.
  - unfold getHighlightsAtXValue, bind, put, get. rewrite Hdata.
    eexists. reflexivity.
Qed.

Lemma flat_map_nil {A B : Type} (f : A -> list B) (l : list A) :
  (forall a, In a l -> f a = []) -> flat_map f l = [].
Proof.
  induction l as [|a l IH]; intros Hnil; simpl; [reflexivity|].
  rewrite (Hnil a) by (left; reflexivity).
  apply IH. intros a' Hin. apply Hnil. right. exact Hin.
Qed.

(** X19: what a candidate is.  On a chart with data, a candidate
    returned by [getHighlightsAtXValue] carries the index of a data set
    of the container for which highlighting is enabled, and the axis of
    that data set; its pixel position is the one the transformer of that
    axis gives for its values; and its values are those of an entry the
    data set holds at the x-value asked for or, only when it holds none
    there, at the x-value of the entry it reports as the closest. *)
Theorem candidates_belong_to_enabled_data_sets
        (chart : DataProvider) (data : ChartData.t) (xVal x y : number)
        (buffer : Buffer) (c : Highlight) :
  getData chart = Some data ->
  In c (snd (getHighlightsAtXValue chart xVal x y buffer)) ->
  exists r,
    ChartData.getDataSetByIndex (Z.of_nat (dataSetIndex c)) data = Some r
    /\ (Z.of_nat (dataSetIndex c) < ChartData.getDataSetCount data)%Z
    /\ DataSet.isHighlightEnabled (heap chart r) = true
    /\ axis c = DataSet.getAxisDependency (heap chart r)
    /\ getPixelForValues chart (axis c) (hx c) (hy c) = mkPoint (xPx c) (yPx c)
    /\ exists e,
        hx c = DataSet.prop e (DataSet.xProperty (heap chart r))
        /\ hy c = DataSet.prop e (DataSet.yProperty (heap chart r))
        /\ (In e (DataSet.getEntriesForXValue (heap chart r) xVal)
            \/ (DataSet.getEntriesForXValue (heap chart r) xVal = []
                /\ exists closest,
                    DataSet.getEntryForXValue (heap chart r) xVal Num.NaN
                                              (Some CLOSEST) = Some closest
                    /\ In e (DataSet.getEntriesForXValue (heap chart r)
                               (DataSet.prop closest
                                  (DataSet.xProperty (heap chart r)))))).
Proof.
  intros Hdata. rewrite (candidates_closed_form chart xVal x y buffer Hdata).
  cbn [snd]. intros Hin. apply in_flat_map in Hin.
  destruct Hin as (i & Hi & Hin). apply in_seq in Hi.
  destruct (ChartData.getDataSetByIndex (Z.of_nat i) data) as [r|] eqn:Hr;
    [|destruct Hin].
  destruct (DataSet.isHighlightEnabled (heap chart r)) eqn:Hen; [|destruct Hin].
  unfold buildHighlights in Hin. apply in_map_iff in Hin.
  destruct Hin as (e & Hc & He). subst c. cbn [dataSetIndex axis hx hy xPx yPx].
  exists r. split; [exact Hr | split; [lia | split; [exact Hen | split; [reflexivity|]]]].
  split.
  { destruct (getPixelForValues chart _ _ _); reflexivity. }
  exists e. split; [reflexivity | split; [reflexivity|]].
  destruct (DataSet.getEntriesForXValue (heap chart r) xVal) as [|e0 es] eqn:Hexact.
  - right. split; [reflexivity|].
    destruct (DataSet.getEntryForXValue (heap chart r) xVal Num.NaN (Some CLOSEST))
      as [closest|]; [|destruct He].
    exists closest. split; [reflexivity | exact He].
  - left. exact He.
Qed.

(** *** The outcome of a query *)

(** [getHighlightForX] returns none when [getHighlightsAtXValue] finds
    no candidate, and otherwise stops at the first call of
    [getMinimumDistance]; in both cases the candidates are what the
    buffer holds afterwards. *)
Lemma getHighlightForX_outcome
      (chart : DataProvider) (xVal x y : number) (buffer : Buffer) :
  let candidates := snd (getHighlightsAtXValue chart xVal x y buffer) in
  getHighlightForX hypot chart xVal x y buffer
  = (match candidates with
     | [] => Ok None
     | _ :: _ => Throw TypeError
     end, candidates).
Proof.
  cbv zeta. unfold getHighlightForX, bind.
  destruct (getHighlightsAtXValue_returns_buffer chart xVal x y buffer)
    as (l & Hl).
  rewrite Hl. cbn [snd].
  destruct l as [|c0 l]; reflexivity.
Qed.

(** C1: the axis resolution step resolves no axis.  For every non-empty
    list of candidates and every touch y-position, [getMinimumDistance]
    throws a [TypeError] for the left axis and for the right axis alike,
    at the call [closestValues.get(0)] of its first turn, and changes
    nothing; so [getHighlightForX], whenever the candidates that
    [getHighlightsAtXValue] found are that list, throws this error
    before an axis is chosen, and leaves the candidates in the buffer.
    In particular, when the least vertical distances of the two axes
    are equal, the left axis is not chosen: none is. *)
Theorem C1_axis_resolution_throws (closestValues : list Highlight) (y : number) :
  closestValues <> [] ->
  (forall (S : Type) (s : S) (ax : AxisDependency),
     getMinimumDistance closestValues y ax s = (Throw TypeError, s))
  /\ (forall (chart : DataProvider) (xVal x : number) (buffer : Buffer),
        snd (getHighlightsAtXValue chart xVal x y buffer) = closestValues ->
        getHighlightForX hypot chart xVal x y buffer
        = (Throw TypeError, closestValues)).
Proof.
  intros Hsome. split.
  - intros S s ax. apply getMinimumDistance_throws. exact Hsome.
  - intros chart xVal x buffer Hfound.
    rewrite getHighlightForX_outcome. cbv zeta. rewrite Hfound.
    destruct closestValues; [congruence | reflexivity].
Qed.

(** C9: two successive calls of [getHighlight(x, y)] on a fixed chart
    (transformers, data sets and their entries) have the same outcome
    and leave the same buffer, the candidates for the x-value under the
    touch, whatever the buffer held before the first call.  That outcome
    is never a candidate: when there is no candidate both calls return
    none, and when there is one both calls throw a [TypeError], in
    [getMinimumDistance]. *)
Theorem C9_getHighlight_returns_no_candidate
        (chart : DataProvider) (x y : number) (buffer : Buffer) :
  let first := getHighlight hypot chart x y buffer in
  let second := getHighlight hypot chart x y (snd first) in
  let candidates :=
    snd (getHighlightsAtXValue chart (px (getValsForTouch chart x y)) x y
           buffer) in
  fst second = fst first
  /\ snd first = candidates /\ snd second = candidates
  /\ (candidates = [] -> fst first = Ok None /\ fst second = Ok None)
  /\ (candidates <> [] ->
        fst first = Throw TypeError /\ fst second = Throw TypeError)
  /\ (forall c, fst first <> Ok (Some c) /\ fst second <> Ok (Some c)).
Proof.
  cbv zeta. unfold getHighlight.
  rewrite !getHighlightForX_outcome. cbv zeta. cbn [fst snd].
  rewrite (getHighlightsAtXValue_ignores_buffer chart
             (px (getValsForTouch chart x y)) x y
             (snd (getHighlightsAtXValue chart
                     (px (getValsForTouch chart x y)) x y buffer)) buffer).
  destruct (snd (getHighlightsAtXValue chart
                   (px (getValsForTouch chart x y)) x y buffer)) as [|c0 l].
  - repeat split; try reflexivity; try discriminate; congruence.
  - repeat split; try reflexivity; try discriminate; congruence.
Qed.

(** X21: [getHighlight(x, y)] returns no highlight, and leaves an empty
    buffer, on a chart without data and on a chart none of whose data
    sets has highlighting enabled, in particular on a chart whose
    container is empty or has no array. *)
Theorem getHighlight_none_without_enabled_data
        (chart : DataProvider) (x y : number) (buffer : Buffer) :
  (getData chart = None
   \/ exists data,
       getData chart = Some data
       /\ forall i r, ChartData.getDataSetByIndex i data = Some r ->
            DataSet.isHighlightEnabled (heap chart r) = false) ->
  getHighlight hypot chart x y buffer = (Ok None, []).
Proof.
  intros Hnone. unfold getHighlight, getHighlightForX, bind.
  assert (Hempty : forall xVal,
            getHighlightsAtXValue chart xVal x y buffer = (Ok [], [])).
  { intros xVal. destruct Hnone as [Hdata | (data & Hdata & Hoff)].
    - unfold getHighlightsAtXValue, bind, put, get. rewrite Hdata. reflexivity.
    - rewrite (candidates_closed_form chart xVal x y buffer Hdata).
      assert (Hnil : flat_map (candidatesOf chart data xVal)
                       (seq 0 (Z.to_nat (ChartData.getDataSetCount data))) = []).
      { apply flat_map_nil. intros i _.
        destruct (ChartData.getDataSetByIndex (Z.of_nat i) data) as [r|] eqn:Hr;
          [|reflexivity].
        rewrite (Hoff _ _ Hr). reflexivity. }
      rewrite Hnil. reflexivity. }
  rewrite Hempty. reflexivity.
Qed.

End Candidates.

End Facts.

(** *** On concrete candidates *)

Lemma C2_closest_on_winning_axis_witness :
  let chosen := mkHighlight (Examples.n 2) (Examples.n 5) (Examples.n 103)
                            (Examples.n 54) 0 LEFT in
  ChartHighlighter.getClosestHighlightByPixel Examples.hypot Examples.candidates
    (Examples.n 101) (Examples.n 50) (Some LEFT) (Examples.n 500) = Some chosen
  /\ In chosen Examples.candidates
  /\ axis chosen = LEFT.
Proof.
  cbv zeta. split.
  - vm_compute. reflexivity.
  - destruct (C2_closest_on_winning_axis Examples.hypot Examples.candidates
                (Examples.n 101) (Examples.n 50) LEFT (Examples.n 500))
      as [_ Hsome].
    destruct (Hsome (mkHighlight (Examples.n 2) (Examples.n 5) (Examples.n 103)
                                 (Examples.n 54) 0 LEFT))
      as (Hin & Hax & _).
    + vm_compute. reflexivity.
    + split; assumption.
Defined.

(** *** On a concrete chart *)

Lemma getClosestHighlightByPixel_returns_first_closest_witness :
  let first := mkHighlight (Examples.n 1) (Examples.n 7) (Examples.n 100)
                           (Examples.n 40) 0 LEFT in
  ChartHighlighter.getClosestHighlightByPixel Examples.hypot Examples.tie
    (Examples.n 100) (Examples.n 50) None (Examples.n 500) = Some first
  /\ exists after, Examples.tie = first :: after.
Proof.
  cbv zeta. split; [vm_compute; reflexivity|].
  destruct (@getClosestHighlightByPixel_returns_first_closest Examples.hypot
              (Examples.n 100) (Examples.n 50) Examples.tie None (Examples.n 500)
              (mkHighlight (Examples.n 1) (Examples.n 7) (Examples.n 100)
                           (Examples.n 40) 0 LEFT))
    as (_ & before & after & Hsplit & _).
  - vm_compute. reflexivity.
  - exists (tl Examples.tie). reflexivity.
Defined.

Lemma candidates_belong_to_enabled_data_sets_witness :
  let chart := Examples.provider (Some (ChartData.this Examples.twoSets)) in
  let c := mkHighlight (Examples.n 1) (Examples.n 7) (Examples.n 1)
                       (Examples.n 7) 1 RIGHT in
  In c (snd (ChartHighlighter.getHighlightsAtXValue chart (Examples.n 1)
               (Examples.n 1) (Examples.n 8) []))
  /\ exists r,
      ChartData.getDataSetByIndex 1 (ChartData.this Examples.twoSets) = Some r
      /\ DataSet.isHighlightEnabled (ChartHighlighter.heap chart r) = true.
Proof.
  cbv zeta.
  assert (Hin : In (mkHighlight (Examples.n 1) (Examples.n 7) (Examples.n 1)
                                (Examples.n 7) 1 RIGHT)
                   (snd (ChartHighlighter.getHighlightsAtXValue
                           (Examples.provider (Some (ChartData.this Examples.twoSets)))
                           (Examples.n 1) (Examples.n 1) (Examples.n 8) [])))
    by (vm_compute; right; left; reflexivity).
  split; [exact Hin|].
  destruct (candidates_belong_to_enabled_data_sets
              (Examples.provider (Some (ChartData.this Examples.twoSets)))
              (Examples.n 1) (Examples.n 1) (Examples.n 8) []
              (mkHighlight (Examples.n 1) (Examples.n 7) (Examples.n 1)
                           (Examples.n 7) 1 RIGHT) eq_refl Hin)
    as (r & Hr & _ & Hen & _).
  exists r. split; [exact Hr | exact Hen].
Defined.

Lemma C1_axis_resolution_throws_witness :
  let found := [ mkHighlight (Examples.n 1) (Examples.n 10) (Examples.n 1)
                             (Examples.n 10) 0 LEFT;
                 mkHighlight (Examples.n 1) (Examples.n 6) (Examples.n 1)
                             (Examples.n 6) 1 RIGHT ] in
  Num.abs (Num.sub (Examples.n 10) (Examples.n 8))
  = Num.abs (Num.sub (Examples.n 6) (Examples.n 8))
  /\ ChartHighlighter.getMinimumDistance found (Examples.n 8) LEFT found
     = (Throw TypeError, found)
  /\ ChartHighlighter.getHighlightForX Examples.hypot Examples.tieChart
       (Examples.n 1) (Examples.n 1) (Examples.n 8) []
     = (Throw TypeError, found).
Proof.
  cbv zeta. split; [vm_compute; reflexivity|].
  destruct (@C1_axis_resolution_throws Examples.hypot
              Examples.SimpleEntry Examples.ListDataSet _ _
              [ mkHighlight (Examples.n 1) (Examples.n 10) (Examples.n 1)
                            (Examples.n 10) 0 LEFT;
                mkHighlight (Examples.n 1) (Examples.n 6) (Examples.n 1)
                            (Examples.n 6) 1 RIGHT ] (Examples.n 8))
    as (Hminimum & Hresolve); [discriminate|].
  split.
  - apply Hminimum.
  - apply Hresolve. vm_compute. reflexivity.
Defined.

Lemma C9_getHighlight_returns_no_candidate_witness :
  let first := ChartHighlighter.getHighlight Examples.hypot Examples.tieChart
                 (Examples.n 1) (Examples.n 8) [] in
  let second := ChartHighlighter.getHighlight Examples.hypot Examples.tieChart
                  (Examples.n 1) (Examples.n 8) (snd first) in
  fst first = Throw TypeError /\ fst second = Throw TypeError.
Proof.
  cbv zeta.
  destruct (C9_getHighlight_returns_no_candidate Examples.hypot
              Examples.tieChart (Examples.n 1) (Examples.n 8) [])
    as (_ & _ & _ & _ & Hthrows & _).
  apply Hthrows. vm_compute. discriminate.
Defined.

Lemma getHighlight_none_without_enabled_data_witness :
  ChartHighlighter.getHighlight Examples.hypot (Examples.provider None)
    (Examples.n 1) (Examples.n 8) Examples.tie = (Ok None, []).
Proof.
  apply (getHighlight_none_without_enabled_data Examples.hypot
           (Examples.provider None) (Examples.n 1) (Examples.n 8) Examples.tie).
  left. reflexivity.
Defined.

End HighlighterFacts.

(** ** The data container *)

Module ChartDataFacts.
Section Facts.

Import ChartData.

Context {Entry DS : Type}.
Context {entryOps : DataSet.IEntry Entry}.
Context {dataSetOps : DataSet.IDataSet Entry DS}.

(** *** Fallback between the axes *)

Lemma eq_refl_finite (s : bool) (m : positive) (e : Z) :
  Num.eq (S754_finite s m e) (S754_finite s m e) = true.
Proof.
  unfold Num.eq, SFeqb, SFcompare.
  rewrite Z.compare_refl, Pos.compare_cont_refl. destruct s; reflexivity.
Qed.

(** The tests of the axis getters against the sentinels. *)
Lemma sentinel_test (c : t) :
  (mLeftAxisMin c = Num.MAX_VALUE ->
     getYMin (Some LEFT) c = mRightAxisMin c)
  /\ (mLeftAxisMax c = Num.neg Num.MAX_VALUE ->
        getYMax (Some LEFT) c = mRightAxisMax c)
  /\ (mRightAxisMin c = Num.MAX_VALUE ->
        getYMin (Some RIGHT) c = mLeftAxisMin c)
  /\ (mRightAxisMax c = Num.neg Num.MAX_VALUE ->
        getYMax (Some RIGHT) c = mLeftAxisMax c).
Proof.
  unfold getYMin, getYMax.
  repeat split; intros Hsentinel; rewrite Hsentinel;
    unfold Num.MAX_VALUE, Num.neg, SFopp;
    rewrite eq_refl_finite; reflexivity.
Qed.

(** *** Out-of-range indices *)

Lemma index_negative {A : Type} (arr : list A) (i : Z) :
  (i < 0)%Z -> index arr i = None.
Proof.
  intros Hi. unfold index.
  destruct (Z.ltb_spec i 0); [reflexivity | lia].
Qed.

Lemma getDataSetByIndex_out_of_range (i : Z) (c : t) :
  (i < 0 \/ i >= getDataSetCount c)%Z -> getDataSetByIndex i c = None.
Proof.
  unfold getDataSetByIndex, getDataSetCount.
  destruct (mDataSets c) as [sets|]; [|reflexivity].
  intros Hi.
  destruct (Z.ltb_spec i 0); simpl; [reflexivity|].
  destruct (Z.geb_spec i (Z.of_nat (List.length sets))); [reflexivity | lia].
Qed.

Lemma removeEntry_out_of_range (e : option Entry) (i : Z) (s : State)
      (sets : list ref) :
  mDataSets (this s) = Some sets ->
  (i < 0 \/ i >= getDataSetCount (this s))%Z ->
  removeEntry e i s = (Ok false, s).
Proof.
  unfold removeEntry, getDataSetCount. intros -> Hi.
  destruct e as [e|]; [|reflexivity].
  destruct (Z.geb_spec i (Z.of_nat (List.length sets))); [reflexivity|].
  rewrite index_negative by lia. reflexivity.
Qed.

Lemma removeEntryForXValue_index_too_large (xValue : number) (i : Z)
      (s : State) (sets : list ref) :
  mDataSets (this s) = Some sets ->
  (i >= getDataSetCount (this s))%Z ->
  removeEntryForXValue xValue i s = (Ok false, s).
Proof.
  unfold removeEntryForXValue, getDataSetCount. intros -> Hi.
  destruct (Z.geb_spec i (Z.of_nat (List.length sets))); [reflexivity | lia].
Qed.

(** C7, where the code departs from it: with a negative data-set index,
    [removeEntryForXValue] neither returns [false] nor any other value;
    the read of the array gives [undefined] and the method call on it
    throws a [TypeError].  The container itself is as before. *)
Theorem C7_removeEntryForXValue_negative_index_throws
        (xValue : number) (i : Z) (s : State) (sets : list ref) :
  mDataSets (this s) = Some sets ->
  (i < 0)%Z ->
  removeEntryForXValue xValue i s = (Throw TypeError, s).
Proof.
  unfold removeEntryForXValue. intros -> Hi.
  destruct (Z.geb_spec i (Z.of_nat (List.length sets))); [lia|].
  rewrite index_negative by lia. reflexivity.
Qed.

(** *** Exactness of the aggregate bounds *)

Section Bounds.

Context {contract : DataSetContract}.

Local Arguments SFltb : simpl never.
Local Arguments SFleb : simpl never.

Local Abbreviation Heap := (@Heap DS).
Local Abbreviation State := (@State DS).

(** The order facts the two kinds of bound rest on. *)
Lemma min_union (P P1 P2 : number -> Prop) (b1 b2 : number) :
  (forall v, P v <-> P1 v \/ P2 v) ->
  minBound P1 b1 -> minBound P2 b2 -> minBound P (pickMin b1 b2).
Proof.
  apply ExtremumFacts.bound_union.
  - apply NumFacts.lt_le.
  - intros a b Ha Hb. apply NumFacts.not_lt_le; assumption.
  - apply NumFacts.le_trans.
Qed.

Lemma max_union (P P1 P2 : number -> Prop) (b1 b2 : number) :
  (forall v, P v <-> P1 v \/ P2 v) ->
  maxBound P1 b1 -> maxBound P2 b2 -> maxBound P (pickMax b1 b2).
Proof.
  apply ExtremumFacts.bound_union.
  - intros a b. apply NumFacts.lt_le.
  - intros a b Ha Hb. apply NumFacts.not_lt_le; assumption.
  - intros a b c Hab Hbc. apply NumFacts.le_trans with (b := b); assumption.
Qed.

Lemma min_ext (P Q : number -> Prop) (b : number) :
  (forall v, P v <-> Q v) -> minBound P b -> minBound Q b.
Proof. apply ExtremumFacts.bound_ext. Qed.

Lemma max_ext (P Q : number -> Prop) (b : number) :
  (forall v, P v <-> Q v) -> maxBound P b -> maxBound Q b.
Proof. apply ExtremumFacts.bound_ext. Qed.

Lemma min_fold_top {A : Type} (sel : A -> bool) (val : A -> number)
      (Pd : A -> number -> Prop) (k : number -> A -> number) :
  (forall b d, k b d = if sel d then pickMin b (val d) else b) ->
  forall ds : list A,
    (forall d, In d ds -> sel d = true -> minBound (Pd d) (val d)) ->
    minBound (fun v => exists d, In d ds /\ sel d = true /\ Pd d v)
             (fold_left k ds Num.MAX_VALUE).
Proof.
  apply ExtremumFacts.bound_fold_top.
  - apply NumFacts.lt_le.
  - intros a b Ha Hb. apply NumFacts.not_lt_le; assumption.
  - apply NumFacts.le_trans.
  - reflexivity.
Qed.

Lemma max_fold_top {A : Type} (sel : A -> bool) (val : A -> number)
      (Pd : A -> number -> Prop) (k : number -> A -> number) :
  (forall b d, k b d = if sel d then pickMax b (val d) else b) ->
  forall ds : list A,
    (forall d, In d ds -> sel d = true -> maxBound (Pd d) (val d)) ->
    maxBound (fun v => exists d, In d ds /\ sel d = true /\ Pd d v)
             (fold_left k ds (Num.neg Num.MAX_VALUE)).
Proof.
  apply ExtremumFacts.bound_fold_top.
  - intros a b. apply NumFacts.lt_le.
  - intros a b Ha Hb. apply NumFacts.not_lt_le; assumption.
  - intros a b c Hab Hbc. apply NumFacts.le_trans with (b := b); assumption.
  - reflexivity.
Qed.

Lemma min_fold_first {A : Type} (sel : A -> bool) (val : A -> number)
      (Pd : A -> number -> Prop) (k : number -> A -> number) :
  (forall b d, k b d = if sel d then pickMin b (val d) else b) ->
  forall ds : list A,
    (forall d, In d ds -> sel d = true -> minBound (Pd d) (val d)) ->
    minBound (fun v => exists d, In d ds /\ sel d = true /\ Pd d v)
             (match find sel ds with
              | Some first => fold_left k ds (val first)
              | None => Num.MAX_VALUE
              end).
Proof.
  apply ExtremumFacts.bound_fold_first.
  - apply NumFacts.lt_le.
  - intros a b Ha Hb. apply NumFacts.not_lt_le; assumption.
  - apply NumFacts.le_trans.
  - reflexivity.
Qed.

Lemma max_fold_first {A : Type} (sel : A -> bool) (val : A -> number)
      (Pd : A -> number -> Prop) (k : number -> A -> number) :
  (forall b d, k b d = if sel d then pickMax b (val d) else b) ->
  forall ds : list A,
    (forall d, In d ds -> sel d = true -> maxBound (Pd d) (val d)) ->
    maxBound (fun v => exists d, In d ds /\ sel d = true /\ Pd d v)
             (match find sel ds with
              | Some first => fold_left k ds (val first)
              | None => Num.neg Num.MAX_VALUE
              end).
Proof.
  apply ExtremumFacts.bound_fold_first.
  - intros a b. apply NumFacts.lt_le.
  - intros a b Ha Hb. apply NumFacts.not_lt_le; assumption.
  - intros a b c Hab Hbc. apply NumFacts.le_trans with (b := b); assumption.
  - reflexivity.
Qed.

Lemma is_min_bound (vs : list number) (b : number) :
  Forall (fun v => Num.finite v = true) vs ->
  (is_min vs b <-> minBound (fun v => In v vs) b).
Proof.
  intros Hvs.
  change (is_min vs b) with (Extremum.extreme SFleb Num.MAX_VALUE vs b).
  unfold minBound. split.
  - apply ExtremumFacts.extreme_bound; [reflexivity | exact Hvs].
  - apply ExtremumFacts.bound_extreme; [|exact Hvs].
    intros a. apply NumFacts.ge_MAX_is_MAX.
Qed.

Lemma is_max_bound (vs : list number) (b : number) :
  Forall (fun v => Num.finite v = true) vs ->
  (is_max vs b <-> maxBound (fun v => In v vs) b).
Proof.
  intros Hvs.
  change (is_max vs b)
    with (Extremum.extreme (fun a b => SFleb b a) (Num.neg Num.MAX_VALUE) vs b).
  unfold maxBound. split.
  - apply ExtremumFacts.extreme_bound; [reflexivity | exact Hvs].
  - apply ExtremumFacts.bound_extreme; [|exact Hvs].
    intros a. apply NumFacts.le_min_is_min.
Qed.

(** What each updating method does to each field. *)

Ltac by_cases_on_comparisons :=
  cbv zeta;
  unfold calcMinMaxForDataSet, calcMinMaxForEntry, leftAxisStep, rightAxisStep,
    onAxis, pickMin, pickMax, Extremum.pick, Num.gt, Num.lt;
  repeat match goal with
         | |- context [DataSet.getAxisDependency ?d] =>
             destruct (DataSet.getAxisDependency d)
         end;
  cbn [AxisDependency_eqb];
  repeat match goal with
         | |- context [if SFltb ?a ?b then _ else _] =>
             lazymatch a with context [SFltb] => fail | _ => idtac end;
             lazymatch b with context [SFltb] => fail | _ => idtac end;
             destruct (SFltb a b);
             cbn [mYMax mYMin mXMax mXMin mLeftAxisMax mLeftAxisMin
                  mRightAxisMax mRightAxisMin mDataSets
                  with_mYMax with_mYMin with_mXMax with_mXMin with_mLeftAxisMax
                  with_mLeftAxisMin with_mRightAxisMax with_mRightAxisMin]
         end;
  repeat split; reflexivity.

Lemma calcMinMaxForDataSet_fields (d : DS) (c : t) :
  let c' := calcMinMaxForDataSet d c in
  mXMin c' = pickMin (mXMin c) (DataSet.getXMin d)
  /\ mXMax c' = pickMax (mXMax c) (DataSet.getXMax d)
  /\ mYMin c' = pickMin (mYMin c) (DataSet.getYMin d)
  /\ mYMax c' = pickMax (mYMax c) (DataSet.getYMax d)
  /\ mLeftAxisMin c'
     = (if onAxis (Some LEFT) d
        then pickMin (mLeftAxisMin c) (DataSet.getYMin d) else mLeftAxisMin c)
  /\ mLeftAxisMax c'
     = (if onAxis (Some LEFT) d
        then pickMax (mLeftAxisMax c) (DataSet.getYMax d) else mLeftAxisMax c)
  /\ mRightAxisMin c'
     = (if onAxis (Some RIGHT) d
        then pickMin (mRightAxisMin c) (DataSet.getYMin d) else mRightAxisMin c)
  /\ mRightAxisMax c'
     = (if onAxis (Some RIGHT) d
        then pickMax (mRightAxisMax c) (DataSet.getYMax d) else mRightAxisMax c)
  /\ mDataSets c' = mDataSets c.
Proof. by_cases_on_comparisons. Qed.

Lemma calcMinMaxForEntry_fields (e : Entry) (ax : AxisDependency) (c : t) :
  let c' := calcMinMaxForEntry e ax c in
  mXMin c' = pickMin (mXMin c) (DataSet.getX e)
  /\ mXMax c' = pickMax (mXMax c) (DataSet.getX e)
  /\ mYMin c' = pickMin (mYMin c) (DataSet.getY e)
  /\ mYMax c' = pickMax (mYMax c) (DataSet.getY e)
  /\ mLeftAxisMin c'
     = (if AxisDependency_eqb ax LEFT
        then pickMin (mLeftAxisMin c) (DataSet.getY e) else mLeftAxisMin c)
  /\ mLeftAxisMax c'
     = (if AxisDependency_eqb ax LEFT
        then pickMax (mLeftAxisMax c) (DataSet.getY e) else mLeftAxisMax c)
  /\ mRightAxisMin c'
     = (if AxisDependency_eqb ax RIGHT
        then pickMin (mRightAxisMin c) (DataSet.getY e) else mRightAxisMin c)
  /\ mRightAxisMax c'
     = (if AxisDependency_eqb ax RIGHT
        then pickMax (mRightAxisMax c) (DataSet.getY e) else mRightAxisMax c)
  /\ mDataSets c' = mDataSets c.
Proof. destruct ax; by_cases_on_comparisons. Qed.

Lemma leftAxisStep_fields (c : t) (d : DS) :
  let c' := leftAxisStep c d in
  mXMin c' = mXMin c /\ mXMax c' = mXMax c
  /\ mYMin c' = mYMin c /\ mYMax c' = mYMax c
  /\ mLeftAxisMin c'
     = (if onAxis (Some LEFT) d
        then pickMin (mLeftAxisMin c) (DataSet.getYMin d) else mLeftAxisMin c)
  /\ mLeftAxisMax c'
     = (if onAxis (Some LEFT) d
        then pickMax (mLeftAxisMax c) (DataSet.getYMax d) else mLeftAxisMax c)
  /\ mRightAxisMin c' = mRightAxisMin c
  /\ mRightAxisMax c' = mRightAxisMax c
  /\ mDataSets c' = mDataSets c.
Proof. by_cases_on_comparisons. Qed.

Lemma rightAxisStep_fields (c : t) (d : DS) :
  let c' := rightAxisStep c d in
  mXMin c' = mXMin c /\ mXMax c' = mXMax c
  /\ mYMin c' = mYMin c /\ mYMax c' = mYMax c
  /\ mLeftAxisMin c' = mLeftAxisMin c
  /\ mLeftAxisMax c' = mLeftAxisMax c
  /\ mRightAxisMin c'
     = (if onAxis (Some RIGHT) d
        then pickMin (mRightAxisMin c) (DataSet.getYMin d) else mRightAxisMin c)
  /\ mRightAxisMax c'
     = (if onAxis (Some RIGHT) d
        then pickMax (mRightAxisMax c) (DataSet.getYMax d) else mRightAxisMax c)
  /\ mDataSets c' = mDataSets c.
Proof. by_cases_on_comparisons. Qed.

(** A field followed through a loop over the data sets. *)
Lemma fold_field {A B : Type} (f : t -> B) (g : t -> A -> t) (k : B -> A -> B) :
  (forall c d, f (g c d) = k (f c) d) ->
  forall (ds : list A) (c : t), f (fold_left g ds c) = fold_left k ds (f c).
Proof.
  intros Hstep. induction ds as [|d ds IH]; intros c; simpl.
  - reflexivity.
  - rewrite IH, Hstep. reflexivity.
Qed.

(** The bounds a data set reports, read on its entries. *)
Lemma finite_coordinates (proj : Entry -> number) (vs : list Entry) :
  (forall e, finiteEntry e -> Num.finite (proj e) = true) ->
  Forall finiteEntry vs ->
  Forall (fun v => Num.finite v = true) (map proj vs).
Proof.
  intros Hproj Hvs. apply Forall_map.
  eapply Forall_impl; [|exact Hvs]. exact Hproj.
Qed.

Lemma in_map_valueIn (proj : Entry -> number) (d : DS) (v : number) :
  In v (map proj (DataSet.getValues d)) <-> valueIn proj d v.
Proof.
  unfold valueIn. rewrite in_map_iff.
  split; intros (e & H1 & H2); exists e; auto.
Qed.

Lemma dataSet_bounds (d : DS) :
  Forall finiteEntry (DataSet.getValues d) ->
  minBound (valueIn DataSet.getX d) (DataSet.getXMin d)
  /\ maxBound (valueIn DataSet.getX d) (DataSet.getXMax d)
  /\ minBound (valueIn DataSet.getY d) (DataSet.getYMin d)
  /\ maxBound (valueIn DataSet.getY d) (DataSet.getYMax d).
Proof.
  intros Hfin.
  destruct (bounds_of_values d Hfin) as (HxMin & HxMax & HyMin & HyMax).
  assert (Hx : Forall (fun v => Num.finite v = true)
                      (map DataSet.getX (DataSet.getValues d)))
    by (apply finite_coordinates; [intros e He; apply He | exact Hfin]).
  assert (Hy : Forall (fun v => Num.finite v = true)
                      (map DataSet.getY (DataSet.getValues d)))
    by (apply finite_coordinates; [intros e He; apply He | exact Hfin]).
  split; [|split; [|split]].
  - apply min_ext with (P := fun v => In v (map DataSet.getX (DataSet.getValues d)));
      [intros v; apply in_map_valueIn|].
    apply is_min_bound; assumption.
  - apply max_ext with (P := fun v => In v (map DataSet.getX (DataSet.getValues d)));
      [intros v; apply in_map_valueIn|].
    apply is_max_bound; assumption.
  - apply min_ext with (P := fun v => In v (map DataSet.getY (DataSet.getValues d)));
      [intros v; apply in_map_valueIn|].
    apply is_min_bound; assumption.
  - apply max_ext with (P := fun v => In v (map DataSet.getY (DataSet.getValues d)));
      [intros v; apply in_map_valueIn|].
    apply is_max_bound; assumption.
Qed.

(** The three loops of [calcMinMax], field by field. *)

Lemma fold_keeps {A B : Type} (f : t -> B) (g : t -> A -> t) :
  (forall c d, f (g c d) = f c) ->
  forall (ds : list A) (c : t), f (fold_left g ds c) = f c.
Proof.
  intros Hstep. induction ds as [|d ds IH]; intros c; simpl.
  - reflexivity.
  - rewrite IH. apply Hstep.
Qed.

Lemma firstLoop_fields (ds : list DS) (c : t) :
  let c' := fold_left (fun c d => calcMinMaxForDataSet d c) ds c in
  mXMin c' = fold_left (fun b d => pickMin b (DataSet.getXMin d)) ds (mXMin c)
  /\ mXMax c' = fold_left (fun b d => pickMax b (DataSet.getXMax d)) ds (mXMax c)
  /\ mYMin c' = fold_left (fun b d => pickMin b (DataSet.getYMin d)) ds (mYMin c)
  /\ mYMax c' = fold_left (fun b d => pickMax b (DataSet.getYMax d)) ds (mYMax c)
  /\ mDataSets c' = mDataSets c.
Proof.
  cbv zeta. repeat split.
  1-4: apply fold_field; intros c0 d; apply (calcMinMaxForDataSet_fields d c0).
  apply fold_keeps. intros c0 d. apply (calcMinMaxForDataSet_fields d c0).
Qed.

Lemma leftLoop_fields (ds : list DS) (c : t) :
  let c' := fold_left leftAxisStep ds c in
  mXMin c' = mXMin c /\ mXMax c' = mXMax c
  /\ mYMin c' = mYMin c /\ mYMax c' = mYMax c
  /\ mLeftAxisMin c'
     = fold_left (fun b d => if onAxis (Some LEFT) d
                             then pickMin b (DataSet.getYMin d) else b)
                 ds (mLeftAxisMin c)
  /\ mLeftAxisMax c'
     = fold_left (fun b d => if onAxis (Some LEFT) d
                             then pickMax b (DataSet.getYMax d) else b)
                 ds (mLeftAxisMax c)
  /\ mRightAxisMin c' = mRightAxisMin c
  /\ mRightAxisMax c' = mRightAxisMax c
  /\ mDataSets c' = mDataSets c.
Proof.
  cbv zeta. repeat split.
  1-4, 7-9: apply fold_keeps; intros c0 d; apply (leftAxisStep_fields c0 d).
  all: apply fold_field; intros c0 d; apply (leftAxisStep_fields c0 d).
Qed.

Lemma rightLoop_fields (ds : list DS) (c : t) :
  let c' := fold_left rightAxisStep ds c in
  mXMin c' = mXMin c /\ mXMax c' = mXMax c
  /\ mYMin c' = mYMin c /\ mYMax c' = mYMax c
  /\ mLeftAxisMin c' = mLeftAxisMin c
  /\ mLeftAxisMax c' = mLeftAxisMax c
  /\ mRightAxisMin c'
     = fold_left (fun b d => if onAxis (Some RIGHT) d
                             then pickMin b (DataSet.getYMin d) else b)
                 ds (mRightAxisMin c)
  /\ mRightAxisMax c'
     = fold_left (fun b d => if onAxis (Some RIGHT) d
                             then pickMax b (DataSet.getYMax d) else b)
                 ds (mRightAxisMax c)
  /\ mDataSets c' = mDataSets c.
Proof.
  cbv zeta. repeat split.
  1-6, 9: apply fold_keeps; intros c0 d; apply (rightAxisStep_fields c0 d).
  all: apply fold_field; intros c0 d; apply (rightAxisStep_fields c0 d).
Qed.

(** The fields [calcMinMax] leaves behind on a container with an array. *)
Lemma calcMinMax_fields (h : Heap) (c : t) (sets : list ref) :
  mDataSets c = Some sets ->
  let ds := map h sets in
  let c' := calcMinMax h c in
  mXMin c'
  = fold_left (fun b d => pickMin b (DataSet.getXMin d)) ds Num.MAX_VALUE
  /\ mXMax c'
     = fold_left (fun b d => pickMax b (DataSet.getXMax d)) ds
                 (Num.neg Num.MAX_VALUE)
  /\ mYMin c'
     = fold_left (fun b d => pickMin b (DataSet.getYMin d)) ds Num.MAX_VALUE
  /\ mYMax c'
     = fold_left (fun b d => pickMax b (DataSet.getYMax d)) ds
                 (Num.neg Num.MAX_VALUE)
  /\ mLeftAxisMin c'
     = match find (onAxis (Some LEFT)) ds with
       | Some first =>
           fold_left (fun b d => if onAxis (Some LEFT) d
                                 then pickMin b (DataSet.getYMin d) else b)
                     ds (DataSet.getYMin first)
       | None => Num.MAX_VALUE
       end
  /\ mLeftAxisMax c'
     = match find (onAxis (Some LEFT)) ds with
       | Some first =>
           fold_left (fun b d => if onAxis (Some LEFT) d
                                 then pickMax b (DataSet.getYMax d) else b)
                     ds (DataSet.getYMax first)
       | None => Num.neg Num.MAX_VALUE
       end
  /\ mRightAxisMin c'
     = match find (onAxis (Some RIGHT)) ds with
       | Some first =>
           fold_left (fun b d => if onAxis (Some RIGHT) d
                                 then pickMin b (DataSet.getYMin d) else b)
                     ds (DataSet.getYMin first)
       | None => Num.MAX_VALUE
       end
  /\ mRightAxisMax c'
     = match find (onAxis (Some RIGHT)) ds with
       | Some first =>
           fold_left (fun b d => if onAxis (Some RIGHT) d
                                 then pickMax b (DataSet.getYMax d) else b)
                     ds (DataSet.getYMax first)
       | None => Num.neg Num.MAX_VALUE
       end
  /\ mDataSets c' = Some sets.
Proof.
  intros Hsets. cbv zeta. unfold calcMinMax. rewrite Hsets.
  unfold getFirstLeft, getFirstRight.
  change (fun d : DS => AxisDependency_eqb (DataSet.getAxisDependency d) LEFT)
    with (onAxis (Some LEFT)).
  change (fun d : DS => AxisDependency_eqb (DataSet.getAxisDependency d) RIGHT)
    with (onAxis (Some RIGHT)).
  set (ds := map h sets).
  destruct (find (onAxis (Some LEFT)) ds) as [firstLeft|];
    destruct (find (onAxis (Some RIGHT)) ds) as [firstRight|];
    repeat match goal with
           | |- context [fold_left rightAxisStep ds ?c0] =>
               destruct (rightLoop_fields ds c0)
                 as (E1 & E2 & E3 & E4 & E5 & E6 & E7 & E8 & E9);
               cbv zeta in E1, E2, E3, E4, E5, E6, E7, E8, E9;
               progress (rewrite ?E1, ?E2, ?E3, ?E4, ?E5, ?E6, ?E7, ?E8, ?E9);
               clear E1 E2 E3 E4 E5 E6 E7 E8 E9
           | |- context [fold_left leftAxisStep ds ?c0] =>
               destruct (leftLoop_fields ds c0)
                 as (E1 & E2 & E3 & E4 & E5 & E6 & E7 & E8 & E9);
               cbv zeta in E1, E2, E3, E4, E5, E6, E7, E8, E9;
               progress (rewrite ?E1, ?E2, ?E3, ?E4, ?E5, ?E6, ?E7, ?E8, ?E9);
               clear E1 E2 E3 E4 E5 E6 E7 E8 E9
           | |- context [fold_left (fun c1 d => calcMinMaxForDataSet d c1) ds ?c0] =>
               destruct (firstLoop_fields ds c0) as (E1 & E2 & E3 & E4 & E5);
               cbv zeta in E1, E2, E3, E4, E5;
               progress (rewrite ?E1, ?E2, ?E3, ?E4, ?E5);
               clear E1 E2 E3 E4 E5
           | _ => progress cbn [mYMax mYMin mXMax mXMin mLeftAxisMax mLeftAxisMin
                                mRightAxisMax mRightAxisMin mDataSets
                                with_mYMax with_mYMin with_mXMax with_mXMin
                                with_mLeftAxisMax with_mLeftAxisMin
                                with_mRightAxisMax with_mRightAxisMin]
           end;
    repeat split; try reflexivity; exact Hsets.
Qed.

Lemma in_sets_valueOn (proj : Entry -> number) (o : option AxisDependency)
      (h : Heap) (sets : list ref) (v : number) :
  (exists d, In d (map h sets) /\ onAxis o d = true /\ valueIn proj d v)
  <-> valueOn proj o h sets v.
Proof.
  unfold valueOn. split.
  - intros (d & Hin & Hsel & Hv). apply in_map_iff in Hin.
    destruct Hin as (r & <- & Hr). exists r. auto.
  - intros (r & Hr & Hsel & Hv). exists (h r).
    split; [apply in_map, Hr | auto].
Qed.

(** [calcMinMax] makes the bounds exact, whatever they were. *)
Lemma calcMinMax_inv (h : Heap) (c : t) (sets : list ref) :
  finiteHeap h ->
  mDataSets c = Some sets ->
  boundsInv (mkState h (calcMinMax h c)).
Proof.
  intros Hfin Hsets.
  destruct (calcMinMax_fields h c Hsets)
    as (HxMin & HxMax & HyMin & HyMax & HlMin & HlMax & HrMin & HrMax & Hds).
  cbv zeta in *.
  assert (Hbounds : forall d, In d (map h sets) ->
             minBound (valueIn DataSet.getX d) (DataSet.getXMin d)
             /\ maxBound (valueIn DataSet.getX d) (DataSet.getXMax d)
             /\ minBound (valueIn DataSet.getY d) (DataSet.getYMin d)
             /\ maxBound (valueIn DataSet.getY d) (DataSet.getYMax d)).
  { intros d Hd. apply dataSet_bounds. apply in_map_iff in Hd.
    destruct Hd as (r & <- & _). apply Hfin. }
  exists sets. simpl heap. simpl this.
  rewrite HxMin, HxMax, HyMin, HyMax, HlMin, HlMax, HrMin, HrMax.
  split; [exact Hds|].
  split; [|split; [|split; [|split; [|split; [|split; [|split]]]]]].
  - apply min_ext
      with (P := fun v => exists d, In d (map h sets) /\ onAxis None d = true
                                    /\ valueIn DataSet.getX d v);
      [intros v; apply in_sets_valueOn|].
    apply min_fold_top with (sel := onAxis None) (val := DataSet.getXMin)
                              (Pd := valueIn DataSet.getX);
      [reflexivity|].
    intros d Hd _. apply Hbounds, Hd.
  - apply max_ext
      with (P := fun v => exists d, In d (map h sets) /\ onAxis None d = true
                                    /\ valueIn DataSet.getX d v);
      [intros v; apply in_sets_valueOn|].
    apply max_fold_top with (sel := onAxis None) (val := DataSet.getXMax)
                              (Pd := valueIn DataSet.getX);
      [reflexivity|].
    intros d Hd _. apply Hbounds, Hd.
  - apply min_ext
      with (P := fun v => exists d, In d (map h sets) /\ onAxis None d = true
                                    /\ valueIn DataSet.getY d v);
      [intros v; apply in_sets_valueOn|].
    apply min_fold_top with (sel := onAxis None) (val := DataSet.getYMin)
                              (Pd := valueIn DataSet.getY);
      [reflexivity|].
    intros d Hd _. apply Hbounds, Hd.
  - apply max_ext
      with (P := fun v => exists d, In d (map h sets) /\ onAxis None d = true
                                    /\ valueIn DataSet.getY d v);
      [intros v; apply in_sets_valueOn|].
    apply max_fold_top with (sel := onAxis None) (val := DataSet.getYMax)
                              (Pd := valueIn DataSet.getY);
      [reflexivity|].
    intros d Hd _. apply Hbounds, Hd.
  - apply min_ext
      with (P := fun v => exists d, In d (map h sets) /\ onAxis (Some LEFT) d = true
                                    /\ valueIn DataSet.getY d v);
      [intros v; apply in_sets_valueOn|].
    apply min_fold_first with (sel := onAxis (Some LEFT)) (val := DataSet.getYMin)
                              (Pd := valueIn DataSet.getY);
      [reflexivity|].
    intros d Hd _. apply Hbounds, Hd.
  - apply max_ext
      with (P := fun v => exists d, In d (map h sets) /\ onAxis (Some LEFT) d = true
                                    /\ valueIn DataSet.getY d v);
      [intros v; apply in_sets_valueOn|].
    apply max_fold_first with (sel := onAxis (Some LEFT)) (val := DataSet.getYMax)
                              (Pd := valueIn DataSet.getY);
      [reflexivity|].
    intros d Hd _. apply Hbounds, Hd.
  - apply min_ext
      with (P := fun v => exists d, In d (map h sets) /\ onAxis (Some RIGHT) d = true
                                    /\ valueIn DataSet.getY d v);
      [intros v; apply in_sets_valueOn|].
    apply min_fold_first with (sel := onAxis (Some RIGHT)) (val := DataSet.getYMin)
                              (Pd := valueIn DataSet.getY);
      [reflexivity|].
    intros d Hd _. apply Hbounds, Hd.
  - apply max_ext
      with (P := fun v => exists d, In d (map h sets) /\ onAxis (Some RIGHT) d = true
                                    /\ valueIn DataSet.getY d v);
      [intros v; apply in_sets_valueOn|].
    apply max_fold_first with (sel := onAxis (Some RIGHT)) (val := DataSet.getYMax)
                              (Pd := valueIn DataSet.getY);
      [reflexivity|].
    intros d Hd _. apply Hbounds, Hd.
Qed.

(** Widening a bound by one more source of values. *)

Lemma min_add (P P' Q : number -> Prop) (b q : number) (c : bool) :
  minBound Q q -> minBound P b ->
  (forall v, P' v <-> P v \/ (c = true /\ Q v)) ->
  minBound P' (if c then pickMin b q else b).
Proof.
  intros HQ HP Heq. destruct c.
  - apply min_union with (P1 := P) (P2 := Q); [|exact HP | exact HQ].
    intros v. rewrite Heq. tauto.
  - apply min_ext with (P := P); [|exact HP].
    intros v. rewrite Heq. split; [auto | intros [H | [H _]]; [exact H | discriminate]].
Qed.

Lemma max_add (P P' Q : number -> Prop) (b q : number) (c : bool) :
  maxBound Q q -> maxBound P b ->
  (forall v, P' v <-> P v \/ (c = true /\ Q v)) ->
  maxBound P' (if c then pickMax b q else b).
Proof.
  intros HQ HP Heq. destruct c.
  - apply max_union with (P1 := P) (P2 := Q); [|exact HP | exact HQ].
    intros v. rewrite Heq. tauto.
  - apply max_ext with (P := P); [|exact HP].
    intros v. rewrite Heq. split; [auto | intros [H | [H _]]; [exact H | discriminate]].
Qed.

Lemma min_single (x : number) :
  Num.finite x = true -> minBound (fun v => x = v) x.
Proof.
  intros Hfin. repeat split.
  - exact Hfin.
  - right. reflexivity.
  - intros v <-. apply NumFacts.le_refl_finite, Hfin.
Qed.

Lemma max_single (x : number) :
  Num.finite x = true -> maxBound (fun v => x = v) x.
Proof.
  intros Hfin. repeat split.
  - exact Hfin.
  - right. reflexivity.
  - intros v <-. apply NumFacts.le_refl_finite, Hfin.
Qed.

(** The values of the container after a data set was replaced on the
    heap by one of the same axis. *)
Lemma update_same (h : Heap) (r : ref) (d : DS) : update h r d r = d.
Proof. unfold update. rewrite Nat.eqb_refl. reflexivity. Qed.

Lemma update_other (h : Heap) (r r' : ref) (d : DS) :
  r' <> r -> update h r d r' = h r'.
Proof.
  intros Hne. unfold update.
  destruct (Nat.eqb_spec r' r); [contradiction | reflexivity].
Qed.

Lemma onAxis_same_axis (o : option AxisDependency) (d d' : DS) :
  DataSet.getAxisDependency d' = DataSet.getAxisDependency d ->
  onAxis o d' = onAxis o d.
Proof. intros Hax. destruct o; simpl; [rewrite Hax|]; reflexivity. Qed.

Lemma valueOn_update (proj : Entry -> number) (o : option AxisDependency)
      (h : Heap) (sets : list ref) (r : ref) (d' : DS) (extra : bool)
      (e : Entry) (v : number) :
  In r sets ->
  DataSet.getAxisDependency d' = DataSet.getAxisDependency (h r) ->
  (forall x, In x (DataSet.getValues d')
             <-> In x (DataSet.getValues (h r)) \/ (extra = true /\ x = e)) ->
  valueOn proj o (update h r d') sets v
  <-> valueOn proj o h sets v
      \/ (extra && onAxis o (h r) = true /\ proj e = v).
Proof.
  intros Hr Hax Hvals. unfold valueOn, valueIn. split.
  - intros (r' & Hr' & Hsel & x & Hx & Hv).
    destruct (Nat.eq_dec r' r) as [-> | Hne].
    + rewrite update_same in Hsel, Hx.
      rewrite (onAxis_same_axis o _ _ Hax) in Hsel.
      apply Hvals in Hx. destruct Hx as [Hx | [Hextra ->]].
      * left. exists r. eauto.
      * right. rewrite Hsel, Hextra. auto.
    + rewrite update_other in Hsel, Hx by exact Hne.
      left. exists r'. eauto.
  - intros [(r' & Hr' & Hsel & x & Hx & Hv) | (Hc & Hv)].
    + exists r'. split; [exact Hr'|].
      destruct (Nat.eq_dec r' r) as [-> | Hne].
      * rewrite update_same, (onAxis_same_axis o _ _ Hax).
        split; [exact Hsel|]. exists x. split; [|exact Hv].
        apply Hvals. left. exact Hx.
      * rewrite update_other by exact Hne. eauto.
    + apply andb_prop in Hc. destruct Hc as [Hextra Hsel].
      exists r. split; [exact Hr|].
      rewrite update_same, (onAxis_same_axis o _ _ Hax).
      split; [exact Hsel|]. exists e. split; [|exact Hv].
      apply Hvals. right. auto.
Qed.

Lemma finiteHeap_update (h : Heap) (r : ref) (d' : DS) :
  finiteHeap h ->
  Forall finiteEntry (DataSet.getValues d') ->
  finiteHeap (update h r d').
Proof.
  intros Hfin Hd' r'. destruct (Nat.eq_dec r' r) as [-> | Hne].
  - rewrite update_same. exact Hd'.
  - rewrite update_other by exact Hne. apply Hfin.
Qed.

Lemma index_In {A : Type} (arr : list A) (i : Z) (a : A) :
  index arr i = Some a -> In a arr.
Proof.
  unfold index. destruct (i <? 0)%Z; [discriminate|].
  apply nth_error_In.
Qed.

Lemma index_in_range {A : Type} (arr : list A) (i : Z) :
  (0 <= i < Z.of_nat (List.length arr))%Z -> exists a, index arr i = Some a.
Proof.
  intros Hi. unfold index.
  destruct (Z.ltb_spec i 0); [lia|].
  destruct (nth_error arr (Z.to_nat i)) as [a|] eqn:Hnth; [eauto|].
  apply nth_error_None in Hnth. lia.
Qed.

(** Each mutation keeps the heap finite and the bounds exact. *)

Lemma addEntry_inv (e : Entry) (i : Z) (s : State) :
  finiteEntry e -> finiteHeap (heap s) -> boundsInv s ->
  exists s', addEntry e i s = (Ok tt, s')
             /\ finiteHeap (heap s') /\ boundsInv s'.
Proof.
  intros He Hfin Hinv. pose proof Hinv as (sets & Hsets & Hb).
  unfold addEntry. rewrite Hsets.
  destruct ((Z.of_nat (List.length sets) >? i)%Z && (i >=? 0)%Z) eqn:Hrange;
    [|exists s; auto].
  apply andb_prop in Hrange. destruct Hrange as [Hlt Hge].
  destruct (@index_in_range _ sets i) as [r Hidx]; [lia|].
  rewrite Hidx. pose proof (@index_In _ sets i r Hidx) as Hr.
  destruct (addEntry_values (heap s r) e) as [Hax Hvals].
  destruct (DataSet.addEntry (heap s r) e) as [added d']. simpl in Hax, Hvals.
  assert (Hfin' : finiteHeap (update (heap s) r d')).
  { apply finiteHeap_update; [exact Hfin|].
    apply Forall_forall. intros x Hx. apply Hvals in Hx.
    destruct Hx as [Hx | [_ ->]]; [|exact He].
    pose proof (Hfin r) as Hall. rewrite Forall_forall in Hall. apply Hall, Hx. }
  assert (Hvalues : forall proj o v,
             valueOn proj o (update (heap s) r d') sets v
             <-> valueOn proj o (heap s) sets v
                 \/ (added && onAxis o (heap s r) = true /\ proj e = v)).
  { intros proj o v. apply valueOn_update; assumption. }
  destruct Hb as (HxMin & HxMax & HyMin & HyMax & HlMin & HlMax & HrMin & HrMax).
  destruct He as [Hex Hey].
  destruct added; simpl negb; cbv iota.
  - eexists. split; [reflexivity|]. split; [exact Hfin'|].
    exists sets. simpl heap. simpl this.
    destruct (calcMinMaxForEntry_fields e
                (DataSet.getAxisDependency (update (heap s) r d' r)) (this s))
      as (-> & -> & -> & -> & -> & -> & -> & -> & ->).
    rewrite update_same, Hax.
    split; [exact Hsets|].
    split; [|split; [|split; [|split; [|split; [|split; [|split]]]]]].
    + refine (@min_add _ _ _ _ _ (true && onAxis None (heap s r))
               (@min_single _ Hex) HxMin _).
      intros v. apply Hvalues.
    + refine (@max_add _ _ _ _ _ (true && onAxis None (heap s r))
               (@max_single _ Hex) HxMax _).
      intros v. apply Hvalues.
    + refine (@min_add _ _ _ _ _ (true && onAxis None (heap s r))
               (@min_single _ Hey) HyMin _).
      intros v. apply Hvalues.
    + refine (@max_add _ _ _ _ _ (true && onAxis None (heap s r))
               (@max_single _ Hey) HyMax _).
      intros v. apply Hvalues.
    + refine (@min_add _ _ _ _ _ (true && onAxis (Some LEFT) (heap s r))
               (@min_single _ Hey) HlMin _).
      intros v. apply Hvalues.
    + refine (@max_add _ _ _ _ _ (true && onAxis (Some LEFT) (heap s r))
               (@max_single _ Hey) HlMax _).
      intros v. apply Hvalues.
    + refine (@min_add _ _ _ _ _ (true && onAxis (Some RIGHT) (heap s r))
               (@min_single _ Hey) HrMin _).
      intros v. apply Hvalues.
    + refine (@max_add _ _ _ _ _ (true && onAxis (Some RIGHT) (heap s r))
               (@max_single _ Hey) HrMax _).
      intros v. apply Hvalues.
  - eexists. split; [reflexivity|]. split; [exact Hfin'|].
    exists sets. simpl heap. simpl this.
    split; [exact Hsets|].
    split; [|split; [|split; [|split; [|split; [|split; [|split]]]]]].
    + refine (@min_add _ _ _ _ _ (false && onAxis None (heap s r))
               (@min_single _ Hex) HxMin _).
      intros v. apply Hvalues.
    + refine (@max_add _ _ _ _ _ (false && onAxis None (heap s r))
               (@max_single _ Hex) HxMax _).
      intros v. apply Hvalues.
    + refine (@min_add _ _ _ _ _ (false && onAxis None (heap s r))
               (@min_single _ Hey) HyMin _).
      intros v. apply Hvalues.
    + refine (@max_add _ _ _ _ _ (false && onAxis None (heap s r))
               (@max_single _ Hey) HyMax _).
      intros v. apply Hvalues.
    + refine (@min_add _ _ _ _ _ (false && onAxis (Some LEFT) (heap s r))
               (@min_single _ Hey) HlMin _).
      intros v. apply Hvalues.
    + refine (@max_add _ _ _ _ _ (false && onAxis (Some LEFT) (heap s r))
               (@max_single _ Hey) HlMax _).
      intros v. apply Hvalues.
    + refine (@min_add _ _ _ _ _ (false && onAxis (Some RIGHT) (heap s r))
               (@min_single _ Hey) HrMin _).
      intros v. apply Hvalues.
    + refine (@max_add _ _ _ _ _ (false && onAxis (Some RIGHT) (heap s r))
               (@max_single _ Hey) HrMax _).
      intros v. apply Hvalues.
Qed.

Lemma removeEntry_inv (e : option Entry) (i : Z) (s : State) :
  finiteHeap (heap s) -> boundsInv s ->
  exists removed s', removeEntry e i s = (Ok removed, s')
                     /\ finiteHeap (heap s') /\ boundsInv s'.
Proof.
  intros Hfin Hinv. pose proof Hinv as (sets & Hsets & Hb).
  unfold removeEntry. destruct e as [e|]; [|exists false, s; auto].
  rewrite Hsets.
  destruct (i >=? Z.of_nat (List.length sets))%Z; [exists false, s; auto|].
  destruct (index sets i) as [r|] eqn:Hidx; [|exists false, s; auto].
  pose proof (@index_In _ sets i r Hidx) as Hr.
  destruct (removeEntry_values (heap s r) e) as (Hax & Hsub & Hsame).
  destruct (DataSet.removeEntry (heap s r) e) as [removed d'].
  simpl in Hax, Hsub, Hsame.
  assert (Hfin' : finiteHeap (update (heap s) r d')).
  { apply finiteHeap_update; [exact Hfin|].
    apply Forall_forall. intros x Hx. apply Hsub in Hx.
    pose proof (Hfin r) as Hall. rewrite Forall_forall in Hall. apply Hall, Hx. }
  destruct removed.
  - eexists. eexists. split; [reflexivity|]. split; [exact Hfin'|].
    apply (@calcMinMax_inv (update (heap s) r d') (this s) sets Hfin' Hsets).
  - eexists. eexists. split; [reflexivity|]. split; [exact Hfin'|].
    assert (Hvalues : forall proj o v,
               valueOn proj o (heap s) sets v
               <-> valueOn proj o (update (heap s) r d') sets v).
    { intros proj o v.
      rewrite (@valueOn_update proj o (heap s) sets r d' false e v Hr Hax).
      - simpl. split; [auto | intros [H | [Hf _]]; [exact H | discriminate]].
      - intros x. split.
        + intros Hx. left. apply Hsub, Hx.
        + intros [Hx | [Hf _]]; [apply Hsame; auto | discriminate]. }
    destruct Hb as (HxMin & HxMax & HyMin & HyMax & HlMin & HlMax & HrMin & HrMax).
    exists sets. simpl heap. simpl this. split; [exact Hsets|].
    (split; [|split; [|split; [|split; [|split; [|split; [|split]]]]]]);
      first [ eapply min_ext; [intros v; apply Hvalues | assumption]
            | eapply max_ext; [intros v; apply Hvalues | assumption] ].
Qed.

Lemma valueOn_app (proj : Entry -> number) (o : option AxisDependency)
      (h : Heap) (sets : list ref) (r : ref) (v : number) :
  valueOn proj o h (sets ++ [r]) v
  <-> valueOn proj o h sets v \/ (onAxis o (h r) = true /\ valueIn proj (h r) v).
Proof.
  unfold valueOn. split.
  - intros (r' & Hr' & Hsel & Hv). apply in_app_or in Hr'.
    destruct Hr' as [Hr' | [<- | []]]; [left; eauto | right; auto].
  - intros [(r' & Hr' & Hsel & Hv) | (Hsel & Hv)].
    + exists r'. split; [apply in_or_app; left; exact Hr' | auto].
    + exists r. split; [apply in_or_app; right; left; reflexivity | auto].
Qed.

Lemma addDataSet_inv (d : option ref) (s : State) :
  finiteHeap (heap s) -> boundsInv s ->
  exists s', addDataSet d s = (Ok tt, s')
             /\ finiteHeap (heap s') /\ boundsInv s'.
Proof.
  intros Hfin Hinv. pose proof Hinv as (sets & Hsets & Hb).
  unfold addDataSet. destruct d as [r|]; [|exists s; auto].
  destruct (calcMinMaxForDataSet_fields (heap s r) (this s))
    as (ExMin & ExMax & EyMin & EyMax & ElMin & ElMax & ErMin & ErMax & Eds).
  cbv zeta in *. simpl. rewrite Eds, Hsets.
  eexists. split; [reflexivity|]. split; [exact Hfin|].
  exists (sets ++ [r]). simpl.
  rewrite ExMin, ExMax, EyMin, EyMax, ElMin, ElMax, ErMin, ErMax.
  destruct (dataSet_bounds (heap s r) (Hfin r)) as (DxMin & DxMax & DyMin & DyMax).
  destruct Hb as (HxMin & HxMax & HyMin & HyMax & HlMin & HlMax & HrMin & HrMax).
  split; [reflexivity|].
  split; [|split; [|split; [|split; [|split; [|split; [|split]]]]]].
  - refine (@min_add _ _ _ _ _ (onAxis None (heap s r)) DxMin HxMin _).
    intros v. apply valueOn_app.
  - refine (@max_add _ _ _ _ _ (onAxis None (heap s r)) DxMax HxMax _).
    intros v. apply valueOn_app.
  - refine (@min_add _ _ _ _ _ (onAxis None (heap s r)) DyMin HyMin _).
    intros v. apply valueOn_app.
  - refine (@max_add _ _ _ _ _ (onAxis None (heap s r)) DyMax HyMax _).
    intros v. apply valueOn_app.
  - refine (@min_add _ _ _ _ _ (onAxis (Some LEFT) (heap s r)) DyMin HlMin _).
    intros v. apply valueOn_app.
  - refine (@max_add _ _ _ _ _ (onAxis (Some LEFT) (heap s r)) DyMax HlMax _).
    intros v. apply valueOn_app.
  - refine (@min_add _ _ _ _ _ (onAxis (Some RIGHT) (heap s r)) DyMin HrMin _).
    intros v. apply valueOn_app.
  - refine (@max_add _ _ _ _ _ (onAxis (Some RIGHT) (heap s r)) DyMax HrMax _).
    intros v. apply valueOn_app.
Qed.

Lemma removeDataSet_inv (d : option ref) (s : State) :
  finiteHeap (heap s) -> boundsInv s ->
  exists removed s', removeDataSet d s = (Ok removed, s')
                     /\ finiteHeap (heap s') /\ boundsInv s'.
Proof.
  intros Hfin Hinv. pose proof Hinv as (sets & Hsets & Hb).
  unfold removeDataSet. destruct d as [r|]; [|exists false, s; auto].
  rewrite Hsets.
  destruct (indexOf sets r >=? 0)%Z; [|exists false, s; auto].
  eexists. eexists. split; [reflexivity|]. split; [exact Hfin|].
  simpl. eapply calcMinMax_inv; [exact Hfin | reflexivity].
Qed.

Lemma clearValues_inv (s : State) :
  finiteHeap (heap s) -> boundsInv s ->
  exists s', clearValues s = (Ok tt, s')
             /\ finiteHeap (heap s') /\ boundsInv s'.
Proof.
  intros Hfin Hinv. pose proof Hinv as (sets & Hsets & Hb).
  unfold clearValues, notifyDataChanged. rewrite Hsets.
  eexists. split; [reflexivity|]. split; [exact Hfin|].
  simpl. eapply calcMinMax_inv; [exact Hfin | reflexivity].
Qed.

Lemma constructor_inv (h : Heap) (sets : list ref) :
  finiteHeap h -> boundsInv (constructor h (Some sets)).
Proof.
  intros Hfin. unfold constructor, notifyDataChanged.
  apply calcMinMax_inv with (sets := sets); [exact Hfin | reflexivity].
Qed.

Lemma exec_inv (op : Op) (s : State) :
  finiteOp op -> finiteHeap (heap s) -> boundsInv s ->
  exists s', exec op s = (Ok tt, s') /\ finiteHeap (heap s') /\ boundsInv s'.
Proof.
  intros Hop Hfin Hinv. destruct op as [e i | e i | d | d |]; simpl.
  - apply addEntry_inv; assumption.
  - destruct (removeEntry_inv e i Hfin Hinv) as (b & s' & Hrun & H').
    exists s'. unfold bind. rewrite Hrun. auto.
  - apply addDataSet_inv; assumption.
  - destruct (removeDataSet_inv d Hfin Hinv) as (b & s' & Hrun & H').
    exists s'. unfold bind. rewrite Hrun. auto.
  - apply clearValues_inv; assumption.
Qed.

Lemma run_inv (ops : list Op) (s : State) :
  Forall finiteOp ops -> finiteHeap (heap s) -> boundsInv s ->
  exists s', run ops s = (Ok tt, s') /\ finiteHeap (heap s') /\ boundsInv s'.
Proof.
  revert s. induction ops as [|op ops IH]; intros s Hops Hfin Hinv.
  - exists s. auto.
  - inversion Hops as [|? ? Hop Hrest]; subst.
    destruct (exec_inv op Hop Hfin Hinv) as (s1 & Hrun & Hfin1 & Hinv1).
    destruct (IH s1 Hrest Hfin1 Hinv1) as (s' & Hrun' & H').
    exists s'. unfold run in *. simpl. unfold bind. rewrite Hrun. auto.
Qed.

(** From the bounds as the loops keep them to the bounds over the lists
    of entries. *)

Lemma in_entriesOf (h : Heap) (sets : list ref) (e : Entry) :
  In e (entriesOf h sets) <-> exists r, In r sets /\ In e (DataSet.getValues (h r)).
Proof. unfold entriesOf. apply in_flat_map. Qed.

Lemma coordinates_all (proj : Entry -> number) (h : Heap) (sets : list ref)
      (v : number) :
  In v (map proj (entriesOf h sets)) <-> valueOn proj None h sets v.
Proof.
  unfold valueOn, valueIn. rewrite in_map_iff. split.
  - intros (e & Hv & He). apply in_entriesOf in He.
    destruct He as (r & Hr & He). exists r. simpl. eauto.
  - intros (r & Hr & _ & e & He & Hv). exists e. split; [exact Hv|].
    apply in_entriesOf. eauto.
Qed.

Lemma coordinates_on (proj : Entry -> number) (ax : AxisDependency) (h : Heap)
      (sets : list ref) (v : number) :
  In v (map proj (entriesOn ax h sets)) <-> valueOn proj (Some ax) h sets v.
Proof.
  unfold entriesOn, valueOn, valueIn. rewrite in_map_iff. split.
  - intros (e & Hv & He). apply in_entriesOf in He.
    destruct He as (r & Hr & He). apply filter_In in Hr.
    destruct Hr as [Hr Hsel]. exists r. simpl. eauto.
  - intros (r & Hr & Hsel & e & He & Hv). exists e. split; [exact Hv|].
    apply in_entriesOf. exists r. split; [|exact He].
    apply filter_In. auto.
Qed.

Lemma finite_entriesOf (h : Heap) (sets : list ref) :
  finiteHeap h -> Forall finiteEntry (entriesOf h sets).
Proof.
  intros Hfin. apply Forall_forall. intros e He. apply in_entriesOf in He.
  destruct He as (r & _ & He).
  pose proof (Hfin r) as Hall. rewrite Forall_forall in Hall. apply Hall, He.
Qed.

Lemma boundsInv_exact (s : State) :
  finiteHeap (heap s) -> boundsInv s -> exactBounds s.
Proof.
  intros Hfin (sets & Hsets & HxMin & HxMax & HyMin & HyMax
               & HlMin & HlMax & HrMin & HrMax).
  assert (Hx : forall l, Forall finiteEntry l ->
                         Forall (fun v => Num.finite v = true) (map DataSet.getX l))
    by (intros l; apply finite_coordinates; intros e He; apply He).
  assert (Hy : forall l, Forall finiteEntry l ->
                         Forall (fun v => Num.finite v = true) (map DataSet.getY l))
    by (intros l; apply finite_coordinates; intros e He; apply He).
  pose proof (finite_entriesOf sets Hfin) as Hall.
  assert (Hon : forall ax, Forall finiteEntry (entriesOn ax (heap s) sets))
    by (intros ax; apply finite_entriesOf, Hfin).
  exists sets. split; [exact Hsets|].
  split; [|split; [|split; [|split; [|split; [|split; [|split]]]]]].
  - apply is_min_bound; [auto|].
    eapply min_ext; [|exact HxMin]. intros v. symmetry. apply coordinates_all.
  - apply is_max_bound; [auto|].
    eapply max_ext; [|exact HxMax]. intros v. symmetry. apply coordinates_all.
  - apply is_min_bound; [auto|].
    eapply min_ext; [|exact HyMin]. intros v. symmetry. apply coordinates_all.
  - apply is_max_bound; [auto|].
    eapply max_ext; [|exact HyMax]. intros v. symmetry. apply coordinates_all.
  - apply is_min_bound; [auto|].
    eapply min_ext; [|exact HlMin]. intros v. symmetry. apply coordinates_on.
  - apply is_max_bound; [auto|].
    eapply max_ext; [|exact HlMax]. intros v. symmetry. apply coordinates_on.
  - apply is_min_bound; [auto|].
    eapply min_ext; [|exact HrMin]. intros v. symmetry. apply coordinates_on.
  - apply is_max_bound; [auto|].
    eapply max_ext; [|exact HrMax]. intros v. symmetry. apply coordinates_on.
Qed.

(** C8: take data sets that keep to their contract and a container built
    over some of them, all entries having finite coordinates.  Every
    sequence of [addEntry], [removeEntry], [addDataSet], [removeDataSet]
    and [clearValues] with finite entries runs to its end without an
    error, and afterwards [mXMin], [mXMax], [mYMin], [mYMax] are the least
    and greatest x and y over the entries present in the data sets of the
    container, [mLeftAxisMin], [mLeftAxisMax], [mRightAxisMin] and
    [mRightAxisMax] the least and greatest y over the entries of the
    data sets of that axis, each being its sentinel when there is no such
    entry. *)
Theorem C8_aggregate_bounds_are_exact
        (h : Heap) (sets : list ref) (ops : list Op) :
  finiteHeap h ->
  Forall finiteOp ops ->
  let out := run ops (constructor h (Some sets)) in
  fst out = Ok tt /\ exactBounds (snd out).
Proof.
  intros Hfin Hops. cbv zeta.
  destruct (run_inv (s := constructor h (Some sets)) Hops Hfin
                    (constructor_inv sets Hfin))
    as (s' & Hrun & Hfin' & Hinv').
  rewrite Hrun. simpl. split; [reflexivity|].
  apply boundsInv_exact; assumption.
Qed.

(** A container recalculated over data sets none of which is on the left
    axis holds the sentinels as its left-axis bounds, and so answers with
    the right-axis bounds. *)
Lemma no_left_data_set_falls_back (h : Heap) (c : t) (sets : list ref) :
  mDataSets c = Some sets ->
  (forall r, In r sets -> DataSet.getAxisDependency (h r) = RIGHT) ->
  let c' := calcMinMax h c in
  mLeftAxisMin c' = Num.MAX_VALUE
  /\ mLeftAxisMax c' = Num.neg Num.MAX_VALUE
  /\ getYMin (Some LEFT) c' = mRightAxisMin c'
  /\ getYMax (Some LEFT) c' = mRightAxisMax c'.
Proof.
  intros Hsets Hright. cbv zeta.
  destruct (calcMinMax_fields h c Hsets)
    as (_ & _ & _ & _ & HlMin & HlMax & _).
  cbv zeta in *.
  assert (Hnone : find (onAxis (Some LEFT)) (map h sets) = None).
  { destruct (find (onAxis (Some LEFT)) (map h sets)) as [d|] eqn:Hfind;
      [|reflexivity].
    apply find_some in Hfind. destruct Hfind as [Hd Hsel].
    apply in_map_iff in Hd. destruct Hd as (r & <- & Hr).
    simpl in Hsel. rewrite (Hright r Hr) in Hsel. discriminate. }
  rewrite Hnone in HlMin, HlMax.
  destruct (sentinel_test (calcMinMax h c)) as (Hmin & Hmax & _).
  auto.
Qed.

End Bounds.

(** *** An axis without data set *)

Section Fallback.

Local Arguments SFltb : simpl never.
Local Arguments SFleb : simpl never.

Local Abbreviation Heap := (@Heap DS).
Local Abbreviation State := (@State DS).

(** A data set keeps its axis when an entry is added to it or removed
    from it. *)
Hypothesis addEntry_axis : forall (d : DS) (e : Entry),
  DataSet.getAxisDependency (snd (DataSet.addEntry d e))
  = DataSet.getAxisDependency d.
Hypothesis removeEntry_axis : forall (d : DS) (e : Entry),
  DataSet.getAxisDependency (snd (DataSet.removeEntry d e))
  = DataSet.getAxisDependency d.

Lemma AxisDependency_eqb_neq (a b : AxisDependency) :
  a <> b -> AxisDependency_eqb a b = false.
Proof. destruct a, b; simpl; congruence. Qed.

Lemma calcMinMaxForEntry_other_axis (e : Entry) (a ax : AxisDependency) (c : t) :
  a <> ax ->
  axisMin ax (calcMinMaxForEntry e a c) = axisMin ax c
  /\ axisMax ax (calcMinMaxForEntry e a c) = axisMax ax c.
Proof.
  intros Hne. apply AxisDependency_eqb_neq in Hne.
  destruct (calcMinMaxForEntry_fields e a c)
    as (_ & _ & _ & _ & HlMin & HlMax & HrMin & HrMax & _).
  destruct ax; simpl; rewrite Hne in *; auto.
Qed.

Lemma calcMinMaxForDataSet_other_axis (d : DS) (ax : AxisDependency) (c : t) :
  DataSet.getAxisDependency d <> ax ->
  axisMin ax (calcMinMaxForDataSet d c) = axisMin ax c
  /\ axisMax ax (calcMinMaxForDataSet d c) = axisMax ax c.
Proof.
  intros Hne. apply AxisDependency_eqb_neq in Hne.
  destruct (calcMinMaxForDataSet_fields d c)
    as (_ & _ & _ & _ & HlMin & HlMax & HrMin & HrMax & _).
  unfold onAxis in *.
  destruct ax; simpl; rewrite Hne in *; auto.
Qed.

Lemma calcMinMax_array (h : Heap) (c : t) :
  mDataSets (calcMinMax h c) = mDataSets c.
Proof.
  destruct (mDataSets c) as [sets|] eqn:Hsets.
  - destruct (calcMinMax_fields h c Hsets) as (_ & _ & _ & _ & _ & _ & _ & _ & H).
    exact H.
  - unfold calcMinMax. rewrite Hsets. exact Hsets.
Qed.

(** A recalculation leaves the sentinels on an axis without data set. *)
Lemma calcMinMax_sentinels (h : Heap) (c : t) (sets : list ref)
      (ax : AxisDependency) :
  mDataSets c = Some sets ->
  (forall r, In r sets -> DataSet.getAxisDependency (h r) <> ax) ->
  axisMin ax (calcMinMax h c) = Num.MAX_VALUE
  /\ axisMax ax (calcMinMax h c) = Num.neg Num.MAX_VALUE.
Proof.
  intros Hsets Hnone.
  destruct (calcMinMax_fields h c Hsets)
    as (_ & _ & _ & _ & HlMin & HlMax & HrMin & HrMax & _).
  cbv zeta in *.
  assert (Hfind : find (onAxis (Some ax)) (map h sets) = None).
  { destruct (find (onAxis (Some ax)) (map h sets)) as [d|] eqn:Hfind;
      [|reflexivity].
    apply find_some in Hfind. destruct Hfind as [Hd Hsel].
    apply in_map_iff in Hd. destruct Hd as (r & <- & Hr).
    simpl in Hsel. rewrite (AxisDependency_eqb_neq (Hnone r Hr)) in Hsel.
    discriminate. }
  destruct ax; simpl; rewrite Hfind in *; auto.
Qed.

Lemma calcMinMax_sentinelInv (h : Heap) (c : t) (sets : list ref) :
  mDataSets c = Some sets -> sentinelInv (mkState h (calcMinMax h c)).
Proof.
  intros Hsets. split.
  - exists sets. simpl. rewrite calcMinMax_array. exact Hsets.
  - intros ax. unfold noDataSetOn. simpl. rewrite calcMinMax_array, Hsets.
    apply calcMinMax_sentinels. exact Hsets.
Qed.

Lemma addEntry_sentinelInv (e : Entry) (i : Z) (s : State) :
  sentinelInv s -> sentinelInv (snd (addEntry e i s)).
Proof.
  intros Hinv. pose proof Hinv as ((sets & Hsets) & Hb).
  unfold addEntry. rewrite Hsets.
  destruct ((Z.of_nat (List.length sets) >? i)%Z && (i >=? 0)%Z);
    [|exact Hinv].
  destruct (index sets i) as [r|] eqn:Hidx; [|exact Hinv].
  pose proof (@index_In _ sets i r Hidx) as Hr.
  pose proof (addEntry_axis (heap s r) e) as Hax.
  destruct (DataSet.addEntry (heap s r) e) as [added d']. simpl in Hax.
  assert (Hold : forall ax,
             (forall r', In r' sets ->
                DataSet.getAxisDependency (update (heap s) r d' r') <> ax) ->
             noDataSetOn ax s).
  { intros ax Hnone. unfold noDataSetOn. rewrite Hsets. intros r' Hr'.
    specialize (Hnone r' Hr').
    destruct (Nat.eq_dec r' r) as [-> | Hne].
    - rewrite update_same in Hnone. congruence.
    - rewrite update_other in Hnone by exact Hne. exact Hnone. }
  destruct added; simpl negb; cbv iota; cbn [snd].
  - split.
    + exists sets. simpl.
      destruct (calcMinMaxForEntry_fields e
                  (DataSet.getAxisDependency (update (heap s) r d' r)) (this s))
        as (_ & _ & _ & _ & _ & _ & _ & _ & ->). exact Hsets.
    + intros ax. unfold noDataSetOn. simpl.
      destruct (calcMinMaxForEntry_fields e
                  (DataSet.getAxisDependency (update (heap s) r d' r)) (this s))
        as (_ & _ & _ & _ & _ & _ & _ & _ & ->).
      rewrite Hsets. intros Hnone.
      destruct (@calcMinMaxForEntry_other_axis e
                  (DataSet.getAxisDependency (update (heap s) r d' r)) ax (this s))
        as [-> ->]; [exact (Hnone r Hr)|].
      apply Hb, Hold, Hnone.
  - split.
    + exists sets. exact Hsets.
    + intros ax. unfold noDataSetOn. simpl. rewrite Hsets. intros Hnone.
      apply Hb, Hold, Hnone.
Qed.

Lemma removeEntry_sentinelInv (e : option Entry) (i : Z) (s : State) :
  sentinelInv s -> sentinelInv (snd (removeEntry e i s)).
Proof.
  intros Hinv. pose proof Hinv as ((sets & Hsets) & Hb).
  unfold removeEntry. destruct e as [e|]; [|exact Hinv].
  rewrite Hsets.
  destruct (i >=? Z.of_nat (List.length sets))%Z; [exact Hinv|].
  destruct (index sets i) as [r|] eqn:Hidx; [|exact Hinv].
  pose proof (@index_In _ sets i r Hidx) as Hr.
  pose proof (removeEntry_axis (heap s r) e) as Hax.
  destruct (DataSet.removeEntry (heap s r) e) as [removed d']. simpl in Hax.
  destruct removed; cbn [snd].
  - apply calcMinMax_sentinelInv with (sets := sets). exact Hsets.
  - split.
    + exists sets. exact Hsets.
    + intros ax. unfold noDataSetOn. simpl. rewrite Hsets. intros Hnone.
      apply Hb. unfold noDataSetOn. rewrite Hsets. intros r' Hr'.
      specialize (Hnone r' Hr').
      destruct (Nat.eq_dec r' r) as [-> | Hne].
      * rewrite update_same in Hnone. congruence.
      * rewrite update_other in Hnone by exact Hne. exact Hnone.
Qed.

Lemma addDataSet_sentinelInv (d : option ref) (s : State) :
  sentinelInv s -> sentinelInv (snd (addDataSet d s)).
Proof.
  intros Hinv. pose proof Hinv as ((sets & Hsets) & Hb).
  unfold addDataSet. destruct d as [r|]; [|exact Hinv].
  destruct (calcMinMaxForDataSet_fields (heap s r) (this s))
    as (_ & _ & _ & _ & _ & _ & _ & _ & Eds).
  cbv zeta in *. simpl. rewrite Eds, Hsets. cbn [snd]. split.
  - exists (sets ++ [r]). reflexivity.
  - intros ax. unfold noDataSetOn. simpl. intros Hnone.
    destruct (@calcMinMaxForDataSet_other_axis (heap s r) ax (this s))
      as [Hmin Hmax].
    { apply Hnone. apply in_or_app. right. left. reflexivity. }
    destruct ax; simpl in *; rewrite Hmin, Hmax.
    + apply (Hb LEFT). unfold noDataSetOn. rewrite Hsets.
      intros r' Hr'. apply Hnone. apply in_or_app. left. exact Hr'.
    + apply (Hb RIGHT). unfold noDataSetOn. rewrite Hsets.
      intros r' Hr'. apply Hnone. apply in_or_app. left. exact Hr'.
Qed.

Lemma removeDataSet_sentinelInv (d : option ref) (s : State) :
  sentinelInv s -> sentinelInv (snd (removeDataSet d s)).
Proof.
  intros Hinv. pose proof Hinv as ((sets & Hsets) & Hb).
  unfold removeDataSet. destruct d as [r|]; [|exact Hinv].
  rewrite Hsets.
  destruct (indexOf sets r >=? 0)%Z; [|exact Hinv].
  cbn [snd]. simpl. eapply calcMinMax_sentinelInv. reflexivity.
Qed.

Lemma clearValues_sentinelInv (s : State) :
  sentinelInv s -> sentinelInv (snd (clearValues s)).
Proof.
  intros Hinv. pose proof Hinv as ((sets & Hsets) & Hb).
  unfold clearValues, notifyDataChanged. rewrite Hsets.
  cbn [snd]. simpl. eapply calcMinMax_sentinelInv. reflexivity.
Qed.

Lemma exec_sentinelInv (op : Op) (s : State) :
  sentinelInv s -> sentinelInv (snd (exec op s)).
Proof.
  intros Hinv. destruct op as [e i | e i | d | d |]; simpl.
  - apply addEntry_sentinelInv, Hinv.
  - pose proof (removeEntry_sentinelInv e i Hinv) as H.
    unfold bind. destruct (removeEntry e i s) as [[b|err] s']; exact H.
  - apply addDataSet_sentinelInv, Hinv.
  - pose proof (removeDataSet_sentinelInv d Hinv) as H.
    unfold bind. destruct (removeDataSet d s) as [[b|err] s']; exact H.
  - apply clearValues_sentinelInv, Hinv.
Qed.

Lemma run_sentinelInv (ops : list Op) (s : State) :
  sentinelInv s -> sentinelInv (snd (run ops s)).
Proof.
  revert s. induction ops as [|op ops IH]; intros s Hinv.
  - exact Hinv.
  - pose proof (exec_sentinelInv op Hinv) as Hstep.
    unfold run in *. simpl. unfold bind.
    destruct (exec op s) as [[[]|err] s1]; [apply IH|]; exact Hstep.
Qed.

(** C10: take a container built over an array of data sets and then
    mutated by any sequence of [addEntry], [removeEntry], [addDataSet],
    [removeDataSet] and [clearValues], the data sets keeping their axis
    when an entry is added or removed.  If it holds no data set of the
    left axis, its left-axis minimum and maximum hold their sentinels,
    [getYMin(LEFT)] returns the right-axis minimum and [getYMax(LEFT)]
    the right-axis maximum; and if it holds no data set of the right
    axis, the same with the two axes exchanged. *)
Theorem C10_axis_bounds_fall_back
        (h : Heap) (sets : list ref) (ops : list Op) :
  let s := snd (run ops (constructor h (Some sets))) in
  (noDataSetOn LEFT s ->
     mLeftAxisMin (this s) = Num.MAX_VALUE
     /\ mLeftAxisMax (this s) = Num.neg Num.MAX_VALUE
     /\ getYMin (Some LEFT) (this s) = mRightAxisMin (this s)
     /\ getYMax (Some LEFT) (this s) = mRightAxisMax (this s))
  /\ (noDataSetOn RIGHT s ->
        mRightAxisMin (this s) = Num.MAX_VALUE
        /\ mRightAxisMax (this s) = Num.neg Num.MAX_VALUE
        /\ getYMin (Some RIGHT) (this s) = mLeftAxisMin (this s)
        /\ getYMax (Some RIGHT) (this s) = mLeftAxisMax (this s)).
Proof.
  cbv zeta.
  assert (Hinv : sentinelInv (snd (run ops (constructor h (Some sets))))).
  { apply run_sentinelInv. unfold constructor, notifyDataChanged.
    apply calcMinMax_sentinelInv with (sets := sets). reflexivity. }
  destruct Hinv as [_ Hb].
  destruct (sentinel_test (this (snd (run ops (constructor h (Some sets))))))
    as (HlMin & HlMax & HrMin & HrMax).
  split; intros Hnone.
  - destruct (Hb LEFT Hnone) as [Hmin Hmax]. simpl in Hmin, Hmax. auto.
  - destruct (Hb RIGHT Hnone) as [Hmin Hmax]. simpl in Hmin, Hmax. auto.
Qed.

End Fallback.

(** *** A full recalculation *)

Section Lookups.

Local Abbreviation Heap := (@Heap DS).
Local Abbreviation State := (@State DS).

Lemma container_ext (c c' : t) :
  mXMin c = mXMin c' -> mXMax c = mXMax c' ->
  mYMin c = mYMin c' -> mYMax c = mYMax c' ->
  mLeftAxisMin c = mLeftAxisMin c' -> mLeftAxisMax c = mLeftAxisMax c' ->
  mRightAxisMin c = mRightAxisMin c' -> mRightAxisMax c = mRightAxisMax c' ->
  mDataSets c = mDataSets c' ->
  c = c'.
Proof. destruct c, c'; simpl; intros; subst; reflexivity. Qed.

Lemma calcMinMax_same_data_sets (h : Heap) (c c' : t) (sets : list ref) :
  mDataSets c = Some sets -> mDataSets c' = Some sets ->
  calcMinMax h c = calcMinMax h c'.
Proof.
  intros Hc Hc'.
  pose proof (calcMinMax_fields h c Hc) as F.
  pose proof (calcMinMax_fields h c' Hc') as F'.
  cbv zeta in F, F'.
  destruct F as (F1 & F2 & F3 & F4 & F5 & F6 & F7 & F8 & F9).
  destruct F' as (G1 & G2 & G3 & G4 & G5 & G6 & G7 & G8 & G9).
  apply container_ext; congruence.
Qed.

(** X1: [calcMinMax()] recomputes the eight bounds from the data sets
    alone: two containers over the same array of data sets come out of
    it equal, whatever bounds they held before; so calling it a second
    time changes nothing. *)
Theorem calcMinMax_forgets_previous_bounds
        (h : Heap) (c c' : t) (sets : list ref) :
  mDataSets c = Some sets -> mDataSets c' = Some sets ->
  calcMinMax h c = calcMinMax h c'
  /\ calcMinMax h (calcMinMax h c) = calcMinMax h c.
Proof.
  intros Hc Hc'. split.
  - apply calcMinMax_same_data_sets with (sets := sets); assumption.
  - apply calcMinMax_same_data_sets with (sets := sets); [|exact Hc].
    apply (calcMinMax_fields h c Hc).
Qed.

(** *** Emptying the container *)

(** X2: [clearValues()] never throws and leaves the data sets
    themselves alone; a container that has an array comes out of it as
    a new container over the empty array, all eight bounds at their
    sentinels and no data set left, and a container without array is
    unchanged. *)
Theorem clearValues_gives_initial_container (s : State) :
  let out := clearValues s in
  fst out = Ok tt
  /\ heap (snd out) = heap s
  /\ (mDataSets (this s) <> None ->
        this (snd out) = initial (Some [])
        /\ getDataSetCount (this (snd out)) = 0%Z)
  /\ (mDataSets (this s) = None -> snd out = s).
Proof.
  cbv zeta. unfold clearValues. destruct s as [h c]. cbn [this heap].
  destruct (mDataSets c) as [sets|] eqn:Hsets.
  - split; [reflexivity | split; [reflexivity | split]].
    + intros _. split; reflexivity.
    + discriminate.
  - split; [reflexivity | split; [reflexivity | split]].
    + intros Hnot. contradiction Hnot. reflexivity.
    + intros _. unfold on_this, notifyDataChanged, calcMinMax. cbn [this heap].
      rewrite Hsets. reflexivity.
Qed.

(** *** The array of data sets *)

Lemma getDataSetByIndex_nth (i : Z) (c : t) (sets : list ref) :
  mDataSets c = Some sets ->
  (0 <= i < Z.of_nat (List.length sets))%Z ->
  getDataSetByIndex i c = nth_error sets (Z.to_nat i).
Proof.
  intros Hsets Hi. unfold getDataSetByIndex, index. rewrite Hsets.
  destruct (Z.ltb_spec i 0); [lia|].
  destruct (Z.geb_spec i (Z.of_nat (List.length sets))); [lia|].
  reflexivity.
Qed.

(** X3: [getDataSetByIndex(index)] returns a data set exactly when
    [0 <= index < getDataSetCount()], namely the element of the array at
    that index, and [null] for every other index, also when the
    container has no array. *)
Theorem getDataSetByIndex_defined_in_range (i : Z) (c : t) :
  ((exists r, getDataSetByIndex i c = Some r)
   <-> (0 <= i < getDataSetCount c)%Z)
  /\ (forall sets, mDataSets c = Some sets ->
        (0 <= i < getDataSetCount c)%Z ->
        getDataSetByIndex i c = nth_error sets (Z.to_nat i)).
Proof.
  split.
  - split.
    + intros [r Hr].
      destruct (Z.ltb_spec i 0) as [Hneg|Hpos].
      * rewrite getDataSetByIndex_out_of_range in Hr by lia. discriminate.
      * destruct (Z.ltb_spec i (getDataSetCount c)) as [Hlt|Hge]; [lia|].
        rewrite getDataSetByIndex_out_of_range in Hr by lia. discriminate.
    + unfold getDataSetCount. intros Hi.
      destruct (mDataSets c) as [sets|] eqn:Hsets; [|lia].
      rewrite (@getDataSetByIndex_nth i c sets Hsets Hi).
      destruct (nth_error sets (Z.to_nat i)) as [r|] eqn:Hnth.
      * exists r. reflexivity.
      * apply nth_error_None in Hnth. lia.
  - unfold getDataSetCount. intros sets Hsets. rewrite Hsets.
    apply getDataSetByIndex_nth, Hsets.
Qed.

(** X4: on a container that has an array, [addDataSet(d)] returns
    normally and pushes [d] at the end: the count grows by one, [d] is
    found at the former count, every data set keeps its index, and no
    data set object is changed. *)
Theorem addDataSet_appends (r : ref) (s : State) (sets : list ref) :
  mDataSets (this s) = Some sets ->
  let out := addDataSet (Some r) s in
  fst out = Ok tt
  /\ heap (snd out) = heap s
  /\ mDataSets (this (snd out)) = Some (sets ++ [r])
  /\ getDataSetCount (this (snd out)) = (getDataSetCount (this s) + 1)%Z
  /\ getDataSetByIndex (getDataSetCount (this s)) (this (snd out)) = Some r
  /\ (forall i, (i < getDataSetCount (this s))%Z ->
        getDataSetByIndex i (this (snd out)) = getDataSetByIndex i (this s)).
Proof.
  intros Hsets. cbv zeta. unfold addDataSet.
  destruct s as [h c]. simpl in Hsets.
  assert (Hkeep : mDataSets (calcMinMaxForDataSet (h r) c) = Some sets).
  { rewrite <- Hsets. apply (calcMinMaxForDataSet_fields (h r) c). }
  simpl. rewrite Hkeep. simpl.
  assert (Hlen : List.length (sets ++ [r]) = S (List.length sets))
    by (rewrite length_app; simpl; lia).
  split; [reflexivity | split; [reflexivity | split; [reflexivity|] ] ].
  unfold getDataSetCount. simpl. rewrite Hsets, Hlen.
  split; [lia | split].
  - rewrite getDataSetByIndex_nth with (sets := sets ++ [r]);
      [|reflexivity | lia].
    rewrite Nat2Z.id, nth_error_app2 by lia.
    rewrite Nat.sub_diag. reflexivity.
  - intros i Hi. destruct (Z.ltb_spec i 0) as [Hneg|Hpos].
    + rewrite !getDataSetByIndex_out_of_range by lia. reflexivity.
    + rewrite getDataSetByIndex_nth with (sets := sets ++ [r]);
        [|reflexivity | lia].
      rewrite getDataSetByIndex_nth with (sets := sets);
        [|exact Hsets | lia].
      apply nth_error_app1. lia.
Qed.

Lemma indexOf_absent (sets : list ref) (d : ref) :
  ~ In d sets -> indexOf sets d = (-1)%Z.
Proof.
  induction sets as [|r sets IH]; simpl; intros Hnot; [reflexivity|].
  destruct (Nat.eqb_spec r d) as [->|Hne]; [tauto|].
  rewrite IH by tauto. reflexivity.
Qed.

Lemma indexOf_present (sets : list ref) (d : ref) :
  In d sets ->
  exists before after,
    sets = before ++ d :: after /\ ~ In d before
    /\ indexOf sets d = Z.of_nat (List.length before).
Proof.
  induction sets as [|r sets IH]; simpl; intros Hin; [contradiction|].
  destruct (Nat.eqb_spec r d) as [->|Hne].
  - exists [], sets. simpl. auto.
  - destruct Hin as [Heq|Hin]; [contradiction|].
    destruct (IH Hin) as (before & after & Hsplit & Hnot & Hidx).
    exists (r :: before), after. rewrite Hidx. simpl.
    split; [congruence | split; [tauto|]].
    destruct (Z.ltb_spec (Z.of_nat (List.length before)) 0); lia.
Qed.

Lemma removeAt_middle (before after : list ref) (r : ref) :
  removeAt (before ++ r :: after) (List.length before) = before ++ after.
Proof.
  induction before as [|b before IH]; simpl; [reflexivity|].
  rewrite IH. reflexivity.
Qed.

Lemma calcMinMax_keeps_data_sets (h : Heap) (c : t) :
  mDataSets (calcMinMax h c) = mDataSets c.
Proof.
  destruct (mDataSets c) as [sets|] eqn:Hsets.
  - apply (calcMinMax_fields h c Hsets).
  - unfold calcMinMax. rewrite Hsets. exact Hsets.
Qed.

(** X5: on a container that has an array, [removeDataSet(d)] returns
    [true] exactly when [d] is in the array; it then takes out the first
    occurrence of [d] and nothing else, the other data sets keeping
    their order; when [d] is not in the array, it returns [false] and
    the container is unchanged.  No data set object is changed. *)
Theorem removeDataSet_removes_first_occurrence
        (r : ref) (s : State) (sets : list ref) :
  mDataSets (this s) = Some sets ->
  let out := removeDataSet (Some r) s in
  (In r sets ->
     exists before after,
       sets = before ++ r :: after /\ ~ In r before
       /\ fst out = Ok true
       /\ heap (snd out) = heap s
       /\ mDataSets (this (snd out)) = Some (before ++ after))
  /\ (~ In r sets -> out = (Ok false, s)).
Proof.
  intros Hsets. cbv zeta. unfold removeDataSet. rewrite Hsets. split.
  - intros Hin.
    destruct (indexOf_present sets r Hin) as (before & after & Hsplit & Hnot & Hidx).
    exists before, after. rewrite Hidx.
    destruct (Z.geb_spec (Z.of_nat (List.length before)) 0); [|lia].
    rewrite Nat2Z.id. simpl.
    rewrite calcMinMax_keeps_data_sets. simpl.
    rewrite Hsplit at 2. rewrite removeAt_middle. auto.
  - intros Hnot. rewrite indexOf_absent by exact Hnot. reflexivity.
Qed.

Lemma split_at {A : Type} (l : list A) (i : nat) :
  (i < List.length l)%nat ->
  exists before a after, l = before ++ a :: after /\ List.length before = i.
Proof.
  revert i. induction l as [|a l IH]; simpl; intros i Hi; [lia|].
  destruct i as [|i].
  - exists [], a, l. auto.
  - destruct (IH i) as (before & a' & after & Hsplit & Hlen); [lia|].
    exists (a :: before), a', after. simpl. split; congruence.
Qed.

(** X6: on a container that has an array, [removeDataSetAtIndex(index)]
    with [0 <= index < getDataSetCount()] returns [true] and takes out
    the element at that index and nothing else; with any other index it
    returns [false] and the container is unchanged.  No data set object
    is changed. *)
Theorem removeDataSetAtIndex_splices (i : Z) (s : State) (sets : list ref) :
  mDataSets (this s) = Some sets ->
  let out := removeDataSetAtIndex i s in
  ((0 <= i < getDataSetCount (this s))%Z ->
     exists before r after,
       sets = before ++ r :: after /\ Z.of_nat (List.length before) = i
       /\ fst out = Ok true
       /\ heap (snd out) = heap s
       /\ mDataSets (this (snd out)) = Some (before ++ after))
  /\ ((i < 0 \/ i >= getDataSetCount (this s))%Z -> out = (Ok false, s)).
Proof.
  intros Hsets. cbv zeta. unfold removeDataSetAtIndex, getDataSetCount.
  rewrite Hsets. split.
  - intros Hi.
    destruct (@split_at _ sets (Z.to_nat i)) as (before & r & after & Hsplit & Hlen);
      [lia|].
    exists before, r, after.
    destruct (Z.geb_spec i (Z.of_nat (List.length sets))); [lia|].
    destruct (Z.ltb_spec i 0); [lia|]. simpl.
    rewrite calcMinMax_keeps_data_sets. simpl.
    rewrite Hsplit at 2. rewrite <- Hlen, removeAt_middle.
    repeat split; auto. lia.
  - intros Hi.
    destruct (Z.geb_spec i (Z.of_nat (List.length sets))); [reflexivity|].
    destruct (Z.ltb_spec i 0); [reflexivity | lia].
Qed.

(** X7: on a container that has an array, [getIndexOfDataSet(d)] and
    [contains(d)] return normally and change nothing; [contains(d)] is
    the test [getIndexOfDataSet(d) >= 0] and holds exactly when [d] is
    in the array; the index is then that of the first occurrence of
    [d], where [getDataSetByIndex] finds [d] again, and it is [-1] when
    [d] is not in the array. *)
Theorem getIndexOfDataSet_finds_first_occurrence
        (d : ref) (s : State) (sets : list ref) :
  mDataSets (this s) = Some sets ->
  exists i,
    getIndexOfDataSet d s = (Ok i, s)
    /\ contains d s = (Ok (i >=? 0)%Z, s)
    /\ ((i >=? 0)%Z = true <-> In d sets)
    /\ (In d sets ->
          getDataSetByIndex i (this s) = Some d
          /\ forall j, (j < i)%Z -> getDataSetByIndex j (this s) <> Some d)
    /\ (~ In d sets -> i = (-1)%Z).
Proof.
  intros Hsets. exists (indexOf sets d).
  unfold getIndexOfDataSet, contains. rewrite Hsets.
  split; [reflexivity | split; [reflexivity|]].
  assert (Hpresent : In d sets ->
            getDataSetByIndex (indexOf sets d) (this s) = Some d
            /\ (indexOf sets d >= 0)%Z
            /\ forall j, (j < indexOf sets d)%Z ->
                 getDataSetByIndex j (this s) <> Some d).
  { intros Hin.
    destruct (indexOf_present sets d Hin) as (before & after & Hsplit & Hnot & Hidx).
    rewrite Hidx. split; [|split; [lia|]].
    - rewrite getDataSetByIndex_nth with (sets := sets); [|exact Hsets|].
      + rewrite Nat2Z.id, Hsplit, nth_error_app2 by lia.
        rewrite Nat.sub_diag. reflexivity.
      + rewrite Hsplit, length_app. simpl. lia.
    - intros j Hj Hfound.
      destruct (Z.ltb_spec j 0) as [Hneg|Hpos].
      + rewrite getDataSetByIndex_out_of_range in Hfound by lia. discriminate.
      + rewrite getDataSetByIndex_nth with (sets := sets) in Hfound;
          [|exact Hsets|].
        * rewrite Hsplit, nth_error_app1 in Hfound by lia.
          apply nth_error_In in Hfound. contradiction.
        * rewrite Hsplit, length_app. simpl. lia. }
  split; [|split].
  - split.
    + intros Hge. destruct (in_dec Nat.eq_dec d sets) as [Hin|Hnot]; [exact Hin|].
      rewrite indexOf_absent in Hge by exact Hnot. discriminate.
    + intros Hin. destruct (Hpresent Hin) as (_ & Hge & _).
      destruct (Z.geb_spec (indexOf sets d) 0); [reflexivity | lia].
  - intros Hin. destruct (Hpresent Hin) as (Hfound & _ & Hfirst). auto.
  - apply indexOf_absent.
Qed.

(** X8: [getMaxEntryCountSet()] returns [null] exactly when the
    container has no data set; otherwise it returns a data set of the
    array that has at least as many entries as every other one, and the
    first such in the array: each data set before it has fewer
    entries. *)
Theorem getMaxEntryCountSet_is_first_largest (h : Heap) (c : t) :
  (getMaxEntryCountSet h c = None <-> getDataSetCount c = 0%Z)
  /\ (forall r, getMaxEntryCountSet h c = Some r ->
        exists before after,
          mDataSets c = Some (before ++ r :: after)
          /\ (forall r', In r' before ->
                (DataSet.getEntryCount (h r') < DataSet.getEntryCount (h r))%nat)
          /\ (forall r', In r' after ->
                (DataSet.getEntryCount (h r') <= DataSet.getEntryCount (h r))%nat)).
Proof.
  unfold getMaxEntryCountSet, getDataSetCount.
  destruct (mDataSets c) as [[|first rest]|]; simpl.
  - split; [tauto | discriminate].
  - split; [split; [discriminate | lia]|].
    rewrite Nat.ltb_irrefl.
    assert (Hloop : forall todo before max after,
              (forall r', In r' before ->
                 (DataSet.getEntryCount (h r') < DataSet.getEntryCount (h max))%nat) ->
              (forall r', In r' after ->
                 (DataSet.getEntryCount (h r') <= DataSet.getEntryCount (h max))%nat) ->
              exists before' after',
                before ++ max :: after ++ todo
                = before' ++ fold_left
                    (fun max set =>
                       if (DataSet.getEntryCount (h max)
                           <? DataSet.getEntryCount (h set))%nat
                       then set else max) todo max :: after'
                /\ (forall r', In r' before' ->
                      (DataSet.getEntryCount (h r')
                       < DataSet.getEntryCount
                           (h (fold_left
                                 (fun max set =>
                                    if (DataSet.getEntryCount (h max)
                                        <? DataSet.getEntryCount (h set))%nat
                                    then set else max) todo max)))%nat)
                /\ (forall r', In r' after' ->
                      (DataSet.getEntryCount (h r')
                       <= DataSet.getEntryCount
                            (h (fold_left
                                  (fun max set =>
                                     if (DataSet.getEntryCount (h max)
                                         <? DataSet.getEntryCount (h set))%nat
                                     then set else max) todo max)))%nat)).
    { induction todo as [|set todo IH]; intros before max after Hb Ha; simpl.
      - exists before, after. rewrite app_nil_r. auto.
      - destruct (Nat.ltb_spec (DataSet.getEntryCount (h max))
                               (DataSet.getEntryCount (h set))) as [Hlt|Hge].
        + destruct (IH (before ++ max :: after) set []) as (b' & a' & Heq & Hb' & Ha').
          * intros r' Hin. apply in_app_or in Hin.
            destruct Hin as [Hin | [<- | Hin]].
            -- specialize (Hb r' Hin). lia.
            -- exact Hlt.
            -- specialize (Ha r' Hin). lia.
          * intros r' [].
          * exists b', a'. rewrite <- Heq. simpl.
            rewrite <- app_assoc. simpl. auto.
        + destruct (IH before max (after ++ [set])) as (b' & a' & Heq & Hb' & Ha').
          * exact Hb.
          * intros r' Hin. apply in_app_or in Hin.
            destruct Hin as [Hin | [<- | []]]; [apply Ha, Hin | exact Hge].
          * exists b', a'. rewrite <- Heq. rewrite <- app_assoc. simpl. auto. }
    intros r [= <-].
    destruct (Hloop rest [] first []) as (b' & a' & Heq & Hb' & Ha');
      [intros r' [] | intros r' [] |].
    exists b', a'. simpl in Heq. rewrite Heq. auto.
  - split; [tauto | discriminate].
Qed.

(** X9: on a container that has an array, [isHighlightEnabled()]
    returns normally and changes nothing; it returns [true] exactly when
    every data set of the array has highlighting enabled, hence also
    when the array is empty. *)
Theorem isHighlightEnabled_iff_every_data_set (s : State) (sets : list ref) :
  mDataSets (this s) = Some sets ->
  exists enabled,
    isHighlightEnabled s = (Ok enabled, s)
    /\ (enabled = true <->
        forall r, In r sets -> DataSet.isHighlightEnabled (heap s r) = true)
    /\ (sets = [] -> enabled = true).
Proof.
  intros Hsets. exists (allHighlightEnabled (heap s) sets).
  unfold isHighlightEnabled. rewrite Hsets.
  split; [reflexivity | split].
  - induction sets as [|r sets IH] in |- *; simpl.
    + split; [intros _ r [] | reflexivity].
    + destruct (DataSet.isHighlightEnabled (heap s r)) eqn:Hr; simpl.
      * rewrite IH. split.
        -- intros Hall r' [<- | Hin]; auto.
        -- intros Hall r' Hin. apply Hall. right. exact Hin.
      * split; [discriminate|].
        intros Hall. rewrite <- Hr. apply Hall. left. reflexivity.
  - intros ->. reflexivity.
Qed.

End Lookups.

(** *** A container without array *)

Section NullArray.

Local Abbreviation Heap := (@Heap DS).
Local Abbreviation State := (@State DS).

(** X10: a container whose [mDataSets] is [null].  The count is 0,
    [getDataSetByIndex] and [getMaxEntryCountSet] return [null],
    [calcMinMax] and [clearValues] change nothing, and removing a [null]
    entry returns [false].  [removeEntry] with an entry,
    [removeEntryForXValue], [addEntry], [removeDataSet],
    [removeDataSetAtIndex], [getEntryCount], [getIndexOfDataSet],
    [contains] and [isHighlightEnabled] throw a [TypeError] and leave
    the container as it was; [addDataSet] throws too, after
    [calcMinMaxForDataSet] has run, and the array stays [null]. *)
Theorem null_array_behaviour
        (s : State) (e : Entry) (r : ref) (i : Z) (xValue : number) :
  mDataSets (this s) = None ->
  getDataSetCount (this s) = 0%Z
  /\ getDataSetByIndex i (this s) = None
  /\ getMaxEntryCountSet (heap s) (this s) = None
  /\ calcMinMax (heap s) (this s) = this s
  /\ clearValues s = (Ok tt, s)
  /\ removeEntry None i s = (Ok false, s)
  /\ removeEntry (Some e) i s = (Throw TypeError, s)
  /\ removeEntryForXValue xValue i s = (Throw TypeError, s)
  /\ addEntry e i s = (Throw TypeError, s)
  /\ removeDataSet (Some r) s = (Throw TypeError, s)
  /\ removeDataSetAtIndex i s = (Throw TypeError, s)
  /\ getEntryCount s = (Throw TypeError, s)
  /\ getIndexOfDataSet r s = (Throw TypeError, s)
  /\ contains r s = (Throw TypeError, s)
  /\ isHighlightEnabled s = (Throw TypeError, s)
  /\ fst (addDataSet (Some r) s) = Throw TypeError
  /\ mDataSets (this (snd (addDataSet (Some r) s))) = None.
Proof.
  intros Hnull. destruct s as [h c]. cbn [this heap] in *.
  assert (Hkeep : mDataSets (calcMinMaxForDataSet (h r) c) = None).
  { rewrite <- Hnull. apply (calcMinMaxForDataSet_fields (h r) c). }
  unfold getDataSetCount, getDataSetByIndex, getMaxEntryCountSet, calcMinMax,
    clearValues, removeEntry, removeEntryForXValue, addEntry, removeDataSet,
    removeDataSetAtIndex, getEntryCount, getIndexOfDataSet, contains,
    isHighlightEnabled, addDataSet, on_this, notifyDataChanged, calcMinMax.
  cbn [this heap]. rewrite ?Hnull, ?Hkeep. cbn [this heap fst snd].
  rewrite ?Hnull, ?Hkeep.
  repeat (split; [reflexivity|]). reflexivity.
Qed.

End NullArray.

(** *** Entries are added to and removed from one data set *)

Section Frame.

Local Abbreviation Heap := (@Heap DS).
Local Abbreviation State := (@State DS).

Lemma getDataSetByIndex_index (i : Z) (c : t) (sets : list ref) (r : ref) :
  mDataSets c = Some sets ->
  getDataSetByIndex i c = Some r ->
  (0 <= i < Z.of_nat (List.length sets))%Z /\ index sets i = Some r.
Proof.
  unfold getDataSetByIndex. intros ->.
  destruct (Z.ltb_spec i 0); simpl; [discriminate|].
  destruct (Z.geb_spec i (Z.of_nat (List.length sets))); [discriminate|].
  intros Hr. split; [lia | exact Hr].
Qed.

(** X11: on a container that has an array, [addEntry(e, index)] never
    throws and never changes the array.  With an index outside
    [0 .. getDataSetCount()-1] it changes nothing at all.  Otherwise the
    entry is handed to the data set at that index: that object becomes
    what its own [addEntry] makes of it, every other data set object is
    as before, and when the data set refuses the entry the bounds of the
    container are as before. *)
Theorem addEntry_touches_one_data_set
        (e : Entry) (i : Z) (s : State) (sets : list ref) :
  mDataSets (this s) = Some sets ->
  let out := addEntry e i s in
  fst out = Ok tt
  /\ mDataSets (this (snd out)) = Some sets
  /\ ((i < 0 \/ i >= getDataSetCount (this s))%Z -> snd out = s)
  /\ (forall r, getDataSetByIndex i (this s) = Some r ->
        heap (snd out) r = snd (DataSet.addEntry (heap s r) e)
        /\ (forall r', r' <> r -> heap (snd out) r' = heap s r')
        /\ (fst (DataSet.addEntry (heap s r) e) = false ->
              this (snd out) = this s)).
Proof.
  intros Hsets. cbv zeta. destruct s as [h c]. cbn [this heap] in *.
  unfold addEntry, getDataSetCount. cbn [this heap]. rewrite Hsets.
  destruct (Z.gtb_spec (Z.of_nat (List.length sets)) i) as [Hlt|Hge];
    [destruct (Z.geb_spec i 0) as [Hpos|Hneg]|]; cbn [andb].
  - destruct (@index_in_range _ sets i) as [r0 Hr0]; [lia|].
    rewrite Hr0.
    destruct (DataSet.addEntry (h r0) e) as [added set'] eqn:Hadd.
    assert (Hkeep : forall ax c0, mDataSets (calcMinMaxForEntry e ax c0) = mDataSets c0)
      by (intros ax c0; apply (calcMinMaxForEntry_fields e ax c0)).
    split; [destruct added; reflexivity|].
    split; [destruct added; cbn; rewrite ?Hkeep; exact Hsets|].
    split; [lia|].
    intros r Hr. apply getDataSetByIndex_index with (sets := sets) in Hr;
      [|exact Hsets].
    destruct Hr as [_ Hr]. rewrite Hr0 in Hr. injection Hr as <-.
    rewrite Hadd. cbn [fst snd].
    split; [destruct added; cbn; apply update_same|].
    split; [intros r' Hne; destruct added; cbn; apply update_other; exact Hne|].
    intros ->. reflexivity.
  - split; [reflexivity | split; [exact Hsets | split; [reflexivity|]]].
    intros r Hr. apply getDataSetByIndex_index with (sets := sets) in Hr;
      [lia | exact Hsets].
  - split; [reflexivity | split; [exact Hsets | split; [reflexivity|]]].
    intros r Hr. apply getDataSetByIndex_index with (sets := sets) in Hr;
      [lia | exact Hsets].
Qed.

(** X12: on a container that has an array, [removeEntry(e, index)]
    never throws and never changes the array.  With an index outside
    [0 .. getDataSetCount()-1] it returns [false] and changes nothing.
    Otherwise it returns what the [removeEntry] of the data set at that
    index returns: that object becomes what its own [removeEntry] makes
    of it, every other data set object is as before, and the container
    is recalculated exactly when the answer is [true]. *)
Theorem removeEntry_touches_one_data_set
        (e : Entry) (i : Z) (s : State) (sets : list ref) :
  mDataSets (this s) = Some sets ->
  let out := removeEntry (Some e) i s in
  mDataSets (this (snd out)) = Some sets
  /\ ((i < 0 \/ i >= getDataSetCount (this s))%Z -> out = (Ok false, s))
  /\ (forall r, getDataSetByIndex i (this s) = Some r ->
        fst out = Ok (fst (DataSet.removeEntry (heap s r) e))
        /\ heap (snd out) r = snd (DataSet.removeEntry (heap s r) e)
        /\ (forall r', r' <> r -> heap (snd out) r' = heap s r')
        /\ this (snd out)
           = (if fst (DataSet.removeEntry (heap s r) e)
              then calcMinMax (heap (snd out)) (this s) else this s)).
Proof.
  intros Hsets. cbv zeta.
  split; [|split].
  - destruct s as [h c]. cbn [this heap] in *.
    unfold removeEntry. cbn [this heap]. rewrite Hsets.
    destruct (Z.geb_spec i (Z.of_nat (List.length sets))); [exact Hsets|].
    destruct (index sets i) as [r0|]; [|exact Hsets].
    destruct (DataSet.removeEntry (h r0) e) as [removed set'].
    destruct removed; cbn; [|exact Hsets].
    rewrite calcMinMax_keeps_data_sets. exact Hsets.
  - apply removeEntry_out_of_range with (sets := sets). exact Hsets.
  - intros r Hr. apply getDataSetByIndex_index with (sets := sets) in Hr;
      [|exact Hsets].
    destruct Hr as [Hi Hr]. destruct s as [h c]. cbn [this heap] in *.
    unfold removeEntry. cbn [this heap]. rewrite Hsets.
    destruct (Z.geb_spec i (Z.of_nat (List.length sets))); [lia|].
    rewrite Hr.
    destruct (DataSet.removeEntry (h r) e) as [removed set'].
    cbn [fst snd].
    destruct removed; cbn;
      (split; [reflexivity | split; [apply update_same | split; [|reflexivity]]]);
      intros r' Hne; apply update_other; exact Hne.
Qed.

Lemma fold_count (f : ref -> nat) (sets : list ref) (n : nat) :
  fold_left (fun count r => count + f r) sets n = n + list_sum (map f sets).
Proof.
  revert n. induction sets as [|r sets IH]; intros n; simpl; [lia|].
  rewrite IH. lia.
Qed.

(** [getEntryCount()] returns the sum of the entry counts of the data
    sets of the array, a data set that occurs twice being counted twice;
    it is 0 exactly when every data set reports 0 entries. *)
Lemma getEntryCount_sums_the_data_sets (s : State) (sets : list ref) :
  mDataSets (this s) = Some sets ->
  exists count,
    getEntryCount s = (Ok count, s)
    /\ count = list_sum (map (fun r => DataSet.getEntryCount (heap s r)) sets)
    /\ (count = 0 <->
        forall r, In r sets -> DataSet.getEntryCount (heap s r) = 0).
Proof.
  intros Hsets. unfold getEntryCount. rewrite Hsets.
  eexists. split; [reflexivity|].
  rewrite fold_count. simpl. split; [reflexivity|].
  clear Hsets. induction sets as [|r sets IH]; simpl.
  - split; [intros _ r [] | reflexivity].
  - split.
    + intros Hsum r' [<- | Hin]; [lia|]. apply IH; [lia | exact Hin].
    + intros Hall. rewrite (Hall r) by (left; reflexivity).
      apply IH. intros r' Hin. apply Hall. right. exact Hin.
Qed.

End Frame.

(** *** The order of the bounds *)

Section Nesting.

Context {contract : DataSetContract}.

Local Abbreviation Heap := (@Heap DS).
Local Abbreviation State := (@State DS).








End Nesting.

End Facts.

(** *** On concrete containers *)

Lemma C10_axis_bounds_fall_back_witness :
  let s := snd (ChartData.run
                  [ChartData.AddEntry (Examples.mkEntry (Examples.n 3)
                                                        (Examples.n 20)) 0]
                  (ChartData.constructor Examples.store (Some [1]))) in
  ChartData.noDataSetOn LEFT s
  /\ ChartData.getYMin (Some LEFT) (ChartData.this s)
     = ChartData.mRightAxisMin (ChartData.this s)
  /\ ChartData.getYMax (Some LEFT) (ChartData.this s)
     = ChartData.mRightAxisMax (ChartData.this s)
  /\ ChartData.mRightAxisMin (ChartData.this s) = Examples.n 7
  /\ ChartData.mRightAxisMax (ChartData.this s) = Examples.n 20.
Proof.
  cbv zeta.
  assert (Hnone : ChartData.noDataSetOn LEFT
                    (snd (ChartData.run
                            [ChartData.AddEntry
                               (Examples.mkEntry (Examples.n 3) (Examples.n 20)) 0]
                            (ChartData.constructor Examples.store (Some [1]))))).
  { vm_compute. intros r [<- | []]. discriminate. }
  split; [exact Hnone|].
  assert (Hadd : forall (d : Examples.ListDataSet) (e : Examples.SimpleEntry),
             DataSet.getAxisDependency (snd (DataSet.addEntry d e))
             = DataSet.getAxisDependency d) by reflexivity.
  assert (Hremove : forall (d : Examples.ListDataSet) (e : Examples.SimpleEntry),
             DataSet.getAxisDependency (snd (DataSet.removeEntry d e))
             = DataSet.getAxisDependency d).
  { intros d e. simpl.
    destruct (existsb (Examples.entry_eqb e) (Examples.values d)); reflexivity. }
  pose proof (C10_axis_bounds_fall_back Hadd Hremove Examples.store [1]
                [ChartData.AddEntry
                   (Examples.mkEntry (Examples.n 3) (Examples.n 20)) 0])
    as Hfall.
  cbv zeta in Hfall. destruct Hfall as [Hleft _].
  destruct (Hleft Hnone) as (_ & _ & Hmin & Hmax).
  split; [exact Hmin | split; [exact Hmax|]].
  split; vm_compute; reflexivity.
Defined.

Lemma C7_removeEntryForXValue_negative_index_throws_witness :
  ChartData.removeEntryForXValue (Examples.n 1) (-1) Examples.twoSets
  = (Throw TypeError, Examples.twoSets).
Proof.
  apply (C7_removeEntryForXValue_negative_index_throws
           (Examples.n 1) (i := (-1)%Z) Examples.twoSets (sets := [0; 1])).
  - vm_compute. reflexivity.
  - lia.
Defined.

(** The list-backed data set keeps to the contract. *)

Lemma minOf_is_min (vs : list number) :
  Forall (fun v => Num.finite v = true) vs ->
  ChartData.is_min vs (Examples.minOf vs).
Proof.
  intros Hvs. apply is_min_bound; [exact Hvs|].
  apply min_ext
    with (P := fun v => exists d, In d vs /\ (fun _ : number => true) d = true
                                  /\ d = v).
  - intros v. split; [intros (d & Hd & _ & <-); exact Hd|].
    intros Hv. exists v. auto.
  - unfold Examples.minOf.
    apply min_fold_top with (sel := fun _ : number => true)
                            (val := fun v : number => v)
                            (Pd := fun d v : number => d = v);
      [reflexivity|].
    intros d Hd _. apply min_single.
    rewrite Forall_forall in Hvs. apply Hvs, Hd.
Qed.

Lemma maxOf_is_max (vs : list number) :
  Forall (fun v => Num.finite v = true) vs ->
  ChartData.is_max vs (Examples.maxOf vs).
Proof.
  intros Hvs. apply is_max_bound; [exact Hvs|].
  apply max_ext
    with (P := fun v => exists d, In d vs /\ (fun _ : number => true) d = true
                                  /\ d = v).
  - intros v. split; [intros (d & Hd & _ & <-); exact Hd|].
    intros Hv. exists v. auto.
  - unfold Examples.maxOf.
    apply max_fold_top with (sel := fun _ : number => true)
                            (val := fun v : number => v)
                            (Pd := fun d v : number => d = v);
      [reflexivity|].
    intros d Hd _. apply max_single.
    rewrite Forall_forall in Hvs. apply Hvs, Hd.
Qed.

Lemma remove_first_In (e x : Examples.SimpleEntry)
      (vs : list Examples.SimpleEntry) :
  In x (Examples.remove_first e vs) -> In x vs.
Proof.
  induction vs as [|v vs IH]; simpl; [auto|].
  destruct (Examples.entry_eqb e v); simpl; intuition.
Qed.

#[global] Instance ListDataSet_contract :
  @ChartData.DataSetContract Examples.SimpleEntry Examples.ListDataSet
                             Examples.SimpleEntry_ops Examples.ListDataSet_ops.
Proof.
  constructor.
  - intros d Hfin. simpl in *.
    assert (Hx : Forall (fun v => Num.finite v = true)
                        (map Examples.ex (Examples.values d))).
    { apply Forall_map. eapply Forall_impl; [|exact Hfin].
      intros e He. apply He. }
    assert (Hy : Forall (fun v => Num.finite v = true)
                        (map Examples.ey (Examples.values d))).
    { apply Forall_map. eapply Forall_impl; [|exact Hfin].
      intros e He. apply He. }
    auto using minOf_is_min, maxOf_is_max.
  - intros d e. simpl. split; [reflexivity|].
    intros x. rewrite in_app_iff. simpl.
    split; [intros [H | [H | []]]; auto | intros [H | [_ H]]; auto].
  - intros d e. simpl.
    destruct (existsb (Examples.entry_eqb e) (Examples.values d)); simpl.
    + split; [reflexivity|]. split; [|discriminate].
      intros x. apply remove_first_In.
    + auto.
Qed.

Lemma C8_aggregate_bounds_are_exact_witness :
  let out := ChartData.run Examples.mutations Examples.twoSets in
  fst out = Ok tt /\ ChartData.exactBounds (snd out).
Proof.
  apply (@C8_aggregate_bounds_are_exact _ _ _ _ ListDataSet_contract
           Examples.store [0; 1] Examples.mutations).
  - intros [|[|r]]; repeat constructor.
  - repeat constructor.
Defined.

(** Against C8: after [addEntry] of an entry whose y-value is
    [Infinity] into an empty data set, that entry is the only one present,
    so the least y present is [Infinity], but [mYMin] is still the
    sentinel [Number.MAX_VALUE], since [MAX_VALUE > Infinity] is false. *)
Lemma C8_infinite_entry_escapes_bounds :
  let out := ChartData.run Examples.addInfinite Examples.emptyOnly in
  fst out = Ok tt
  /\ map DataSet.getY (ChartData.entriesOf (ChartData.heap (snd out)) [2])
     = [Examples.infinity]
  /\ ChartData.mYMin (ChartData.this (snd out)) = Num.MAX_VALUE
  /\ ~ ChartData.exactBounds (snd out).
Proof.
  cbv zeta. split; [vm_compute; reflexivity|].
  split; [vm_compute; reflexivity|].
  split; [vm_compute; reflexivity|].
  intros (sets & Hsets & _ & _ & Hmin & _).
  vm_compute in Hsets. injection Hsets as <-.
  vm_compute in Hmin. destruct Hmin as [[Hin | []] _]. discriminate Hin.
Qed.

(** *** Look-ups and mutations on concrete containers *)

Lemma calcMinMax_forgets_previous_bounds_witness :
  let c := ChartData.this Examples.twoSets in
  let c' := ChartData.with_mYMax (Examples.n 1000) c in
  ChartData.calcMinMax Examples.store c = ChartData.calcMinMax Examples.store c'
  /\ ChartData.calcMinMax Examples.store (ChartData.calcMinMax Examples.store c)
     = ChartData.calcMinMax Examples.store c.
Proof.
  cbv zeta.
  apply (@calcMinMax_forgets_previous_bounds _ _ _ Examples.store
           (ChartData.this Examples.twoSets)
           (ChartData.with_mYMax (Examples.n 1000) (ChartData.this Examples.twoSets))
           [0; 1]);
    vm_compute; reflexivity.
Defined.

Lemma clearValues_gives_initial_container_witness :
  ChartData.this (snd (ChartData.clearValues Examples.twoSets))
  = ChartData.initial (Some []).
Proof.
  destruct (clearValues_gives_initial_container Examples.twoSets)
    as (_ & _ & Hcleared & _).
  apply Hcleared. vm_compute. discriminate.
Defined.

Lemma getDataSetByIndex_defined_in_range_witness :
  ChartData.getDataSetByIndex 1 (ChartData.this Examples.twoSets) = Some 1.
Proof.
  destruct (getDataSetByIndex_defined_in_range 1 (ChartData.this Examples.twoSets))
    as [_ Hnth].
  rewrite (Hnth [0; 1]).
  - reflexivity.
  - vm_compute. reflexivity.
  - vm_compute. split; [discriminate | reflexivity].
Defined.

Lemma addDataSet_appends_witness :
  ChartData.getDataSetByIndex 2
    (ChartData.this (snd (ChartData.addDataSet (Some 2) Examples.twoSets)))
  = Some 2.
Proof.
  destruct (addDataSet_appends 2 Examples.twoSets (sets := [0; 1]))
    as (_ & _ & _ & _ & Hlast & _).
  - vm_compute. reflexivity.
  - exact Hlast.
Defined.

Lemma removeDataSet_removes_first_occurrence_witness :
  fst (ChartData.removeDataSet (Some 1) Examples.twoSets) = Ok true
  /\ ChartData.removeDataSet (Some 2) Examples.twoSets
     = (Ok false, Examples.twoSets).
Proof.
  destruct (removeDataSet_removes_first_occurrence 1 Examples.twoSets
              (sets := [0; 1]))
    as [Hpresent _]; [vm_compute; reflexivity|].
  destruct (removeDataSet_removes_first_occurrence 2 Examples.twoSets
              (sets := [0; 1]))
    as [_ Habsent]; [vm_compute; reflexivity|].
  split.
  - destruct Hpresent as (before & after & _ & _ & Hok & _);
      [right; left; reflexivity | exact Hok].
  - apply Habsent. intros [H | [H | []]]; discriminate H.
Defined.

Lemma removeDataSetAtIndex_splices_witness :
  fst (ChartData.removeDataSetAtIndex 0 Examples.twoSets) = Ok true
  /\ ChartData.removeDataSetAtIndex 2 Examples.twoSets
     = (Ok false, Examples.twoSets).
Proof.
  destruct (removeDataSetAtIndex_splices 0 Examples.twoSets (sets := [0; 1]))
    as [Hin _]; [vm_compute; reflexivity|].
  destruct (removeDataSetAtIndex_splices 2 Examples.twoSets (sets := [0; 1]))
    as [_ Hout]; [vm_compute; reflexivity|].
  split.
  - destruct Hin as (before & r & after & _ & _ & Hok & _);
      [vm_compute; split; [discriminate | reflexivity] | exact Hok].
  - apply Hout. right. vm_compute. discriminate.
Defined.

Lemma getIndexOfDataSet_finds_first_occurrence_witness :
  exists i,
    ChartData.getIndexOfDataSet 1 Examples.twoSets = (Ok i, Examples.twoSets)
    /\ ChartData.getDataSetByIndex i (ChartData.this Examples.twoSets) = Some 1.
Proof.
  destruct (getIndexOfDataSet_finds_first_occurrence 1 Examples.twoSets
              (sets := [0; 1]))
    as (i & Hindex & _ & _ & Hfound & _); [vm_compute; reflexivity|].
  exists i. split; [exact Hindex | apply Hfound; right; left; reflexivity].
Defined.

Lemma getMaxEntryCountSet_is_first_largest_witness :
  ChartData.getMaxEntryCountSet Examples.store (ChartData.this Examples.twoSets)
  = Some 0
  /\ exists before after,
      ChartData.mDataSets (ChartData.this Examples.twoSets)
      = Some (before ++ 0 :: after).
Proof.
  split; [vm_compute; reflexivity|].
  destruct (getMaxEntryCountSet_is_first_largest Examples.store
              (ChartData.this Examples.twoSets)) as [_ Hlargest].
  destruct (Hlargest 0) as (before & after & Hsplit & _);
    [vm_compute; reflexivity|].
  exists before, after. exact Hsplit.
Defined.

Lemma isHighlightEnabled_iff_every_data_set_witness :
  exists enabled,
    ChartData.isHighlightEnabled Examples.twoSets = (Ok enabled, Examples.twoSets).
Proof.
  destruct (isHighlightEnabled_iff_every_data_set Examples.twoSets (sets := [0; 1]))
    as (enabled & Hcall & _); [vm_compute; reflexivity|].
  exists enabled. exact Hcall.
Defined.

Lemma null_array_behaviour_witness :
  let s := ChartData.constructor Examples.store None in
  ChartData.removeDataSetAtIndex 0 s = (Throw TypeError, s)
  /\ ChartData.clearValues s = (Ok tt, s).
Proof.
  cbv zeta.
  destruct (null_array_behaviour (ChartData.constructor Examples.store None)
              (Examples.mkEntry (Examples.n 1) (Examples.n 1)) 0 0 (Examples.n 1))
    as (_ & _ & _ & _ & Hclear & _ & _ & _ & _ & _ & Hremove & _).
  - reflexivity.
  - split; [exact Hremove | exact Hclear].
Defined.

Lemma addEntry_touches_one_data_set_witness :
  let out := ChartData.addEntry (Examples.mkEntry (Examples.n 3) (Examples.n 20))
               0 Examples.twoSets in
  ChartData.heap (snd out) 1 = Examples.rightSet
  /\ snd (ChartData.addEntry (Examples.mkEntry (Examples.n 3) (Examples.n 20))
            7 Examples.twoSets) = Examples.twoSets.
Proof.
  cbv zeta.
  destruct (addEntry_touches_one_data_set
              (Examples.mkEntry (Examples.n 3) (Examples.n 20)) 0
              Examples.twoSets (sets := [0; 1]))
    as (_ & _ & _ & Hone); [vm_compute; reflexivity|].
  destruct (addEntry_touches_one_data_set
              (Examples.mkEntry (Examples.n 3) (Examples.n 20)) 7
              Examples.twoSets (sets := [0; 1]))
    as (_ & _ & Hout & _); [vm_compute; reflexivity|].
  split.
  - destruct (Hone 0) as (_ & Hothers & _); [vm_compute; reflexivity|].
    rewrite (Hothers 1) by discriminate. reflexivity.
  - apply Hout. right. vm_compute. discriminate.
Defined.

Lemma removeEntry_touches_one_data_set_witness :
  fst (ChartData.removeEntry (Some (Examples.mkEntry (Examples.n 1) (Examples.n 7)))
         1 Examples.twoSets) = Ok true.
Proof.
  destruct (removeEntry_touches_one_data_set
              (Examples.mkEntry (Examples.n 1) (Examples.n 7)) 1
              Examples.twoSets (sets := [0; 1]))
    as (_ & _ & Hone); [vm_compute; reflexivity|].
  destruct (Hone 1) as (Hresult & _); [vm_compute; reflexivity|].
  rewrite Hresult. vm_compute. reflexivity.
Defined.


End ChartDataFacts.

(** ** The touch listener *)

Module ListenerFacts.
Section Facts.

Import BarLineChartTouchListener.

Context {Entry DS Matrix : Type}.
Context {entryOps : DataSet.IEntry Entry}.
Context {dataSetOps : DataSet.IDataSet Entry DS}.
Context {matrixOps : MatrixOps Matrix}.

Local Abbreviation Chart := (@BarLineChartTouchListener.Chart DS Matrix).
Local Abbreviation State := (@BarLineChartTouchListener.State DS Matrix).

Ltac run_handler :=
  unfold bind, assign, call, when, read, modify, ret; simpl.

(** *** Pinch begin *)

(** A pinch gesture that becomes active, in terms of the two distances
    the handler saves. *)
Lemma pinch_begin_step (chart : Chart) (event : EventData) (s : State) :
  state event = GestureState.ACTIVE ->
  isScaleXEnabled chart || isScaleYEnabled chart = true ->
  let out := onPinchGestureState chart event s in
  let mode := mTouchMode (this (snd out)) in
  fst out = Ok tt
  /\ mSavedXDist (this (snd out)) = getXDist event
  /\ mSavedYDist (this (snd out)) = getYDist event
  /\ (isPinchZoomEnabled chart = true -> mode = TouchMode.PINCH_ZOOM)
  /\ (isPinchZoomEnabled chart = false ->
      (isScaleXEnabled chart = true -> isScaleYEnabled chart = false ->
         mode = TouchMode.X_ZOOM)
      /\ (isScaleXEnabled chart = false -> isScaleYEnabled chart = true ->
            mode = TouchMode.Y_ZOOM)
      /\ (isScaleXEnabled chart = true -> isScaleYEnabled chart = true ->
            (Num.gt (getXDist event) (getYDist event) = true ->
               mode = TouchMode.X_ZOOM)
            /\ (Num.gt (getXDist event) (getYDist event) = false ->
                  mode = TouchMode.Y_ZOOM))).
Proof.
  intros Hstate Hscale. cbv zeta. unfold onPinchGestureState.
  rewrite Hstate.
  destruct (isScaleXEnabled chart) eqn:Hx, (isScaleYEnabled chart) eqn:Hy;
    try discriminate Hscale;
    destruct (isPinchZoomEnabled chart) eqn:Hp; unfold saveTouchStart;
    run_handler; repeat split; intros; try congruence;
    match goal with
    | H : Num.gt _ _ = _ |- _ => rewrite H; reflexivity
    end.
Qed.

(** C5: when a pinch gesture becomes active on a chart with scaling
    enabled on at least one axis, the handler returns normally and the
    touch mode is [PINCH_ZOOM] if pinch zoom is enabled; if not, it is
    [X_ZOOM] or [Y_ZOOM] after the only axis whose scaling is enabled;
    and with both axes enabled it is [X_ZOOM] when the distance between
    the two fingers along x, [|positions[0] - positions[2]|], is greater
    than their distance along y, [|positions[1] - positions[3]|], and
    [Y_ZOOM] otherwise; a position the event does not carry counts as
    [NaN].  These two distances are also the ones the listener saves. *)
Theorem C5_pinch_begin_sets_mode (chart : Chart) (event : EventData) (s : State) :
  state event = GestureState.ACTIVE ->
  isScaleXEnabled chart || isScaleYEnabled chart = true ->
  let out := onPinchGestureState chart event s in
  let mode := mTouchMode (this (snd out)) in
  let position i := nth i (positions (extraData event)) Num.NaN in
  let xDistance := Num.abs (Num.sub (position 0%nat) (position 2%nat)) in
  let yDistance := Num.abs (Num.sub (position 1%nat) (position 3%nat)) in
  fst out = Ok tt
  /\ mSavedXDist (this (snd out)) = xDistance
  /\ mSavedYDist (this (snd out)) = yDistance
  /\ (isPinchZoomEnabled chart = true -> mode = TouchMode.PINCH_ZOOM)
  /\ (isPinchZoomEnabled chart = false ->
      (isScaleXEnabled chart = true -> isScaleYEnabled chart = false ->
         mode = TouchMode.X_ZOOM)
      /\ (isScaleXEnabled chart = false -> isScaleYEnabled chart = true ->
            mode = TouchMode.Y_ZOOM)
      /\ (isScaleXEnabled chart = true -> isScaleYEnabled chart = true ->
            (Num.gt xDistance yDistance = true -> mode = TouchMode.X_ZOOM)
            /\ (Num.gt xDistance yDistance = false ->
                  mode = TouchMode.Y_ZOOM))).
Proof.
  intros Hstate Hscale.
  pose proof (@pinch_begin_step chart event s Hstate Hscale) as Hstep.
  unfold getXDist, getYDist, operand in Hstep. exact Hstep.
Qed.

(** *** Double tap *)



(** *** Pinch move at the zoom-out limit *)

(** C4: in mode [PINCH_ZOOM], an active pinch-move event with a scale
    below 1 that arrives when neither [canZoomOutMoreX()] nor
    [canZoomOutMoreY()] holds is handled without an error; the touch
    mode stays [PINCH_ZOOM], the saved matrix is untouched, and no scale
    is applied: neither [set] nor [postScale] runs on the live matrix,
    the matrix given to the view-port handler's [refresh] is the live
    matrix as it was, and the live matrix becomes what [refresh] returns
    for it.  (On a chart with scaling disabled on both axes the handler
    returns at once and the whole state is unchanged.) *)
Theorem C4_pinch_at_zoom_out_limit (chart : Chart) (event : EventData) (s : State) :
  mTouchMode (this s) = TouchMode.PINCH_ZOOM ->
  state event = GestureState.ACTIVE ->
  Num.lt (scale (extraData event)) Num.one = true ->
  canZoomOutMoreX (getViewPortHandler chart) = false ->
  canZoomOutMoreY (getViewPortHandler chart) = false ->
  let out := onPinchGestureTouch chart event s in
  let live := mMatrix (this s) in
  fst out = Ok tt
  /\ mTouchMode (this (snd out)) = TouchMode.PINCH_ZOOM
  /\ mSavedMatrix (this (snd out)) = mSavedMatrix (this s)
  /\ (forall m, In (refreshed m) (calls (snd out)) ->
        In (refreshed m) (calls s) \/ m = live)
  /\ mMatrix (this (snd out))
     = (if isScaleXEnabled chart || isScaleYEnabled chart
        then refresh (getViewPortHandler chart) live else live).
Proof.
  intros Hmode Hstate Hscale HoutX HoutY. cbv zeta.
  unfold onPinchGestureTouch. rewrite Hstate. simpl GestureState.eqb.
  destruct (isScaleXEnabled chart) eqn:Hx, (isScaleYEnabled chart) eqn:Hy;
    simpl negb; simpl andb; simpl orb;
    destruct (hasListeners chart "pinch"%string);
    destruct (hasListeners chart "zoom"%string);
    run_handler; rewrite ?Hmode; simpl; rewrite ?Hscale, ?HoutX, ?HoutY;
    simpl; rewrite ?Hmode;
    (repeat split; try reflexivity; try tauto; try congruence;
     intros m Hin;
     repeat (apply in_app_or in Hin; destruct Hin as [Hin | [Hin | []]];
             try discriminate Hin);
     try (left; assumption); try (right; congruence)).
Qed.

(** *** Dragging *)

(** The matrix [performDrag] computes for an event: one translation of
    the saved matrix. *)
Local Abbreviation dragged chart l event :=
  (postTranslate (mSavedMatrix l) (translationX (extraData event))
     (if inverted chart l then Num.neg (translationY (extraData event))
      else translationY (extraData event))).

(** One drag-move event in mode [DRAG]. *)
Lemma drag_move_step (chart : Chart) (event : EventData) (s : State) :
  mTouchMode (this s) = TouchMode.DRAG ->
  dragMove (chart, event) ->
  let out := onPanGestureTouch chart event s in
  fst out = Ok tt
  /\ this (snd out)
     = with_mMatrix (refresh (getViewPortHandler chart) (dragged chart (this s) event))
         (with_mLastGesture (Mode TouchMode.DRAG) (this s))
  /\ exists before,
      calls (snd out) = before ++ [refreshed (dragged chart (this s) event)].
Proof.
  intros Hmode [Hen Hstate]. simpl in Hen, Hstate. cbv zeta.
  unfold onPanGestureTouch. rewrite Hstate. simpl GestureState.eqb.
  replace (negb (isHighlightPerDragEnabled chart) && negb (isDragEnabled chart))
    with false
    by (destruct (isHighlightPerDragEnabled chart), (isDragEnabled chart);
        simpl in *; congruence).
  unfold performDrag, refreshMatrix.
  destruct (hasListeners chart "pan"%string);
    destruct (hasListeners chart "translate"%string);
    run_handler; rewrite Hmode; simpl;
    (split; [reflexivity | split; [reflexivity | eexists; reflexivity]]).
Qed.

(** Drag-move events keep the mode, the saved matrix and the data set
    that decides the inversion. *)
Lemma drag_moves_keep (evs : list (Chart * EventData)) (s : State) :
  mTouchMode (this s) = TouchMode.DRAG ->
  Forall dragMove evs ->
  let out := deliver (map panTouch evs) s in
  fst out = Ok tt
  /\ mTouchMode (this (snd out)) = TouchMode.DRAG
  /\ mSavedMatrix (this (snd out)) = mSavedMatrix (this s)
  /\ mClosestDataSetToTouch (this (snd out)) = mClosestDataSetToTouch (this s).
Proof.
  revert s. induction evs as [|[chart event] evs IH]; intros s Hmode Hall.
  - cbv zeta. simpl. repeat split; auto.
  - inversion Hall as [|? ? Hhd Htl]; subst.
    destruct (drag_move_step s Hmode Hhd) as (Hok & Hthis & _).
    cbv zeta in *. unfold deliver in *. simpl forEach. unfold bind.
    simpl dispatch.
    destruct (onPanGestureTouch chart event s) as [res s1].
    simpl in Hok, Hthis. subst res.
    assert (Hmode1 : mTouchMode (this s1) = TouchMode.DRAG)
      by (rewrite Hthis; exact Hmode).
    destruct (IH s1 Hmode1 Htl) as (Hok' & Hm & Hsaved & Hclosest).
    cbv iota beta.
    repeat split; auto.
    + rewrite Hsaved, Hthis. reflexivity.
    + rewrite Hclosest, Hthis. reflexivity.
Qed.

(** C3: let the listener be in mode [DRAG] with a saved matrix.  After
    any sequence of drag-move events, the matrix the listener has
    computed at the last event, and handed to the view-port handler, is
    the saved matrix with one translation applied, by the last event's
    [(translationX, translationY)]; the latter is negated when the axis
    is inverted, that is the axis of the data set closest to the touch
    or, when the listener holds none, any axis of the chart.  The events
    before the last one have left no trace in it.  The saved matrix is
    still the one of the gesture start, and the live matrix is what the
    view-port handler's [refresh] returns for the translated matrix. *)
Theorem C3_drag_is_relative_to_saved_matrix
        (evs : list (Chart * EventData)) (chart : Chart) (event : EventData)
        (s : State) :
  mTouchMode (this s) = TouchMode.DRAG ->
  Forall dragMove (evs ++ [(chart, event)]) ->
  let out := deliver (map panTouch (evs ++ [(chart, event)])) s in
  let axisInverted :=
    match mClosestDataSetToTouch (this s) with
    | None => isAnyAxisInverted chart
    | Some set => isInverted chart (DataSet.getAxisDependency set)
    end in
  let dx := translationX (extraData event) in
  let dy := if axisInverted then Num.neg (translationY (extraData event))
            else translationY (extraData event) in
  let translated := postTranslate (mSavedMatrix (this s)) dx dy in
  fst out = Ok tt
  /\ mSavedMatrix (this (snd out)) = mSavedMatrix (this s)
  /\ (exists before, calls (snd out) = before ++ [refreshed translated])
  /\ mMatrix (this (snd out)) = refresh (getViewPortHandler chart) translated.
Proof.
  intros Hmode Hall. cbv zeta.
  apply Forall_app in Hall. destruct Hall as [Hevs Hlast].
  inversion Hlast as [|? ? Hlast' _]; subst.
  destruct (drag_moves_keep s Hmode Hevs) as (Hok & Hm & Hsaved & Hclosest).
  cbv zeta in *. unfold deliver in *.
  rewrite map_app. simpl map.
  rewrite MonadFacts.forEach_app. unfold bind.
  destruct (forEach (map panTouch evs) _ s) as [res s1].
  simpl in Hok, Hm, Hsaved, Hclosest. subst res.
  simpl forEach. unfold bind. simpl dispatch.
  destruct (drag_move_step s1 Hm Hlast') as (Hok1 & Hthis & before & Hcalls).
  cbv zeta in *.
  destruct (onPanGestureTouch chart event s1) as [res s2].
  simpl in Hok1, Hthis, Hcalls. subst res. simpl.
  assert (Hsame : dragged chart (this s1) event = dragged chart (this s) event).
  { unfold inverted. rewrite Hsaved, Hclosest. reflexivity. }
  rewrite Hsame in *. rewrite Hthis. simpl.
  unfold inverted in *.
  repeat split; auto.
  exists before. exact Hcalls.
Qed.

(** *** What every handler does *)

Section Handlers.

Local Abbreviation H := (@BarLineChartTouchListener.H DS Matrix).
Local Abbreviation t := (@BarLineChartTouchListener.t DS Matrix).

Lemma returns_ret {A : Type} (a : A) : returns (ret a : M State A).
Proof. intros s. exists a. reflexivity. Qed.

Lemma returns_assign (f : t -> t) : returns (assign f).
Proof. intros s. exists tt. reflexivity. Qed.

Lemma returns_call (c : Call) : returns (call c : H).
Proof. intros s. exists tt. reflexivity. Qed.

Lemma returns_read {A : Type} (f : t -> A) : returns (read f).
Proof. intros s. eexists. reflexivity. Qed.

Lemma returns_bind {A B : Type} (m : M State A) (k : A -> M State B) :
  returns m -> (forall a, returns (k a)) -> returns (bind m k).
Proof.
  intros Hm Hk s. unfold bind. destruct (Hm s) as [a Ha].
  destruct (m s) as [[a'|e] s1]; simpl in Ha; [|discriminate].
  apply Hk.
Qed.

Lemma returns_when (b : bool) (h : H) : returns h -> returns (when b h).
Proof. intros Hh. destruct b; [exact Hh | apply returns_ret]. Qed.

Lemma preserves_ret {A : Type} (I : t -> Prop) (a : A) :
  preserves I (ret a : M State A).
Proof. intros s Hs. exact Hs. Qed.

Lemma preserves_assign (I : t -> Prop) (f : t -> t) :
  (forall l, I l -> I (f l)) -> preserves I (assign f).
Proof. intros Hf s Hs. apply Hf, Hs. Qed.

Lemma preserves_call (I : t -> Prop) (c : Call) : preserves I (call c : H).
Proof. intros s Hs. exact Hs. Qed.

Lemma preserves_read {A : Type} (I : t -> Prop) (f : t -> A) :
  preserves I (read f).
Proof. intros s Hs. exact Hs. Qed.

Lemma preserves_bind {A B : Type} (I : t -> Prop) (m : M State A)
      (k : A -> M State B) :
  preserves I m -> (forall a, preserves I (k a)) -> preserves I (bind m k).
Proof.
  intros Hm Hk s Hs. unfold bind. specialize (Hm s Hs).
  destruct (m s) as [[a|e] s1]; simpl in Hm; [|exact Hm].
  apply Hk, Hm.
Qed.

Lemma preserves_when (I : t -> Prop) (b : bool) (h : H) :
  preserves I h -> preserves I (when b h).
Proof. intros Hh. destruct b; [exact Hh | apply preserves_ret]. Qed.

Lemma preserves_getDataEntryCount (I : t -> Prop) (chart : Chart) :
  preserves I (getDataEntryCount chart).
Proof.
  intros s Hs. unfold getDataEntryCount.
  destruct (getData chart); exact Hs.
Qed.

Ltac returns_steps :=
  cbv zeta;
  repeat first
    [ apply returns_ret | apply returns_assign | apply returns_call
    | apply returns_read
    | apply returns_bind; [|intros ?]
    | apply returns_when
    | match goal with
      | |- returns (if ?b then _ else _) => destruct b
      | |- returns (match ?x with _ => _ end) => destruct x
      end ].

Lemma onPanGestureState_returns (chart : Chart) (event : EventData) :
  returns (onPanGestureState chart event).
Proof.
  unfold onPanGestureState, stopDeceleration, saveTouchStart. returns_steps.
Qed.

Lemma onPanGestureTouch_returns (chart : Chart) (event : EventData) :
  returns (onPanGestureTouch chart event).
Proof.
  unfold onPanGestureTouch, performDrag, refreshMatrix, performHighlightDrag.
  returns_steps.
Qed.

Lemma onPinchGestureState_returns (chart : Chart) (event : EventData) :
  returns (onPinchGestureState chart event).
Proof.
  unfold onPinchGestureState, saveTouchStart. returns_steps.
Qed.

Lemma onPinchGestureTouch_returns (chart : Chart) (event : EventData) :
  returns (onPinchGestureTouch chart event).
Proof.
  unfold onPinchGestureTouch, scaleFromSaved, refreshMatrix. returns_steps.
Qed.

Lemma onDoubleTapGesture_throws (chart : Chart) (event : EventData) (s : State) :
  fst (onDoubleTapGesture chart event s) = Throw TypeError
  <-> state event = GestureState.END
      /\ prevState event = GestureState.ACTIVE
      /\ isDoubleTapToZoomEnabled chart = true
      /\ (forall data, getData chart = Some data ->
                       ChartData.mDataSets data = None).
Proof.
  unfold onDoubleTapGesture, getDataEntryCount, ChartData.getEntryCount.
  destruct (state event), (prevState event);
    try (unfold when; simpl;
         split; [discriminate | intros (Hs & Hp & _); congruence]).
  simpl GestureState.eqb. simpl andb.
  destruct (isDoubleTapToZoomEnabled chart);
    [|destruct (hasListeners chart "doubleTap"%string); run_handler;
      (split; [discriminate | intros (_ & _ & Hen & _); discriminate])].
  destruct (getData chart) as [data|].
  - destruct (ChartData.mDataSets data) as [sets|] eqn:Hsets.
    + cbn [ChartData.this ChartData.heap]. rewrite Hsets.
      destruct (hasListeners chart "doubleTap"%string); run_handler;
        (destruct (fold_left _ sets 0%nat); simpl;
         (split; [discriminate|]);
         intros (_ & _ & _ & Hnull); specialize (Hnull data eq_refl);
         congruence).
    + cbn [ChartData.this ChartData.heap]. rewrite Hsets.
      destruct (hasListeners chart "doubleTap"%string); run_handler;
        (split; [intros _|reflexivity]);
        (repeat split; try reflexivity; intros data' [= <-]; exact Hsets).
  - destruct (hasListeners chart "doubleTap"%string); run_handler;
      (split; [intros _|reflexivity]);
      (repeat split; try reflexivity; intros data' [=]).
Qed.

(** X22: of the handlers of the pan, pinch and double-tap gestures,
    only [onDoubleTapGesture] can throw, and it throws exactly at the
    end of a double tap (state [END] after [ACTIVE]) on a chart that has
    double-tap zoom enabled and no data to count: [getData()] is [null]
    or the container has no array.  Every other event is handled
    without an error, whatever the chart and the listener hold, the
    methods of the chart, of its view port and of the matrices being
    taken to return. *)
Theorem dispatch_throws_only_on_double_tap_without_data
        (chart : Chart) (ev : Event) (s : State) :
  fst (dispatch chart ev s) = Throw TypeError
  <-> exists event,
        ev = DoubleTap event
        /\ state event = GestureState.END
        /\ prevState event = GestureState.ACTIVE
        /\ isDoubleTapToZoomEnabled chart = true
        /\ (forall data, getData chart = Some data ->
                         ChartData.mDataSets data = None).
Proof.
  destruct ev as [e|e|e|e|e]; simpl dispatch.
  - split; [|intros (e' & [=] & _)].
    destruct (onPanGestureState_returns chart e s) as [[] Hok]. congruence.
  - split; [|intros (e' & [=] & _)].
    destruct (onPanGestureTouch_returns chart e s) as [[] Hok]. congruence.
  - split; [|intros (e' & [=] & _)].
    destruct (onPinchGestureState_returns chart e s) as [[] Hok]. congruence.
  - split; [|intros (e' & [=] & _)].
    destruct (onPinchGestureTouch_returns chart e s) as [[] Hok]. congruence.
  - rewrite onDoubleTapGesture_throws. split.
    + intros H. exists e. split; [reflexivity | exact H].
    + intros (e' & [= <-] & H). exact H.
Qed.

(** The steps of a handler keep what each assignment keeps. *)
Ltac preserves_steps :=
  cbv zeta;
  repeat first
    [ apply preserves_ret | apply preserves_call | apply preserves_read
    | apply preserves_getDataEntryCount
    | apply preserves_assign; intros ? ?; simpl;
      repeat match goal with
             | |- context [if ?b then _ else _] => destruct b
             end;
      solve [assumption | reflexivity]
    | apply preserves_bind; [|intros ?]
    | apply preserves_when
    | match goal with
      | |- preserves _ (if ?b then _ else _) => destruct b
      | |- preserves _ (match ?x with _ => _ end) => destruct x
      end ].

Lemma dispatch_keeps_saved_matrix (chart : Chart) (ev : Event) (m : Matrix) :
  gestureStart ev = false ->
  preserves (fun l => mSavedMatrix l = m) (dispatch chart ev).
Proof.
  destruct ev as [e|e|e|e|e]; simpl; intros Hstart.
  - unfold onPanGestureState, stopDeceleration.
    destruct (state e); try discriminate Hstart; preserves_steps.
  - unfold onPanGestureTouch, performDrag, refreshMatrix, performHighlightDrag.
    preserves_steps.
  - unfold onPinchGestureState.
    destruct (state e); try discriminate Hstart; preserves_steps.
  - unfold onPinchGestureTouch, scaleFromSaved, refreshMatrix. preserves_steps.
  - unfold onDoubleTapGesture. preserves_steps.
Qed.

Lemma deliver_preserves (I : t -> Prop) (evs : list (Chart * Event)) :
  Forall (fun ce => preserves I (dispatch (fst ce) (snd ce))) evs ->
  preserves I (deliver evs).
Proof.
  unfold deliver. induction evs as [|ce evs IH]; intros Hall; simpl.
  - apply preserves_ret.
  - inversion Hall as [|? ? Hhd Htl]; subst.
    apply preserves_bind; [exact Hhd | intros _; apply IH, Htl].
Qed.

(** X23: the saved matrix is written at the start of a gesture only.
    Over any sequence of events none of which is a state event of the
    pan or pinch handler in state [ACTIVE], the saved matrix stays what
    it was, whether or not an event of the sequence throws; and such a
    state event, on a chart that lets the handler run, makes the saved
    matrix the live matrix of that moment. *)
Theorem saved_matrix_changes_only_at_gesture_start
        (evs : list (Chart * Event)) (chart : Chart) (event : EventData)
        (s : State) :
  (Forall (fun ce => gestureStart (snd ce) = false) evs ->
     mSavedMatrix (this (snd (deliver evs s))) = mSavedMatrix (this s))
  /\ (state event = GestureState.ACTIVE ->
        (isHighlightPerDragEnabled chart || isDragEnabled chart = true ->
           mSavedMatrix (this (snd (onPanGestureState chart event s)))
           = mMatrix (this s))
        /\ (isScaleXEnabled chart || isScaleYEnabled chart = true ->
              mSavedMatrix (this (snd (onPinchGestureState chart event s)))
              = mMatrix (this s))).
Proof.
  split.
  - intros Hall.
    apply (@deliver_preserves (fun l => mSavedMatrix l = mSavedMatrix (this s)) evs);
      [|reflexivity].
    apply Forall_impl with (2 := Hall). intros [c ev] Hstart.
    apply dispatch_keeps_saved_matrix. exact Hstart.
  - intros Hstate. split; intros Hen.
    + unfold onPanGestureState. rewrite Hstate.
      destruct (isHighlightPerDragEnabled chart), (isDragEnabled chart);
        try discriminate Hen; reflexivity.
    + unfold onPinchGestureState. rewrite Hstate.
      destruct (isScaleXEnabled chart), (isScaleYEnabled chart);
        try discriminate Hen; destruct (isPinchZoomEnabled chart); reflexivity.
Qed.

Lemma dispatch_assigns_modes (chart : Chart) (ev : Event) :
  preserves (fun l => assigned (mTouchMode l) = true) (dispatch chart ev).
Proof.
  destruct ev as [e|e|e|e|e]; simpl.
  - unfold onPanGestureState, stopDeceleration, saveTouchStart. preserves_steps.
  - unfold onPanGestureTouch, performDrag, refreshMatrix, performHighlightDrag.
    preserves_steps.
  - unfold onPinchGestureState, saveTouchStart. preserves_steps.
  - unfold onPinchGestureTouch, scaleFromSaved, refreshMatrix. preserves_steps.
  - unfold onDoubleTapGesture. preserves_steps.
Qed.

(** The touch modes [POST_ZOOM] and [ROTATE] are never entered. *)
Lemma assigned_modes_only (evs : list (Chart * Event)) (s : State) :
  assigned (mTouchMode (this s)) = true ->
  let mode := mTouchMode (this (snd (deliver evs s))) in
  mode <> TouchMode.POST_ZOOM /\ mode <> TouchMode.ROTATE.
Proof.
  intros Hs. cbv zeta.
  assert (Hout : assigned (mTouchMode (this (snd (deliver evs s)))) = true).
  { apply (@deliver_preserves (fun l => assigned (mTouchMode l) = true) evs);
      [|exact Hs].
    apply Forall_forall. intros [c ev] _. apply dispatch_assigns_modes. }
  destruct (mTouchMode (this (snd (deliver evs s))));
    split; try discriminate; discriminate Hout.
Qed.

(** *** The transitions of the touch mode *)

Lemma state_eqb_eq (a b : GestureState.t) :
  GestureState.eqb a b = true <-> a = b.
Proof. destruct a, b; simpl; split; congruence. Qed.

Lemma bind_read {A B : Type} (f : t -> A) (k : A -> M State B) (s : State) :
  bind (read f) k s = k (f (this s)) s.
Proof. reflexivity. Qed.

Lemma kept_mode (h : H) (s : State) :
  preserves (fun l => mTouchMode l = mTouchMode (this s)) h ->
  mTouchMode (this (snd (h s))) = mTouchMode (this s).
Proof. intros Hh. apply Hh. reflexivity. Qed.

Lemma onPanGestureTouch_mode (chart : Chart) (event : EventData) (s : State) :
  let before := mTouchMode (this s) in
  let after := mTouchMode (this (snd (onPanGestureTouch chart event s))) in
  after = before
  \/ (state event = GestureState.ACTIVE
      /\ before = TouchMode.NONE /\ after = TouchMode.DRAG).
Proof.
  cbv zeta. unfold onPanGestureTouch.
  destruct (negb (isHighlightPerDragEnabled chart) && negb (isDragEnabled chart));
    [left; reflexivity|].
  destruct (GestureState.eqb (state event) GestureState.ACTIVE) eqn:Hstate;
    [|left; reflexivity].
  apply state_eqb_eq in Hstate. cbn [negb].
  rewrite bind_read.
  destruct (mTouchMode (this s)) eqn:Hmode; simpl TouchMode.eqb; cbv iota;
    try (left; exact Hmode).
  - destruct ((negb (isFullyZoomedOut chart) || negb (hasNoDragOffset chart))
              && (negb (zoomedPanWith2Pointers chart)
                  || (numberOfPointers (extraData event) =? 2)%Z)).
    + destruct (isDragXEnabled chart && isDragYEnabled chart).
      * right. run_handler. auto.
      * left. run_handler. exact Hmode.
    + left. rewrite <- Hmode. apply kept_mode.
      unfold performHighlightDrag. preserves_steps.
  - left. rewrite <- Hmode. apply kept_mode.
    unfold performDrag, refreshMatrix. preserves_steps.
Qed.

Lemma onPanGestureState_mode (chart : Chart) (event : EventData) (s : State) :
  let before := mTouchMode (this s) in
  let after := mTouchMode (this (snd (onPanGestureState chart event s))) in
  after = before
  \/ ((state event = GestureState.END \/ state event = GestureState.CANCELLED)
      /\ before = TouchMode.DRAG /\ after = TouchMode.NONE).
Proof.
  cbv zeta. unfold onPanGestureState.
  destruct (negb (isHighlightPerDragEnabled chart) && negb (isDragEnabled chart));
    [left; reflexivity|].
  destruct (state event) eqn:Hstate; try (left; reflexivity);
    destruct (mTouchMode (this s)) eqn:Hmode;
    run_handler; rewrite Hmode; simpl; auto.
Qed.

Lemma onPinchGestureState_mode (chart : Chart) (event : EventData) (s : State) :
  let before := mTouchMode (this s) in
  let after := mTouchMode (this (snd (onPinchGestureState chart event s))) in
  after = before
  \/ (state event = GestureState.ACTIVE
      /\ (after = TouchMode.X_ZOOM \/ after = TouchMode.Y_ZOOM
          \/ after = TouchMode.PINCH_ZOOM))
  \/ ((state event = GestureState.END \/ state event = GestureState.CANCELLED)
      /\ zooming before = true /\ after = TouchMode.NONE).
Proof.
  cbv zeta. unfold onPinchGestureState.
  destruct (negb (isScaleXEnabled chart) && negb (isScaleYEnabled chart));
    [left; reflexivity|].
  destruct (state event) eqn:Hstate; try (left; reflexivity).
  - destruct (mTouchMode (this s)) eqn:Hmode;
      run_handler; rewrite Hmode; simpl; auto 6.
  - right. left. split; [reflexivity|].
    unfold saveTouchStart.
    destruct (isPinchZoomEnabled chart); [run_handler; auto|].
    destruct (negb (Bool.eqb (isScaleXEnabled chart) (isScaleYEnabled chart)));
      [destruct (isScaleXEnabled chart); run_handler; auto|].
    run_handler.
    destruct (Num.gt (getXDist event) (getYDist event)); auto.
  - destruct (mTouchMode (this s)) eqn:Hmode;
      run_handler; rewrite Hmode; simpl; auto 6.
Qed.

(** What one event does to the touch mode. *)
Lemma dispatch_mode (chart : Chart) (ev : Event) (s : State) :
  let before := mTouchMode (this s) in
  let after := mTouchMode (this (snd (dispatch chart ev s))) in
  after = before
  \/ (exists event, ev = PanTouch event
        /\ state event = GestureState.ACTIVE
        /\ before = TouchMode.NONE /\ after = TouchMode.DRAG)
  \/ (exists event, ev = PanState event
        /\ (state event = GestureState.END
            \/ state event = GestureState.CANCELLED)
        /\ before = TouchMode.DRAG /\ after = TouchMode.NONE)
  \/ (exists event, ev = PinchState event
        /\ state event = GestureState.ACTIVE
        /\ (after = TouchMode.X_ZOOM \/ after = TouchMode.Y_ZOOM
            \/ after = TouchMode.PINCH_ZOOM))
  \/ (exists event, ev = PinchState event
        /\ (state event = GestureState.END
            \/ state event = GestureState.CANCELLED)
        /\ zooming before = true /\ after = TouchMode.NONE).
Proof.
  cbv zeta. destruct ev as [e|e|e|e|e]; simpl dispatch.
  - destruct (onPanGestureState_mode chart e s) as [Hsame | Hend];
      [left; exact Hsame | right; right; left; exists e; auto].
  - destruct (onPanGestureTouch_mode chart e s) as [Hsame | Hdrag];
      [left; exact Hsame | right; left; exists e; auto].
  - destruct (onPinchGestureState_mode chart e s) as [Hsame | [Hstart | Hend]];
      [left; exact Hsame
      | right; right; right; left; exists e; auto
      | right; right; right; right; exists e; auto].
  - left. apply kept_mode.
    unfold onPinchGestureTouch, scaleFromSaved, refreshMatrix. preserves_steps.
  - left. apply kept_mode. unfold onDoubleTapGesture. preserves_steps.
Qed.

(** X24: the transitions of the touch mode.  An event leaves the touch
    mode as it is, except that a pan-move in state [ACTIVE] may take it
    from [NONE] to [DRAG]; the end or the cancellation of a pan takes
    [DRAG] to [NONE]; the start of a pinch takes any mode to [X_ZOOM],
    [Y_ZOOM] or [PINCH_ZOOM]; and the end or the cancellation of a pinch
    takes a zoom mode to [NONE].  Pinch-move and double-tap events never
    change the touch mode.  So the modes [POST_ZOOM] and [ROTATE] are
    never entered: a listener that is in neither of them is in neither of
    them after any sequence of events, on any charts. *)
Theorem touch_mode_transitions
        (chart : Chart) (ev : Event) (evs : list (Chart * Event)) (s : State) :
  (let before := mTouchMode (this s) in
   let after := mTouchMode (this (snd (dispatch chart ev s))) in
   after = before
   \/ (exists event, ev = PanTouch event
         /\ state event = GestureState.ACTIVE
         /\ before = TouchMode.NONE /\ after = TouchMode.DRAG)
   \/ (exists event, ev = PanState event
         /\ (state event = GestureState.END
             \/ state event = GestureState.CANCELLED)
         /\ before = TouchMode.DRAG /\ after = TouchMode.NONE)
   \/ (exists event, ev = PinchState event
         /\ state event = GestureState.ACTIVE
         /\ (after = TouchMode.X_ZOOM \/ after = TouchMode.Y_ZOOM
             \/ after = TouchMode.PINCH_ZOOM))
   \/ (exists event, ev = PinchState event
         /\ (state event = GestureState.END
             \/ state event = GestureState.CANCELLED)
         /\ zooming before = true /\ after = TouchMode.NONE))
  /\ (assigned (mTouchMode (this s)) = true ->
        let mode := mTouchMode (this (snd (deliver evs s))) in
        mode <> TouchMode.POST_ZOOM /\ mode <> TouchMode.ROTATE).
Proof.
  split.
  - apply dispatch_mode.
  - apply assigned_modes_only.
Qed.


(** *** Pinch moves *)

(** The matrix a pinch-move computes: the saved matrix scaled when the
    view port lets the chart zoom further, the live matrix otherwise. *)
Local Abbreviation pinched chart l event :=
  (match pinchScale chart l event with
   | Some (scaleX, scaleY, pivot) =>
       postScale (mSavedMatrix l) scaleX scaleY (px pivot) (py pivot)
   | None => mMatrix l
   end).

Lemma pinch_move_keeps (chart : Chart) (event : EventData)
      (mode : TouchMode.t) (saved : Matrix) (center : Point)
      (closest : option DS) :
  preserves (fun l => mTouchMode l = mode /\ mSavedMatrix l = saved
                      /\ mTouchPointCenter l = center
                      /\ mClosestDataSetToTouch l = closest)
            (onPinchGestureTouch chart event).
Proof.
  unfold onPinchGestureTouch, scaleFromSaved, refreshMatrix. preserves_steps.
Qed.

Lemma inverted_with_mLastGesture (chart : Chart) (g : LastGesture) (l : t) :
  inverted chart (with_mLastGesture g l) = inverted chart l.
Proof. reflexivity. Qed.

(** One pinch-move event in a zoom mode. *)
Lemma pinch_move_step (chart : Chart) (event : EventData) (s : State) :
  pinchMove (chart, event) ->
  mTouchMode (this s) = TouchMode.X_ZOOM
  \/ mTouchMode (this s) = TouchMode.Y_ZOOM
  \/ mTouchMode (this s) = TouchMode.PINCH_ZOOM ->
  let out := onPinchGestureTouch chart event s in
  mMatrix (this (snd out))
  = refresh (getViewPortHandler chart) (pinched chart (this s) event)
  /\ exists before,
      calls (snd out) = before ++ [refreshed (pinched chart (this s) event)].
Proof.
  intros [Hen Hstate] Hmode. simpl in Hen, Hstate. cbv zeta.
  unfold onPinchGestureTouch, pinchScale. rewrite Hstate.
  simpl GestureState.eqb. cbn [negb].
  unfold scaleFromSaved, refreshMatrix.
  destruct (isScaleXEnabled chart), (isScaleYEnabled chart);
    try discriminate Hen;
    destruct Hmode as [Hmode | [Hmode | Hmode]];
    destruct (hasListeners chart "pinch"%string);
    destruct (hasListeners chart "zoom"%string);
    destruct (Num.lt (scale (extraData event)) Num.one);
    run_handler; rewrite ?Hmode; simpl;
    rewrite ?inverted_with_mLastGesture;
    repeat match goal with
           | |- context [if ?b then _ else _] =>
               lazymatch b with
               | (?a && _)%bool => destruct a
               | (?a || _)%bool => destruct a
               | context [if _ then _ else _] => fail
               | _ => destruct b
               end; simpl
           end;
    rewrite ?Hmode; simpl;
    (split; [reflexivity | eexists; reflexivity]).
Qed.

Lemma deliver_returns (evs : list (Chart * Event)) :
  Forall (fun ce => returns (dispatch (fst ce) (snd ce))) evs ->
  returns (deliver evs).
Proof.
  unfold deliver. induction evs as [|ce evs IH]; intros Hall; simpl.
  - apply returns_ret.
  - inversion Hall as [|? ? Hhd Htl]; subst.
    apply returns_bind; [exact Hhd | intros _; apply IH, Htl].
Qed.

Lemma deliver_app (evs evs' : list (Chart * Event)) (s : State) :
  fst (deliver evs s) = Ok tt ->
  deliver (evs ++ evs') s = deliver evs' (snd (deliver evs s)).
Proof.
  unfold deliver. rewrite MonadFacts.forEach_app. unfold bind.
  destruct (forEach evs _ s) as [[[]|e] s1]; simpl; [reflexivity | discriminate].
Qed.

(** X25: let the listener be in one of the modes [X_ZOOM], [Y_ZOOM] and
    [PINCH_ZOOM].  Any sequence of pinch-move events is handled without
    an error and leaves the touch mode and the saved matrix as they
    were.  If the view port lets the chart zoom further at the last
    event, the matrix computed at that event and handed to the view-port
    handler's [refresh] is the saved matrix with one scaling applied, by
    the scale of that event alone, on the axes of the mode, about the
    pivot [getTrans] computes from the touch point centre; the events
    before it have left no trace in it. *)
Theorem pinch_is_relative_to_saved_matrix
        (evs : list (Chart * EventData)) (chart : Chart) (event : EventData)
        (s : State) :
  mTouchMode (this s) = TouchMode.X_ZOOM
  \/ mTouchMode (this s) = TouchMode.Y_ZOOM
  \/ mTouchMode (this s) = TouchMode.PINCH_ZOOM ->
  Forall pinchMove (evs ++ [(chart, event)]) ->
  let out := deliver (map pinchTouch (evs ++ [(chart, event)])) s in
  fst out = Ok tt
  /\ mTouchMode (this (snd out)) = mTouchMode (this s)
  /\ mSavedMatrix (this (snd out)) = mSavedMatrix (this s)
  /\ forall scaleX scaleY pivot,
       pinchScale chart (this s) event = Some (scaleX, scaleY, pivot) ->
       let scaled := postScale (mSavedMatrix (this s)) scaleX scaleY
                               (px pivot) (py pivot) in
       mMatrix (this (snd out)) = refresh (getViewPortHandler chart) scaled
       /\ exists before, calls (snd out) = before ++ [refreshed scaled].
Proof.
  intros Hmode Hall. cbv zeta.
  apply Forall_app in Hall. destruct Hall as [Hevs Hlast].
  inversion Hlast as [|? ? Hlast' _]; subst.
  assert (Hkeep : forall l : list (Chart * EventData),
            preserves (fun l' => mTouchMode l' = mTouchMode (this s)
                                 /\ mSavedMatrix l' = mSavedMatrix (this s)
                                 /\ mTouchPointCenter l' = mTouchPointCenter (this s)
                                 /\ mClosestDataSetToTouch l'
                                    = mClosestDataSetToTouch (this s))
                      (deliver (map pinchTouch l))).
  { intros l. apply deliver_preserves. apply Forall_forall.
    intros ce Hin. apply in_map_iff in Hin. destruct Hin as ([c e] & <- & _).
    apply pinch_move_keeps. }
  assert (Hret : forall l : list (Chart * EventData),
            returns (deliver (map pinchTouch l))).
  { intros l. apply deliver_returns. apply Forall_forall.
    intros ce Hin. apply in_map_iff in Hin. destruct Hin as ([c e] & <- & _).
    apply onPinchGestureTouch_returns. }
  destruct (Hret (evs ++ [(chart, event)]) s) as [[] Hok].
  destruct (Hkeep (evs ++ [(chart, event)]) s) as (Hm & Hsaved & _ & _);
    [repeat split|].
  split; [exact Hok | split; [exact Hm | split; [exact Hsaved|]]].
  intros scaleX scaleY pivot Hscale.
  destruct (Hret evs s) as [[] Hok1].
  destruct (Hkeep evs s) as (Hm1 & Hsaved1 & Hcenter1 & Hclosest1);
    [repeat split|].
  rewrite map_app, deliver_app by exact Hok1.
  set (s1 := snd (deliver (map pinchTouch evs) s)) in *.
  simpl map. unfold deliver. simpl forEach. unfold bind.
  simpl dispatch.
  assert (Hmode1 : mTouchMode (this s1) = TouchMode.X_ZOOM
                   \/ mTouchMode (this s1) = TouchMode.Y_ZOOM
                   \/ mTouchMode (this s1) = TouchMode.PINCH_ZOOM)
    by (rewrite Hm1; exact Hmode).
  destruct (pinch_move_step s1 Hlast' Hmode1) as (Hmatrix & before & Hcalls).
  cbv zeta in Hmatrix, Hcalls.
  assert (Hsame : pinchScale chart (this s1) event
                  = pinchScale chart (this s) event).
  { unfold pinchScale, getTrans, inverted.
    rewrite Hm1, Hcenter1, Hclosest1. reflexivity. }
  rewrite Hsame, Hscale, Hsaved1 in Hmatrix, Hcalls.
  destruct (onPinchGestureTouch chart event s1) as [[[]|e] s2]; simpl in *.
  - split; [exact Hmatrix | exists before; exact Hcalls].
  - split; [exact Hmatrix | exists before; exact Hcalls].
Qed.

(** *** The end of a gesture *)

(** X26: the end or the cancellation of a gesture.  On a chart that
    lets the pan handler run, the end of a pan in mode [DRAG] resets the
    mode to [NONE], records the velocity of the event as deceleration
    velocity and invalidates the chart, and in any other mode changes
    nothing.  On a chart that lets the pinch handler run, the end of a
    pinch always re-enables scrolling, as its last call; in a zoom mode
    it first resets the mode to [NONE], recalculates the offsets and
    invalidates the chart; in any other mode the listener is as
    before. *)
Theorem gesture_end_resets_the_mode (chart : Chart) (event : EventData) (s : State) :
  state event = GestureState.END \/ state event = GestureState.CANCELLED ->
  (isHighlightPerDragEnabled chart || isDragEnabled chart = true ->
     let out := onPanGestureState chart event s in
     (mTouchMode (this s) = TouchMode.DRAG ->
        this (snd out)
        = with_mDecelerationVelocity
            (mkPoint (velocityX (extraData event)) (velocityY (extraData event)))
            (with_mTouchMode TouchMode.NONE (this s))
        /\ calls (snd out) = calls s ++ [invalidate])
     /\ (mTouchMode (this s) <> TouchMode.DRAG -> snd out = s))
  /\ (isScaleXEnabled chart || isScaleYEnabled chart = true ->
        let out := onPinchGestureState chart event s in
        (zooming (mTouchMode (this s)) = true ->
           this (snd out) = with_mTouchMode TouchMode.NONE (this s)
           /\ calls (snd out)
              = calls s ++ [calculateOffsets; invalidate; enableScroll])
        /\ (zooming (mTouchMode (this s)) = false ->
              this (snd out) = this s
              /\ calls (snd out) = calls s ++ [enableScroll])).
Proof.
  intros Hstate. split; intros Hen; cbv zeta.
  - unfold onPanGestureState.
    replace (negb (isHighlightPerDragEnabled chart) && negb (isDragEnabled chart))
      with false
      by (destruct (isHighlightPerDragEnabled chart), (isDragEnabled chart);
          simpl in *; congruence).
    unfold stopDeceleration.
    destruct Hstate as [-> | ->];
      (split; intros Hmode;
       [run_handler; rewrite Hmode; simpl;
        rewrite <- ?app_assoc; split; reflexivity
       |destruct s as [l cs]; simpl in *;
        destruct (mTouchMode l) eqn:Hm; try congruence;
        run_handler; rewrite Hm; reflexivity]).
  - unfold onPinchGestureState.
    replace (negb (isScaleXEnabled chart) && negb (isScaleYEnabled chart))
      with false
      by (destruct (isScaleXEnabled chart), (isScaleYEnabled chart);
          simpl in *; congruence).
    destruct Hstate as [-> | ->];
      (split; intros Hmode;
       destruct (mTouchMode (this s)) eqn:Hm; try discriminate Hmode;
       run_handler; rewrite Hm; simpl; rewrite <- ?app_assoc;
       split; reflexivity).
Qed.

(** *** The first pan-move, and highlighting by drag *)



(** X28: a pan-move event that finds the listener in mode [NONE] never
    moves the chart: the live matrix is as before.  When the chart
    should pan, the listener enters mode [DRAG], disabling scrolling,
    provided dragging is enabled along both x and y; if it is disabled
    along either, nothing happens.  When the chart should not pan,
    nothing happens unless highlighting by drag is enabled, and then
    scrolling is disabled and [performHighlightDrag] runs. *)
Theorem pan_move_in_mode_none (chart : Chart) (event : EventData) (s : State) :
  mTouchMode (this s) = TouchMode.NONE ->
  dragMove (chart, event) ->
  let out := onPanGestureTouch chart event s in
  mMatrix (this (snd out)) = mMatrix (this s)
  /\ (shouldPan chart event = true ->
        (isDragXEnabled chart && isDragYEnabled chart = true ->
           out = (Ok tt,
                  mkState (with_mTouchMode TouchMode.DRAG
                             (with_mLastGesture (Gesture ChartGesture.DRAG)
                                                (this s)))
                          (calls s ++ [disableScroll])))
        /\ (isDragXEnabled chart && isDragYEnabled chart = false ->
              out = (Ok tt, s)))
  /\ (shouldPan chart event = false ->
        (isHighlightPerDragEnabled chart = false -> out = (Ok tt, s))
        /\ (isHighlightPerDragEnabled chart = true ->
              out = performHighlightDrag chart event
                      (mkState (with_mLastGesture (Gesture ChartGesture.DRAG)
                                                  (this s))
                               (calls s ++ [disableScroll])))).
Proof.
  intros Hmode [Hen Hstate]. simpl in Hen, Hstate. cbv zeta.
  assert (Hout :
    onPanGestureTouch chart event s
    = if shouldPan chart event then
        if isDragXEnabled chart && isDragYEnabled chart then
          (Ok tt,
           mkState (with_mTouchMode TouchMode.DRAG
                      (with_mLastGesture (Gesture ChartGesture.DRAG) (this s)))
                   (calls s ++ [disableScroll]))
        else (Ok tt, s)
      else if isHighlightPerDragEnabled chart then
        performHighlightDrag chart event
          (mkState (with_mLastGesture (Gesture ChartGesture.DRAG) (this s))
                   (calls s ++ [disableScroll]))
      else (Ok tt, s)).
  { unfold onPanGestureTouch. rewrite Hstate. cbn [GestureState.eqb negb].
    replace (negb (isHighlightPerDragEnabled chart) && negb (isDragEnabled chart))
      with false
      by (destruct (isHighlightPerDragEnabled chart), (isDragEnabled chart);
          simpl in *; congruence).
    cbv iota. rewrite bind_read, Hmode. simpl TouchMode.eqb. cbv iota.
    fold (shouldPan chart event).
    destruct s as [l cs].
    destruct (shouldPan chart event);
      [destruct (isDragXEnabled chart && isDragYEnabled chart)
      |destruct (isHighlightPerDragEnabled chart)];
      run_handler; reflexivity. }
  rewrite Hout. split; [|split].
  - destruct (shouldPan chart event).
    + destruct (isDragXEnabled chart && isDragYEnabled chart); reflexivity.
    + destruct (isHighlightPerDragEnabled chart); [|reflexivity].
      apply (@preserves_bind _ _ (fun l => mMatrix l = mMatrix (this s))
               (assign (with_mLastGesture (Gesture ChartGesture.DRAG)) ;;;
                call disableScroll)%js
               (fun _ => performHighlightDrag chart event) ) with (s := s);
        [|intros _|reflexivity].
      * preserves_steps.
      * unfold performHighlightDrag. preserves_steps.
  - intros ->. split; intros ->; reflexivity.
  - intros ->. split; intros ->; reflexivity.
Qed.

(** *** A pinch that starts without four coordinates *)

Lemma abs_sub_nan_r (a : number) : Num.abs (Num.sub a Num.NaN) = Num.NaN.
Proof. destruct a as [s|s| |s m e]; reflexivity. Qed.

Lemma abs_sub_nan_l (a : number) : Num.abs (Num.sub Num.NaN a) = Num.NaN.
Proof. reflexivity. Qed.

Lemma gt_nan_l (a : number) : Num.gt Num.NaN a = false.
Proof. destruct a as [s|s| |s m e]; try destruct s; reflexivity. Qed.

Lemma gt_nan_r (a : number) : Num.gt a Num.NaN = false.
Proof. reflexivity. Qed.

(** X29: when a pinch starts with fewer than four finger coordinates
    in [positions], on a chart with scaling enabled on both axes and
    pinch zoom disabled, a distance between the fingers is not a number,
    the test [mSavedXDist > mSavedYDist] fails, and the mode is
    [Y_ZOOM]. *)
Theorem pinch_begin_without_four_positions
        (chart : Chart) (event : EventData) (s : State) :
  state event = GestureState.ACTIVE ->
  isScaleXEnabled chart = true -> isScaleYEnabled chart = true ->
  isPinchZoomEnabled chart = false ->
  (List.length (positions (extraData event)) < 4)%nat ->
  (getXDist event = Num.NaN \/ getYDist event = Num.NaN)
  /\ mTouchMode (this (snd (onPinchGestureState chart event s)))
     = TouchMode.Y_ZOOM.
Proof.
  intros Hstate Hx Hy Hpinch Hlen.
  assert (Hnan : getXDist event = Num.NaN \/ getYDist event = Num.NaN).
  { unfold getXDist, getYDist, operand.
    destruct (positions (extraData event)) as [|p0 [|p1 [|p2 [|p3 rest]]]];
      simpl in *; try lia.
    - left. reflexivity.
    - left. apply abs_sub_nan_r.
    - left. apply abs_sub_nan_r.
    - right. apply abs_sub_nan_r. }
  split; [exact Hnan|].
  unfold onPinchGestureState, saveTouchStart.
  rewrite Hstate, Hx, Hy, Hpinch. run_handler.
  destruct Hnan as [-> | ->]; [rewrite gt_nan_l | rewrite gt_nan_r]; reflexivity.
Qed.

(** *** The tap handler *)


End Handlers.

End Facts.

(** *** On a concrete chart *)

Lemma C5_pinch_begin_sets_mode_witness :
  let wide := Examples.event GestureState.ACTIVE GestureState.BEGAN 0 0 Num.one
                [Examples.n 10; Examples.n 20; Examples.n 110; Examples.n 50]
                0 0 in
  let tall := Examples.event GestureState.ACTIVE GestureState.BEGAN 0 0 Num.one
                [Examples.n 10; Examples.n 20; Examples.n 40; Examples.n 150]
                0 0 in
  BarLineChartTouchListener.mTouchMode
    (BarLineChartTouchListener.this
       (snd (BarLineChartTouchListener.onPinchGestureState
               (Examples.chart false None) wide
               (Examples.started TouchMode.NONE))))
  = TouchMode.X_ZOOM
  /\ BarLineChartTouchListener.mTouchMode
       (BarLineChartTouchListener.this
          (snd (BarLineChartTouchListener.onPinchGestureState
                  (Examples.chart false None) tall
                  (Examples.started TouchMode.NONE))))
     = TouchMode.Y_ZOOM.
Proof.
  cbv zeta. split.
  - apply (C5_pinch_begin_sets_mode (Examples.chart false None)
             (Examples.event GestureState.ACTIVE GestureState.BEGAN 0 0 Num.one
                [Examples.n 10; Examples.n 20; Examples.n 110; Examples.n 50] 0 0)
             (Examples.started TouchMode.NONE));
      vm_compute; reflexivity.
  - apply (C5_pinch_begin_sets_mode (Examples.chart false None)
             (Examples.event GestureState.ACTIVE GestureState.BEGAN 0 0 Num.one
                [Examples.n 10; Examples.n 20; Examples.n 40; Examples.n 150] 0 0)
             (Examples.started TouchMode.NONE));
      vm_compute; reflexivity.
Defined.


(** Against C4: at the zoom-out limit, a pinch-move event with the scale
    one half finds the live matrix with a horizontal translation of 5
    and leaves it with none. *)
Lemma C4_refresh_changes_the_matrix :
  let move := Examples.pinchBy Examples.half in
  let chart := Examples.chart true None in
  let out := BarLineChartTouchListener.onPinchGestureTouch chart move
               Examples.shifted in
  BarLineChartTouchListener.mTouchMode
    (BarLineChartTouchListener.this Examples.shifted) = TouchMode.PINCH_ZOOM
  /\ Num.lt (BarLineChartTouchListener.scale
               (BarLineChartTouchListener.extraData move)) Num.one = true
  /\ BarLineChartTouchListener.canZoomOutMoreX
       (BarLineChartTouchListener.getViewPortHandler chart) = false
  /\ BarLineChartTouchListener.canZoomOutMoreY
       (BarLineChartTouchListener.getViewPortHandler chart) = false
  /\ BarLineChartTouchListener.mMatrix (BarLineChartTouchListener.this (snd out))
     <> BarLineChartTouchListener.mMatrix
          (BarLineChartTouchListener.this Examples.shifted).
Proof.
  cbv zeta. repeat split; try (vm_compute; reflexivity).
  vm_compute. discriminate.
Qed.

Lemma C4_pinch_at_zoom_out_limit_witness :
  let out := BarLineChartTouchListener.onPinchGestureTouch
               (Examples.chart true None) (Examples.pinchBy Examples.half)
               Examples.shifted in
  BarLineChartTouchListener.mTouchMode (BarLineChartTouchListener.this (snd out))
  = TouchMode.PINCH_ZOOM
  /\ BarLineChartTouchListener.mMatrix (BarLineChartTouchListener.this (snd out))
     = BarLineChartTouchListener.refresh Examples.viewPort
         (BarLineChartTouchListener.mMatrix
            (BarLineChartTouchListener.this Examples.shifted)).
Proof.
  cbv zeta.
  destruct (C4_pinch_at_zoom_out_limit
              (Examples.chart true None) (Examples.pinchBy Examples.half)
              Examples.shifted)
    as (_ & Hmode & _ & _ & Hlive);
    try (vm_compute; reflexivity).
  split; [exact Hmode | exact Hlive].
Defined.

(** Against C3: a gesture starts, the listener enters mode [DRAG], and
    a drag by (5, 3) arrives.  The saved matrix is the identity; the
    live matrix is not the identity translated by (5, 3), for [refresh]
    has taken the horizontal translation back. *)
Lemma C3_refresh_moves_the_live_matrix :
  let chart := Examples.chart false None in
  let begin := Examples.event GestureState.ACTIVE GestureState.BEGAN 0 0
                 Num.one [] 0 0 in
  let gesture := [ (chart, BarLineChartTouchListener.PanState begin);
                   (chart, BarLineChartTouchListener.PanTouch (Examples.dragBy 1 1));
                   (chart, BarLineChartTouchListener.PanTouch (Examples.dragBy 5 3)) ] in
  let out := BarLineChartTouchListener.deliver gesture
               (Examples.started TouchMode.NONE) in
  fst out = Ok tt
  /\ BarLineChartTouchListener.isAnyAxisInverted chart = false
  /\ BarLineChartTouchListener.mTouchMode
       (BarLineChartTouchListener.this (snd out)) = TouchMode.DRAG
  /\ BarLineChartTouchListener.mSavedMatrix
       (BarLineChartTouchListener.this (snd out)) = Examples.identity
  /\ BarLineChartTouchListener.mMatrix (BarLineChartTouchListener.this (snd out))
     <> postTranslate Examples.identity (Examples.n 5) (Examples.n 3).
Proof.
  cbv zeta. repeat split; try (vm_compute; reflexivity).
  vm_compute. discriminate.
Qed.

Lemma C3_drag_is_relative_to_saved_matrix_witness :
  let moves := [(Examples.chart false None, Examples.dragBy 5 3);
                (Examples.chart false None, Examples.dragBy 2 9);
                (Examples.invertedChart, Examples.dragBy (-8) 2)] in
  BarLineChartTouchListener.mMatrix
    (BarLineChartTouchListener.this
       (snd (BarLineChartTouchListener.deliver
               (map BarLineChartTouchListener.panTouch moves)
               (Examples.started TouchMode.DRAG))))
  = BarLineChartTouchListener.refresh Examples.viewPort
      (postTranslate Examples.identity (Examples.n (-8))
                     (Num.neg (Examples.n 2))).
Proof.
  cbv zeta.
  destruct (C3_drag_is_relative_to_saved_matrix
              [(Examples.chart false None, Examples.dragBy 5 3);
               (Examples.chart false None, Examples.dragBy 2 9)]
              Examples.invertedChart (Examples.dragBy (-8) 2)
              (Examples.started TouchMode.DRAG))
    as (_ & _ & _ & Hlive).
  - reflexivity.
  - repeat constructor.
  - exact Hlive.
Defined.

(** *** More on a concrete chart *)

Lemma dispatch_throws_only_on_double_tap_without_data_witness :
  let tap := Examples.event GestureState.END GestureState.ACTIVE 0 0 Num.one
               [] 50 50 in
  fst (BarLineChartTouchListener.dispatch (Examples.chart true None)
         (BarLineChartTouchListener.DoubleTap tap)
         (Examples.started TouchMode.NONE))
  = Throw TypeError.
Proof.
  cbv zeta.
  apply (dispatch_throws_only_on_double_tap_without_data
           (Examples.chart true None)
           (BarLineChartTouchListener.DoubleTap
              (Examples.event GestureState.END GestureState.ACTIVE 0 0 Num.one
                 [] 50 50))
           (Examples.started TouchMode.NONE)).
  eexists. repeat split; try reflexivity. intros data [=].
Defined.

Lemma saved_matrix_changes_only_at_gesture_start_witness :
  let moves := [(Examples.chart false None,
                 BarLineChartTouchListener.PanTouch (Examples.dragBy 5 3));
                (Examples.chart false None,
                 BarLineChartTouchListener.PinchState
                   (Examples.event GestureState.END GestureState.ACTIVE 0 0
                      Num.one [] 0 0))] in
  BarLineChartTouchListener.mSavedMatrix
    (BarLineChartTouchListener.this
       (snd (BarLineChartTouchListener.deliver moves
               (Examples.started TouchMode.DRAG))))
  = Examples.identity.
Proof.
  cbv zeta.
  destruct (saved_matrix_changes_only_at_gesture_start
              [(Examples.chart false None,
                BarLineChartTouchListener.PanTouch (Examples.dragBy 5 3));
               (Examples.chart false None,
                BarLineChartTouchListener.PinchState
                  (Examples.event GestureState.END GestureState.ACTIVE 0 0
                     Num.one [] 0 0))]
              (Examples.chart false None) (Examples.dragBy 0 0)
              (Examples.started TouchMode.DRAG))
    as [Hkept _].
  rewrite Hkept; [reflexivity|].
  repeat constructor.
Defined.

Lemma touch_mode_transitions_witness :
  let events := [(Examples.chart false None,
                  BarLineChartTouchListener.PanTouch (Examples.dragBy 5 3));
                 (Examples.chart false None,
                  BarLineChartTouchListener.PinchState (Examples.dragBy 0 0))] in
  BarLineChartTouchListener.mTouchMode
    (BarLineChartTouchListener.this
       (snd (BarLineChartTouchListener.deliver events
               (Examples.started TouchMode.NONE))))
  <> TouchMode.POST_ZOOM.
Proof.
  cbv zeta.
  destruct (touch_mode_transitions
              (Examples.chart false None)
              (BarLineChartTouchListener.PanTouch (Examples.dragBy 5 3))
              [(Examples.chart false None,
                BarLineChartTouchListener.PanTouch (Examples.dragBy 5 3));
               (Examples.chart false None,
                BarLineChartTouchListener.PinchState (Examples.dragBy 0 0))]
              (Examples.started TouchMode.NONE))
    as [_ Hassigned].
  apply Hassigned. reflexivity.
Defined.

Lemma pinch_is_relative_to_saved_matrix_witness :
  let moves := [(Examples.chart true None, Examples.pinchBy (Examples.n 3));
                (Examples.chart true None, Examples.pinchBy (Examples.n 2))] in
  exists pivot,
    BarLineChartTouchListener.mMatrix
      (BarLineChartTouchListener.this
         (snd (BarLineChartTouchListener.deliver
                 (map BarLineChartTouchListener.pinchTouch moves)
                 (Examples.started TouchMode.PINCH_ZOOM))))
    = BarLineChartTouchListener.refresh Examples.viewPort
        (postScale Examples.identity (Examples.n 2) (Examples.n 2)
                   (px pivot) (py pivot)).
Proof.
  cbv zeta.
  destruct (pinch_is_relative_to_saved_matrix
              [(Examples.chart true None, Examples.pinchBy (Examples.n 3))]
              (Examples.chart true None) (Examples.pinchBy (Examples.n 2))
              (Examples.started TouchMode.PINCH_ZOOM))
    as (_ & _ & _ & Hscaled).
  - right. right. reflexivity.
  - repeat constructor.
  - eexists. apply Hscaled. vm_compute. reflexivity.
Defined.

Lemma gesture_end_resets_the_mode_witness :
  let finish := Examples.event GestureState.END GestureState.ACTIVE 0 0 Num.one
                  [] 0 0 in
  BarLineChartTouchListener.mTouchMode
    (BarLineChartTouchListener.this
       (snd (BarLineChartTouchListener.onPanGestureState
               (Examples.chart false None) finish
               (Examples.started TouchMode.DRAG))))
  = TouchMode.NONE.
Proof.
  cbv zeta.
  destruct (gesture_end_resets_the_mode (Examples.chart false None)
              (Examples.event GestureState.END GestureState.ACTIVE 0 0 Num.one
                 [] 0 0)
              (Examples.started TouchMode.DRAG))
    as [Hpan _]; [left; reflexivity|].
  destruct Hpan as [Hdrag _]; [reflexivity|].
  destruct Hdrag as [Hthis _]; [reflexivity|].
  rewrite Hthis. reflexivity.
Defined.


Lemma pan_move_in_mode_none_witness :
  BarLineChartTouchListener.mTouchMode
    (BarLineChartTouchListener.this
       (snd (BarLineChartTouchListener.onPanGestureTouch
               (Examples.chart false None) (Examples.dragBy 5 3)
               (Examples.started TouchMode.NONE))))
  = TouchMode.DRAG.
Proof.
  destruct (@pan_move_in_mode_none _ _ _ _ _ (Examples.chart false None)
              (Examples.dragBy 5 3) (Examples.started TouchMode.NONE))
    as (_ & Hpan & _).
  - reflexivity.
  - split; reflexivity.
  - destruct Hpan as [Hdrag _]; [reflexivity|].
    rewrite Hdrag; reflexivity.
Defined.

Lemma pinch_begin_without_four_positions_witness :
  let begin := Examples.event GestureState.ACTIVE GestureState.BEGAN 0 0 Num.one
                 [Examples.n 10; Examples.n 20; Examples.n 110] 0 0 in
  BarLineChartTouchListener.mTouchMode
    (BarLineChartTouchListener.this
       (snd (BarLineChartTouchListener.onPinchGestureState
               (Examples.chart false None) begin
               (Examples.started TouchMode.NONE))))
  = TouchMode.Y_ZOOM.
Proof.
  cbv zeta.
  apply (pinch_begin_without_four_positions (Examples.chart false None)
           (Examples.event GestureState.ACTIVE GestureState.BEGAN 0 0 Num.one
              [Examples.n 10; Examples.n 20; Examples.n 110] 0 0)
           (Examples.started TouchMode.NONE));
    try reflexivity.
  simpl. lia.
Defined.


End ListenerFacts.
